(** * CSDAT terrain editor: sector codec, mosaic assembly and normalisation

    A shallow embedding of [csdat_terrain_editor.py].  Python floats are
    modelled by exact rationals ([Q]): every value the codec itself produces
    (a 16-bit integer divided by 128, and its product with 128) is exactly
    representable in binary floating point, so the codec is modelled without
    loss; the normaliser is modelled over exact arithmetic.  A rational
    stands for a finite float: the one place where the code leaves the finite
    floats, the product of a height and 128 that reaches 2^1024, is modelled
    by its exception ([float_overflow]); a cell that is a NaN or an infinity
    is not represented.  Files are modelled by their contents, a list of
    bytes.  numpy arrays are modelled
    by a record carrying the shape and the rows. *)

From Stdlib Require Import ZArith QArith Qabs Qminmax Qround Lia Lqa List String Ascii.
From Stdlib Require Import Init.Byte Strings.Byte.
From stdpp Require Import base option list gmap strings pretty.

Local Open Scope nat_scope.

(** ** Bytes and integers *)

Definition byte_val (b : byte) : Z := Z.of_N (Byte.to_N b).

(** [int.from_bytes(data, 'little')] *)
Definition int_from_bytes_little (data : list byte) : Z :=
  foldr (fun b acc => (byte_val b + 256 * acc)%Z) 0%Z data.

(** [v.to_bytes(2, 'little')]; [None] stands for Python's [OverflowError]. *)
Definition int_to_bytes2_little (v : Z) : option (list byte) :=
  if ((0 <=? v) && (v <? 65536))%Z then
    lo ← Byte.of_N (Z.to_N (v mod 256));
    hi ← Byte.of_N (Z.to_N (v / 256));
    Some [lo; hi]
  else None.

(** [int(x)] on a float: truncation toward zero. *)
Definition int_of_float (x : Q) : Z := Z.quot (Qnum x) (Z.pos (Qden x)).

(** Whether a product of floats, given by its exact value, leaves the finite
    floats (doubles): from 2^1024 on the result is an infinity.  The product
    of a float and 128 is exact below that bound. *)
Definition float_overflow (x : Q) : bool :=
  Qle_bool (inject_Z (2 ^ 1024)) (Qabs x).

(** The rounding of the specification's encoder, [round(x)]: the nearest
    integer (it is only compared with [int_of_float] away from ties). *)
Definition round_nearest (x : Q) : Z := Qfloor (x + (1 # 2)).

(** [content[pos:pos+2] = data] on a [bytearray]: the slice bounds are
    clamped to the length, so no index is ever out of range. *)
Definition bytearray_set_slice2 (content : list byte) (pos : nat)
    (data : list byte) : list byte :=
  take pos content ++ data ++ drop (pos + 2) content.

(** the little-endian unsigned 16-bit integer stored at [pos] *)
Definition read_u16le (content : list byte) (pos : nat) : option Z :=
  b0 ← content !! pos; b1 ← content !! (pos + 1);
  Some (int_from_bytes_little [b0; b1]).

(** the value decoded from the two sample bytes stored at [pos] *)
Definition sample_at (content : list byte) (pos : nat) : Q :=
  (inject_Z (int_from_bytes_little (take 2 (drop pos content))) / 128)%Q.

(** ** numpy arrays (two-dimensional, of floats) *)

Record ndarray := mk_ndarray {
  nrows : nat;
  ncols : nat;
  cells : list (list Q)
}.

Definition wf_ndarray (a : ndarray) : Prop :=
  length (cells a) = nrows a /\ Forall (fun r => length r = ncols a) (cells a).

(** [a[i, j]] for indices known to be in range *)
Definition get (a : ndarray) (i j : nat) : Q :=
  default 0%Q (cells a !! i ≫= fun r => r !! j).

(** [a[i, j]] for non-negative indices; [None] stands for [IndexError]. *)
Definition getitem (a : ndarray) (i j : nat) : option Q :=
  if (i <? nrows a) && (j <? ncols a) then Some (get a i j) else None.

Definition tabulate (h w : nat) (f : nat -> nat -> Q) : ndarray :=
  mk_ndarray h w ((fun i => f i <$> seq 0 w) <$> seq 0 h).

(** [np.zeros((h, w))] *)
Definition np_zeros (h w : nat) : ndarray := tabulate h w (fun _ _ => 0%Q).

(** [np.array(rows)] on a list of lists of floats.  Rows of unequal length
    raise [ValueError] (inhomogeneous shape, numpy 1.24 and later), modelled
    by [None].  For the empty list numpy yields the one-dimensional empty
    array; it is represented here by the array of shape (0, 0), which has
    the same (empty) set of cells. *)
Definition np_array (rows : list (list Q)) : option ndarray :=
  match rows with
  | [] => Some (mk_ndarray 0 0 [])
  | r :: rs =>
      if forallb (fun r' => length r' =? length r) rs
      then Some (mk_ndarray (length rows) (length r) rows)
      else None
  end.

(** [np.flipud(a)]: [a[::-1, :]] *)
Definition flipud (a : ndarray) : ndarray :=
  tabulate (nrows a) (ncols a) (fun i j => get a (nrows a - 1 - i) j).

(** [np.fliplr(a)]: [a[:, ::-1]] *)
Definition fliplr (a : ndarray) : ndarray :=
  tabulate (nrows a) (ncols a) (fun i j => get a i (ncols a - 1 - j)).

Definition transpose (a : ndarray) : ndarray :=
  tabulate (ncols a) (nrows a) (fun i j => get a j i).

(** [np.rot90(a, k)], following numpy's definition by cases on [k % 4]. *)
Definition rot90 (a : ndarray) (k : Z) : ndarray :=
  match (k mod 4)%Z with
  | 0%Z => a
  | 1%Z => transpose (fliplr a)
  | 2%Z => fliplr (flipud a)
  | _ => fliplr (transpose a)
  end.

(** [a[sy:ey, sx:ex]] for non-negative bounds (clamped to the shape) *)
Definition slice (a : ndarray) (sy ey sx ex : nat) : ndarray :=
  tabulate (Nat.min ey (nrows a) - sy) (Nat.min ex (ncols a) - sx)
           (fun i j => get a (sy + i) (sx + j)).

(** Broadcasting of a two-dimensional value to the shape (h, w):
    each axis must have the target length or length 1. *)
Definition broadcast_to (v : ndarray) (h w : nat) : option ndarray :=
  if ((nrows v =? h) || (nrows v =? 1)) && ((ncols v =? w) || (ncols v =? 1))
  then Some (tabulate h w (fun i j =>
         get v (if nrows v =? h then i else 0) (if ncols v =? w then j else 0)))
  else None.

(** [a[sy:ey, sx:ex] = v]; [None] stands for the [ValueError] raised when
    [v] cannot be broadcast to the shape of the slice. *)
Definition set_slice (a : ndarray) (sy ey sx ex : nat) (v : ndarray)
    : option ndarray :=
  let h := Nat.min ey (nrows a) - sy in
  let w := Nat.min ex (ncols a) - sx in
  b ← broadcast_to v h w;
  Some (tabulate (nrows a) (ncols a) (fun i j =>
    if (sy <=? i) && (i <? sy + h) && (sx <=? j) && (j <? sx + w)
    then get b (i - sy) (j - sx) else get a i j)).

(** elementwise map *)
Definition nd_map (f : Q -> Q) (a : ndarray) : ndarray :=
  mk_ndarray (nrows a) (ncols a) ((fun r : list Q => f <$> r) <$> cells a).


(** [a.flatten()] *)
Definition flatten (a : ndarray) : list Q := mjoin (cells a).

(** [np.min] and [np.max]; [None] stands for the [ValueError] raised on an
    array without elements. *)
Definition np_min (a : ndarray) : option Q :=
  match flatten a with
  | [] => None
  | x :: xs => Some (foldl Qmin x xs)
  end.

Definition np_max (a : ndarray) : option Q :=
  match flatten a with
  | [] => None
  | x :: xs => Some (foldl Qmax x xs)
  end.

(** ** Sector codec *)

(** The inner loop of [load_single_sector]: read up to [n] cells from the
    stream, stopping at the first cell whose two sample bytes are not both
    there.  Returns the row and the rest of the stream. *)
Fixpoint read_row (n : nat) (stream : list byte) : list Q * list byte :=
  match n with
  | O => ([], stream)
  | S n' =>
      let data := take 2 stream in
      let stream := drop 2 stream in
      if length data <? 2 then ([], stream)
      else
        let height := (inject_Z (int_from_bytes_little data) / 128)%Q in
        let stream := drop 2 stream in
        let '(row, stream) := read_row n' stream in
        (height :: row, stream)
  end.

(** The outer loop: [m] rows of up to [grid_size] cells. *)
Fixpoint read_rows (m grid_size : nat) (stream : list byte) : list (list Q) :=
  match m with
  | O => []
  | S m' =>
      let '(row, stream) := read_row grid_size stream in
      row :: read_rows m' grid_size stream
  end.

(** [load_single_sector(file_path, grid_size)], on the contents of the file.
    [None] is the function's [None] result (any exception is caught). *)
Definition load_single_sector (content : list byte) (grid_size : nat)
    : option ndarray :=
  let terrain_data_bytes := take 16900 (drop 708 content) in
  np_array (read_rows grid_size grid_size terrain_data_bytes).

(** One iteration of the body of the write loop.  [None] stands for the
    exception that ends the loop: [IndexError] outside the grid, and the
    [OverflowError] of [int] on the infinity that the product with 128 gives
    for a height of magnitude 2^1017 or more. *)
Definition write_cell (height_data_flipped : ndarray) (grid_size : nat)
    (file_content : list byte) (yx : nat * nat) : option (list byte) :=
  let '(y, x) := yx in
  h ← getitem height_data_flipped y x;
  if float_overflow (h * 128)%Q then None
  else
    let height_value := int_of_float (h * 128)%Q in
    let height_value := Z.max 0 (Z.min 65535 height_value) in
    let pos := 708 + (y * grid_size + x) * 4 in
    data ← int_to_bytes2_little height_value;
    Some (bytearray_set_slice2 file_content pos data).

(** the index pairs visited by [for y in range(h): for x in range(w):] *)
Definition range2 (h w : nat) : list (nat * nat) :=
  y ← seq 0 h; x ← seq 0 w; [(y, x)].

(** [write_sector_to_file(file_path, height_data, grid_size)] on the contents
    of the file: the returned flag and the contents of the file afterwards
    (unchanged when an exception was caught before the write-back). *)
Definition write_sector_to_file (content : list byte) (height_data : ndarray)
    (grid_size : nat) : bool * list byte :=
  let height_data_flipped := flipud height_data in
  match foldl (fun acc yx => acc ≫= fun c => write_cell height_data_flipped grid_size c yx)
              (Some content) (range2 grid_size grid_size) with
  | Some file_content => (true, file_content)
  | None => (false, content)
  end.

(** ** Sector directory *)

(** [glob] with the pattern [sd*.csdat] (on a case-sensitive file system):
    the name starts with [sd] and ends with [.csdat]. *)
Definition glob_sd_csdat (filename : string) : bool :=
  String.prefix "sd" filename
  && (8 <=? String.length filename)
  && String.eqb (substring (String.length filename - 6) 6 filename) ".csdat".

(** [filename[2:-6]] *)
Definition sector_num_text (filename : string) : string :=
  substring 2 (String.length filename - 6 - 2) filename.

(** [load_sectors_from_directory(directory, sectors_x, sectors_y)].  The
    directory is given by its entries (file name and contents) in the order
    in which [glob] lists them; [py_int] is Python's built-in [int] on a
    string, with [None] for [ValueError].  The sector is always decoded with
    the default [grid_size] of 65. *)
Definition load_sectors_from_directory (py_int : string -> option Z)
    (directory : list (string * list byte)) (sectors_x sectors_y : nat)
    : gmap Z ndarray :=
  foldl (fun sectors_data '(filename, content) =>
           if glob_sd_csdat filename then
             match py_int (sector_num_text filename) with
             | Some sector_num =>
                 match load_single_sector content 65 with
                 | Some height_data => <[sector_num := height_data]> sectors_data
                 | None => sectors_data
                 end
             | None => sectors_data
             end
           else sectors_data)
        ∅ directory.

(** [int] on an optionally signed string of ASCII decimal digits; the other
    spellings that Python accepts (surrounding blanks, underscores) are not
    needed below.  The theorems hold for any [py_int]; this instance serves
    the concrete examples. *)
Definition digit_val (c : ascii) : option Z :=
  let n := nat_of_ascii c in
  if (48 <=? n) && (n <=? 57) then Some (Z.of_nat (n - 48)) else None.

Fixpoint decimal_digits (acc : Z) (s : string) : option Z :=
  match s with
  | EmptyString => Some acc
  | String c s' =>
      match digit_val c with
      | Some d => decimal_digits (10 * acc + d)%Z s'
      | None => None
      end
  end.

Definition decimal_int (s : string) : option Z :=
  match s with
  | EmptyString => None
  | String "-" (String c s') => Z.opp <$> decimal_digits 0 (String c s')
  | String "+" (String c s') => decimal_digits 0 (String c s')
  | _ => decimal_digits 0 s
  end.

(** ** Mosaic assembly *)

(** The body of the placement loop of [create_combined_heightmap]. *)
Definition place_sector (sectors_data : gmap Z ndarray)
    (sectors_x sectors_y grid_size : nat) (combined_map : ndarray)
    (rc : nat * nat) : option ndarray :=
  let '(display_row, col) := rc in
  let sector_row := sectors_y - 1 - display_row in
  let sector_index := sector_row * sectors_x + col in
  match sectors_data !! Z.of_nat sector_index with
  | Some sector =>
      let start_y := display_row * grid_size in
      let end_y := start_y + grid_size in
      let start_x := col * grid_size in
      let end_x := start_x + grid_size in
      let flipped_sector := flipud sector in
      set_slice combined_map start_y end_y start_x end_x flipped_sector
  | None => Some combined_map
  end.

(** [create_combined_heightmap(sectors_data, sectors_x, sectors_y, grid_size)];
    [None] stands for the [ValueError] of a sector that does not fit its
    slot. *)
Definition create_combined_heightmap (sectors_data : gmap Z ndarray)
    (sectors_x sectors_y grid_size : nat) : option ndarray :=
  let total_width := sectors_x * grid_size in
  let total_height := sectors_y * grid_size in
  combined_map ←
    foldl (fun acc rc =>
             acc ≫= fun m => place_sector sectors_data sectors_x sectors_y grid_size m rc)
          (Some (np_zeros total_height total_width))
          (range2 sectors_y sectors_x);
  let combined_map := rot90 combined_map 1 in
  let combined_map := fliplr combined_map in
  Some combined_map.

(** ** Normalisation and the image *)

Definition Qlt_bool (x y : Q) : bool := negb (Qle_bool y x).

(** A Blender image: its size and its flat RGBA pixel buffer.  The buffer
    holds single-precision floats; the rounding is not modelled. *)
Record image := mk_image {
  img_width : nat;
  img_height : nat;
  pixels : list Q
}.

(** The normalisation step of [numpy_to_blender_image]. *)
Definition normalize (numpy_array : ndarray) : option ndarray :=
  min_val ← np_min numpy_array;
  max_val ← np_max numpy_array;
  Some (if Qlt_bool min_val max_val
        then nd_map (fun v => (v - min_val) / (max_val - min_val))%Q numpy_array
        else np_zeros (nrows numpy_array) (ncols numpy_array)).

(** [numpy_to_blender_image(numpy_array, name, rotate_texture)] *)
Definition numpy_to_blender_image (numpy_array : ndarray)
    (rotate_texture : bool) : option image :=
  let numpy_array := if rotate_texture then rot90 numpy_array 1 else numpy_array in
  let height := nrows numpy_array in
  let width := ncols numpy_array in
  normalized ← normalize numpy_array;
  let pixels := flatten normalized ≫= fun v => [v; v; v; 1%Q] in
  Some (mk_image width height pixels).

(** [blender_image_to_numpy(image)]: the R channel of every pixel *)
Definition blender_image_to_numpy (img : image) : ndarray :=
  let width := img_width img in
  let height := img_height img in
  tabulate height width
    (fun i j => default 0%Q (pixels img !! ((i * width + j) * 4))).

(** ** Export *)

(** The three steps that undo the display transformations. *)
Definition export_undo_transforms (edited_array : ndarray) : ndarray :=
  let edited_array := rot90 edited_array (-1) in
  let edited_array := fliplr edited_array in
  let edited_array := rot90 edited_array (-1) in
  edited_array.

(** The denormalisation step. *)
Definition denormalize (edited_array : ndarray) (original_min original_max : Q)
    : ndarray :=
  if Qlt_bool original_min original_max
  then nd_map (fun p => p * (original_max - original_min) + original_min)%Q edited_array
  else nd_map (fun p => p * original_max)%Q edited_array.

(** The export loop: the calls [write_sector_to_file(sd<index>.csdat,
    sector_data, grid_size)] it makes, in order.  [file_exists k] tells
    whether the file [sd<k>.csdat] exists in the current directory. *)
Definition export_calls (file_exists : nat -> bool) (denormalized : ndarray)
    (sectors_x sectors_y grid_size : nat) : list (nat * ndarray) :=
  '(display_row, col) ← range2 sectors_y sectors_x;
  let sector_row := sectors_y - 1 - display_row in
  let sector_index := sector_row * sectors_x + col in
  let start_y := display_row * grid_size in
  let end_y := start_y + grid_size in
  let start_x := col * grid_size in
  let end_x := start_x + grid_size in
  let sector_data := slice denormalized start_y end_y start_x end_x in
  if file_exists sector_index then [(sector_index, sector_data)] else [].

(** The split of an edited array into sector grids, as the export path
    performs it: undo the display transformations, extract the block of
    every sector whose file exists, and flip it vertically as
    [write_sector_to_file] does before it encodes the rows. *)
Definition export_split (file_exists : nat -> bool) (edited_array : ndarray)
    (sectors_x sectors_y grid_size : nat) : list (nat * ndarray) :=
  (fun '(sector_index, sector_data) => (sector_index, flipud sector_data))
    <$> export_calls file_exists (export_undo_transforms edited_array)
          sectors_x sectors_y grid_size.

(** ** Session state and the two operators *)

(** The module-level [terrain_data] object.  [terrain_object], a handle on
    the Blender mesh object, is left out. *)
Record TerrainEditorData := mk_terrain_data {
  td_sectors_data : gmap Z ndarray;
  td_current_directory : string;
  td_grid_size : nat;
  td_sectors_x : nat;
  td_sectors_y : nat;
  td_heightmap_image : option image
}.

(** [TerrainEditorData()] *)
Definition terrain_data_init : TerrainEditorData :=
  mk_terrain_data ∅ "" 65 8 8 None.

(** the set returned by an operator's [execute] *)
Inductive operator_result := CANCELLED | FINISHED.

(** [min(l)] and [max(l)] on a list of floats; [None] stands for the
    [ValueError] raised on an empty list. *)
Definition py_min (l : list Q) : option Q :=
  match l with
  | [] => None
  | x :: xs => Some (foldl Qmin x xs)
  end.

Definition py_max (l : list Q) : option Q :=
  match l with
  | [] => None
  | x :: xs => Some (foldl Qmax x xs)
  end.

(** [f"sd{sector_index}.csdat"] *)
Definition sector_filename (sector_index : nat) : string :=
  "sd" +:+ pretty sector_index +:+ ".csdat".

(** The list [all_heights] of the export: the cells of every loaded sector.
    (The dictionary is visited in the order of [map_to_list]; the minimum and
    the maximum do not depend on the order.) *)
Definition all_heights (sectors_data : gmap Z ndarray) : list Q :=
  (map_to_list sectors_data).*2 ≫= flatten.

(** [glob.has_magic]: the path holds one of the characters [*], [?], [[]. *)
Fixpoint has_magic (s : string) : bool :=
  match s with
  | EmptyString => false
  | String c s' =>
      Ascii.eqb c "*" || Ascii.eqb c "?" || Ascii.eqb c "[" || has_magic s'
  end.

(** The files among which [glob.glob(os.path.join(directory, "sd*.csdat"))]
    selects by name.  The path is handed to [glob] as it is, so it is read
    as a pattern itself: without magic characters the files are those of the
    directory; with magic characters they are the files of the directories
    whose path matches.  [fs] gives the files (name and contents) of the
    directory at a path (the current directory for the empty path), none
    when there is no such directory, and [glob_dirs] the paths of the
    directories that match a pattern. *)
Definition glob_files (glob_dirs : string -> list string)
    (fs : string -> list (string * list byte)) (directory : string)
    : list (string * list byte) :=
  if has_magic directory then dirname ← glob_dirs directory; fs dirname
  else fs directory.

(** The part of [TERRAIN_OT_import.execute] that works on [terrain_data]:
    the settings are stored, the sectors are loaded and the heightmap image
    is made.  [directory] is the path chosen in the file browser.  The first
    component is the returned set, [None] when an exception leaves the
    operator; the second is [terrain_data] afterwards.  The construction of
    the mesh, its material and its modifiers, which follows in the source,
    acts on the Blender scene only. *)
Definition import_execute (py_int : string -> option Z)
    (glob_dirs : string -> list string) (fs : string -> list (string * list byte))
    (directory : string) (sectors_x sectors_y : nat)
    (terrain_data : TerrainEditorData) : option operator_result * TerrainEditorData :=
  let entries := glob_files glob_dirs fs directory in
  let loaded := load_sectors_from_directory py_int entries sectors_x sectors_y in
  let terrain_data :=
    mk_terrain_data loaded directory (td_grid_size terrain_data)
      sectors_x sectors_y (td_heightmap_image terrain_data) in
  if decide (loaded = ∅) then (Some CANCELLED, terrain_data)
  else
    match create_combined_heightmap loaded sectors_x sectors_y
            (td_grid_size terrain_data) with
    | None => (None, terrain_data)
    | Some combined_map =>
        match numpy_to_blender_image combined_map true with
        | None => (None, terrain_data)
        | Some img =>
            (Some FINISHED,
             mk_terrain_data loaded directory (td_grid_size terrain_data)
               sectors_x sectors_y (Some img))
        end
    end.

(** The body of the export loop: the files of the current directory (by
    name) and the two counters, before and after one sector. *)
Definition export_sector (terrain_data : TerrainEditorData) (denormalized : ndarray)
    (state : gmap string (list byte) * nat * nat) (rc : nat * nat)
    : gmap string (list byte) * nat * nat :=
  let '(files, sectors_written, sectors_failed) := state in
  let '(display_row, col) := rc in
  let sector_row := td_sectors_y terrain_data - 1 - display_row in
  let sector_index := sector_row * td_sectors_x terrain_data + col in
  let start_y := display_row * td_grid_size terrain_data in
  let end_y := start_y + td_grid_size terrain_data in
  let start_x := col * td_grid_size terrain_data in
  let end_x := start_x + td_grid_size terrain_data in
  let sector_data := slice denormalized start_y end_y start_x end_x in
  let file_path := sector_filename sector_index in
  match files !! file_path with
  | Some content =>
      match write_sector_to_file content sector_data (td_grid_size terrain_data) with
      | (true, content') => (<[file_path := content']> files, S sectors_written, sectors_failed)
      | (false, _) => (files, sectors_written, S sectors_failed)
      end
  | None => state
  end.

(** [TERRAIN_OT_export.execute] on the files of the current directory: the
    returned set ([None] when an exception leaves the operator), the files
    afterwards, and the counters [sectors_written] and [sectors_failed] of
    the final report. *)
Definition export_execute (terrain_data : TerrainEditorData)
    (files : gmap string (list byte))
    : option operator_result * gmap string (list byte) * nat * nat :=
  match td_heightmap_image terrain_data with
  | None => (Some CANCELLED, files, 0, 0)
  | Some edited_image =>
      if decide (td_current_directory terrain_data = "") then (Some CANCELLED, files, 0, 0)
      else
        let edited_array := blender_image_to_numpy edited_image in
        let edited_array := export_undo_transforms edited_array in
        let all_heights := all_heights (td_sectors_data terrain_data) in
        match py_min all_heights, py_max all_heights with
        | Some original_min, Some original_max =>
            let denormalized := denormalize edited_array original_min original_max in
            let '(files, sectors_written, sectors_failed) :=
              foldl (export_sector terrain_data denormalized) (files, 0, 0)
                    (range2 (td_sectors_y terrain_data) (td_sectors_x terrain_data)) in
            (Some FINISHED, files, sectors_written, sectors_failed)
        | _, _ => (None, files, 0, 0)
        end
  end.

(** * Properties *)

(** ** Arrays *)

Section ndarray_facts.

Lemma nrows_tabulate h w f : nrows (tabulate h w f) = h.
Proof. reflexivity. Qed.

Lemma ncols_tabulate h w f : ncols (tabulate h w f) = w.
Proof. reflexivity. Qed.

Lemma get_tabulate h w f i j :
i < h -> j < w -> get (tabulate h w f) i j = f i j.
Proof.
intros Hi Hj. unfold get, tabulate; simpl.
rewrite list_lookup_fmap, lookup_seq_lt by done; simpl.
rewrite list_lookup_fmap, lookup_seq_lt by done. done.
Qed.

Lemma wf_tabulate h w f : wf_ndarray (tabulate h w f).
Proof.
split; simpl.
- by rewrite length_fmap, length_seq.
- apply Forall_fmap, Forall_forall. intros i _. simpl.
  by rewrite length_fmap, length_seq.
Qed.

Lemma tabulate_ext h w f f' :
(forall i j, i < h -> j < w -> f i j = f' i j) ->
tabulate h w f = tabulate h w f'.
Proof.
intros Hf. unfold tabulate. f_equal.
apply list_fmap_ext. intros k i Hk.
apply lookup_seq in Hk as [-> Hk].
apply list_fmap_ext. intros k' j Hk'.
apply lookup_seq in Hk' as [-> Hk']. by apply Hf.
Qed.

Lemma tabulate_get a :
wf_ndarray a -> tabulate (nrows a) (ncols a) (get a) = a.
Proof.
destruct a as [h w cs]. intros [Hlen Hrows]; simpl in *.
unfold tabulate. f_equal. apply list_eq. intros i.
rewrite list_lookup_fmap.
destruct (decide (i < h)) as [Hi|Hi].
- rewrite lookup_seq_lt by done; simpl.
  destruct (lookup_lt_is_Some_2 cs i) as [r Hr]; [lia|].
  rewrite Hr. f_equal.
  assert (length r = w) as Hw.
  { rewrite Forall_forall in Hrows. apply Hrows.
    by apply list_elem_of_lookup_2 in Hr. }
  apply list_eq. intros j. rewrite list_lookup_fmap.
  destruct (decide (j < w)) as [Hj|Hj].
  + rewrite lookup_seq_lt by done; simpl.
    destruct (lookup_lt_is_Some_2 r j) as [x Hx]; [lia|].
    unfold get; simpl. by rewrite Hr; simpl; rewrite Hx.
  + rewrite lookup_seq_ge by lia; simpl.
    symmetry. apply lookup_ge_None. lia.
- rewrite lookup_seq_ge by lia; simpl.
  symmetry. apply lookup_ge_None. lia.
Qed.

(** two well-formed arrays with the same shape and the same cells are equal *)
Lemma ndarray_eq a b :
wf_ndarray a -> wf_ndarray b ->
nrows a = nrows b -> ncols a = ncols b ->
(forall i j, i < nrows a -> j < ncols a -> get a i j = get b i j) ->
a = b.
Proof.
intros Ha Hb Hr Hc Hget.
rewrite <- (tabulate_get a Ha), <- (tabulate_get b Hb), <- Hr, <- Hc.
by apply tabulate_ext.
Qed.

Lemma get_flipud a i j :
i < nrows a -> j < ncols a -> get (flipud a) i j = get a (nrows a - 1 - i) j.
Proof. intros. unfold flipud. by rewrite get_tabulate. Qed.

Lemma get_fliplr a i j :
i < nrows a -> j < ncols a -> get (fliplr a) i j = get a i (ncols a - 1 - j).
Proof. intros. unfold fliplr. by rewrite get_tabulate. Qed.

Lemma get_transpose a i j :
i < ncols a -> j < nrows a -> get (transpose a) i j = get a j i.
Proof. intros. unfold transpose. by rewrite get_tabulate. Qed.

Lemma flipud_involutive a : wf_ndarray a -> flipud (flipud a) = a.
Proof.
intros Ha. apply ndarray_eq; [apply wf_tabulate|done|done|done|].
simpl. intros i j Hi Hj.
rewrite get_flipud by done. rewrite get_flipud by (simpl; lia).
simpl. f_equal. lia.
Qed.

(** [rot90 a 1]: shape and cells *)
Lemma rot90_1_shape a :
nrows (rot90 a 1) = ncols a /\ ncols (rot90 a 1) = nrows a.
Proof. done. Qed.

Lemma get_rot90_1 a i j :
i < ncols a -> j < nrows a -> get (rot90 a 1) i j = get a j (ncols a - 1 - i).
Proof.
intros Hi Hj. change (rot90 a 1) with (transpose (fliplr a)).
rewrite get_transpose by done. by rewrite get_fliplr.
Qed.

Lemma rot90_m1_shape a :
nrows (rot90 a (-1)) = ncols a /\ ncols (rot90 a (-1)) = nrows a.
Proof. done. Qed.

Lemma get_rot90_m1 a i j :
i < ncols a -> j < nrows a -> get (rot90 a (-1)) i j = get a (nrows a - 1 - j) i.
Proof.
intros Hi Hj. change (rot90 a (-1)) with (fliplr (transpose a)).
rewrite get_fliplr by done. rewrite get_transpose by (simpl; lia). done.
Qed.

Lemma wf_rot90 a k : wf_ndarray a -> wf_ndarray (rot90 a k).
Proof.
intros Ha. unfold rot90.
destruct (k mod 4)%Z as [|[[]|[]|]|]; try done; apply wf_tabulate.
Qed.

Lemma get_slice a sy ey sx ex i j :
ey <= nrows a -> ex <= ncols a -> sy + i < ey -> sx + j < ex ->
get (slice a sy ey sx ex) i j = get a (sy + i) (sx + j).
Proof. intros. unfold slice. rewrite get_tabulate; [done|lia|lia]. Qed.

Lemma slice_shape a sy ey sx ex :
ey <= nrows a -> ex <= ncols a ->
nrows (slice a sy ey sx ex) = ey - sy /\ ncols (slice a sy ey sx ex) = ex - sx.
Proof. intros. simpl. lia. Qed.

End ndarray_facts.

(** ** Mosaic assembly *)

Lemma elem_of_range2 h w y x : (y, x) ∈ range2 h w <-> y < h /\ x < w.
Proof.
  unfold range2. rewrite list_elem_of_bind. split.
  - intros (y' & Hx & Hy). apply elem_of_seq in Hy.
    apply list_elem_of_bind in Hx as (x' & Hx & Hx').
    apply elem_of_seq in Hx'. apply list_elem_of_singleton in Hx.
    inversion Hx; subst. lia.
  - intros [Hy Hx]. exists y. split; [|apply elem_of_seq; lia].
    apply list_elem_of_bind. exists x. split; [|apply elem_of_seq; lia].
    by apply list_elem_of_singleton.
Qed.

Lemma foldl_bind_None {A B} (f : A -> B -> option A) l :
  foldl (fun acc b => acc ≫= fun a => f a b) None l = None.
Proof. induction l; simpl; auto. Qed.

Lemma set_slice_shape a sy ey sx ex v a' :
  set_slice a sy ey sx ex v = Some a' ->
  nrows a' = nrows a /\ ncols a' = ncols a /\ wf_ndarray a'.
Proof.
  unfold set_slice. intros H.
  destruct (broadcast_to _ _ _); simplify_eq/=.
  split_and!; [done..|apply wf_tabulate].
Qed.

Lemma set_slice_fits a sy ey sx ex v :
  ey <= nrows a -> ex <= ncols a ->
  nrows v = ey - sy -> ncols v = ex - sx ->
  exists a', set_slice a sy ey sx ex v = Some a' /\
    forall i j, i < nrows a -> j < ncols a ->
      get a' i j =
        if (sy <=? i) && (i <? ey) && (sx <=? j) && (j <? ex)
        then get v (i - sy) (j - sx) else get a i j.
Proof.
  intros Hey Hex Hr Hc. unfold set_slice, broadcast_to.
  rewrite !Nat.min_l by done. rewrite <- Hr, <- Hc, !Nat.eqb_refl. simpl.
  eexists. split; [done|]. intros i j Hi Hj.
  rewrite get_tabulate by done.
  destruct (Nat.leb_spec sy i), (Nat.ltb_spec i ey), (Nat.leb_spec sx j),
    (Nat.ltb_spec j ex), (Nat.ltb_spec i (sy + nrows v)),
    (Nat.ltb_spec j (sx + ncols v)); simpl; try lia; try done.
  rewrite get_tabulate by lia. done.
Qed.

Section placement.
Context (sectors_data : gmap Z ndarray) (sectors_x sectors_y grid_size : nat).

Local Abbreviation place :=
  (fun acc rc => acc ≫= fun m =>
     place_sector sectors_data sectors_x sectors_y grid_size m rc).
Local Abbreviation index_of dr c := ((sectors_y - 1 - dr) * sectors_x + c).
Local Abbreviation in_block i j dr c :=
  (dr * grid_size <= i < dr * grid_size + grid_size /\
   c * grid_size <= j < c * grid_size + grid_size).

Lemma place_sector_shape m rc m' :
  wf_ndarray m ->
  place_sector sectors_data sectors_x sectors_y grid_size m rc = Some m' ->
  nrows m' = nrows m /\ ncols m' = ncols m /\ wf_ndarray m'.
Proof.
  intros Hm. destruct rc as [dr c]. unfold place_sector.
  destruct (sectors_data !! _).
  - apply set_slice_shape.
  - intros [= <-]. done.
Qed.

Lemma fold_place_shape l m0 m :
  wf_ndarray m0 ->
  foldl place (Some m0) l = Some m ->
  nrows m = nrows m0 /\ ncols m = ncols m0 /\ wf_ndarray m.
Proof.
  revert m0. induction l as [|rc l IH]; intros m0 Hm0; simpl.
  - intros [= <-]. done.
  - destruct (place_sector _ _ _ _ m0 rc) as [m1|] eqn:Hp.
    + apply place_sector_shape in Hp as (Hr & Hc & Hwf); [|done].
      intros Hf. apply IH in Hf; [|done]. rewrite <- Hr, <- Hc. done.
    + by rewrite foldl_bind_None.
Qed.

(** the sectors that have a slot fit it *)
Hypothesis sectors_square : forall k s,
  sectors_data !! k = Some s -> nrows s = grid_size /\ ncols s = grid_size.

Lemma place_sector_cells m dr c :
  nrows m = sectors_y * grid_size -> ncols m = sectors_x * grid_size ->
  dr < sectors_y -> c < sectors_x ->
  exists m',
    place_sector sectors_data sectors_x sectors_y grid_size m (dr, c) = Some m' /\
    forall i j, i < nrows m -> j < ncols m ->
      get m' i j =
        match sectors_data !! Z.of_nat (index_of dr c) with
        | Some s =>
            if (dr * grid_size <=? i) && (i <? dr * grid_size + grid_size)
               && (c * grid_size <=? j) && (j <? c * grid_size + grid_size)
            then get s (grid_size - 1 - (i - dr * grid_size)) (j - c * grid_size)
            else get m i j
        | None => get m i j
        end.
Proof.
  intros Hr Hc Hdr Hcol. unfold place_sector.
  destruct (sectors_data !! _) as [s|] eqn:Hs; [|by eexists].
  destruct (sectors_square _ _ Hs) as [Hsr Hsc].
  destruct (set_slice_fits m (dr * grid_size) (dr * grid_size + grid_size)
              (c * grid_size) (c * grid_size + grid_size) (flipud s))
    as (m' & Hm' & Hget); simpl; [nia|nia|lia|lia|].
  exists m'. split; [done|]. intros i j Hi Hj. rewrite Hget by done.
  destruct (Nat.leb_spec (dr * grid_size) i),
    (Nat.ltb_spec i (dr * grid_size + grid_size)),
    (Nat.leb_spec (c * grid_size) j),
    (Nat.ltb_spec j (c * grid_size + grid_size)); simpl; try done.
  rewrite get_flipud by lia. by rewrite Hsr.
Qed.

Lemma in_block_unique i j dr c dr' c' :
  in_block i j dr c -> in_block i j dr' c' -> dr = dr' /\ c = c'.
Proof. nia. Qed.

Lemma fold_place_cells l m0 :
  wf_ndarray m0 ->
  nrows m0 = sectors_y * grid_size -> ncols m0 = sectors_x * grid_size ->
  (forall dr c, (dr, c) ∈ l -> dr < sectors_y /\ c < sectors_x) ->
  exists m,
    foldl place (Some m0) l = Some m /\
    (forall i j dr c s, i < nrows m0 -> j < ncols m0 ->
       (dr, c) ∈ l -> sectors_data !! Z.of_nat (index_of dr c) = Some s ->
       in_block i j dr c ->
       get m i j = get s (grid_size - 1 - (i - dr * grid_size)) (j - c * grid_size)) /\
    (forall i j, i < nrows m0 -> j < ncols m0 ->
       (forall dr c s, (dr, c) ∈ l ->
          sectors_data !! Z.of_nat (index_of dr c) = Some s ->
          ~ in_block i j dr c) ->
       get m i j = get m0 i j).
Proof.
  revert m0. induction l as [|[dr0 c0] l IH]; intros m0 Hwf Hr Hc Hl.
  - exists m0. split; [done|]. split; [|done].
    intros ????? _ _ Hin. by apply elem_of_nil in Hin.
  - destruct (Hl dr0 c0) as [Hdr0 Hc0]; [by left|].
    destruct (place_sector_cells m0 dr0 c0) as (m1 & Hm1 & Hget1); [done..|].
    destruct (place_sector_shape _ _ _ Hwf Hm1) as (Hr1 & Hc1 & Hwf1).
    destruct (IH m1) as (m & Hm & Ha & Hb); [done|lia|lia| |].
    { intros dr c Hin. apply Hl. by right. }
    exists m. split.
    { change (foldl place (place (Some m0) (dr0, c0)) l = Some m).
      cbn [mbind option_bind]. by rewrite Hm1. }
    rewrite Hr1, Hc1 in Ha, Hb. split.
    + intros i j dr c s Hi Hj Hin Hs Hblk.
      destruct (decide ((dr, c) ∈ l)) as [Hin'|Hnin]; [by eapply Ha|].
      apply elem_of_cons in Hin as [Heq|Hin]; [|done].
      inversion Heq; subst dr0 c0.
      rewrite Hb; [|done|done|].
      * rewrite Hget1, Hs by done.
        destruct Hblk as [[? ?] [? ?]].
        destruct (Nat.leb_spec (dr * grid_size) i),
          (Nat.ltb_spec i (dr * grid_size + grid_size)),
          (Nat.leb_spec (c * grid_size) j),
          (Nat.ltb_spec j (c * grid_size + grid_size)); simpl; try lia; done.
      * intros dr' c' s' Hin'' _ Hblk'.
        destruct (in_block_unique _ _ _ _ _ _ Hblk Hblk') as [-> ->]. done.
    + intros i j Hi Hj Hnone.
      rewrite Hb; [|done|done|].
      * rewrite Hget1 by done.
        destruct (sectors_data !! Z.of_nat (index_of dr0 c0)) as [s|] eqn:Hs; [|done].
        destruct (Nat.leb_spec (dr0 * grid_size) i),
          (Nat.ltb_spec i (dr0 * grid_size + grid_size)),
          (Nat.leb_spec (c0 * grid_size) j),
          (Nat.ltb_spec j (c0 * grid_size + grid_size)); simpl; try done.
        exfalso. eapply (Hnone dr0 c0 s); [by left|done|lia].
      * intros dr c s Hin. apply Hnone. by right.
Qed.

End placement.

Lemma row_major_inj a c a' c' w :
  c < w -> c' < w -> a * w + c = a' * w + c' -> a = a' /\ c = c'.
Proof.
  intros Hc Hc' Heq.
  assert (a = a') as ->; [|lia].
  destruct (Nat.lt_trichotomy a a') as [Hlt|[->|Hlt]]; [exfalso|done|exfalso]; nia.
Qed.

Section compose.
Context (sectors_data : gmap Z ndarray) (sectors_x sectors_y grid_size : nat).

Local Abbreviation index_of dr c := ((sectors_y - 1 - dr) * sectors_x + c).

Lemma slot_of_index k :
  k < sectors_x * sectors_y ->
  exists dr c, dr < sectors_y /\ c < sectors_x /\ index_of dr c = k.
Proof.
  intros Hk. assert (0 < sectors_x) as HX by nia.
  assert (k / sectors_x < sectors_y) as Hq.
  { apply Nat.Div0.div_lt_upper_bound. lia. }
  exists (sectors_y - 1 - k / sectors_x), (k mod sectors_x).
  split; [lia|]. split; [apply Nat.mod_upper_bound; lia|].
  replace (sectors_y - 1 - (sectors_y - 1 - k / sectors_x)) with (k / sectors_x) by lia.
  pose proof (Nat.div_mod_eq k sectors_x). lia.
Qed.

Lemma index_of_inj dr c dr' c' :
  dr < sectors_y -> c < sectors_x -> dr' < sectors_y -> c' < sectors_x ->
  index_of dr c = index_of dr' c' -> dr = dr' /\ c = c'.
Proof.
  intros Hdr Hc Hdr' Hc' Heq.
  destruct (row_major_inj _ _ _ _ _ Hc Hc' Heq) as [Hrow ->]. lia.
Qed.

Lemma index_of_lt dr c :
  dr < sectors_y -> c < sectors_x -> index_of dr c < sectors_x * sectors_y.
Proof. intros. nia. Qed.

(** The shape of the result does not depend on the sectors. *)
Lemma create_combined_heightmap_shape C :
  create_combined_heightmap sectors_data sectors_x sectors_y grid_size = Some C ->
  nrows C = sectors_x * grid_size /\ ncols C = sectors_y * grid_size /\ wf_ndarray C.
Proof.
  unfold create_combined_heightmap. intros H.
  destruct (foldl _ _ _) as [m|] eqn:Hf; simplify_eq/=.
  apply fold_place_shape in Hf as (Hr & Hc & _); [|apply wf_tabulate].
  simpl in *. split_and!; [done..|apply wf_tabulate].
Qed.

Hypothesis sectors_square : forall k s,
  sectors_data !! k = Some s -> nrows s = grid_size /\ ncols s = grid_size.

(** The array before the final rotation and mirror, cell by cell. *)
Lemma create_combined_heightmap_placed :
  exists m,
    create_combined_heightmap sectors_data sectors_x sectors_y grid_size
      = Some (fliplr (rot90 m 1)) /\
    wf_ndarray m /\
    nrows m = sectors_y * grid_size /\ ncols m = sectors_x * grid_size /\
    forall dr c a b,
      dr < sectors_y -> c < sectors_x -> a < grid_size -> b < grid_size ->
      get m (dr * grid_size + a) (c * grid_size + b) =
        match sectors_data !! Z.of_nat (index_of dr c) with
        | Some s => get s (grid_size - 1 - a) b
        | None => 0%Q
        end.
Proof.
  destruct (fold_place_cells sectors_data sectors_x sectors_y grid_size
              sectors_square (range2 sectors_y sectors_x)
              (np_zeros (sectors_y * grid_size) (sectors_x * grid_size)))
    as (m & Hm & Ha & Hb); [apply wf_tabulate|done|done| |].
  { intros dr c. apply elem_of_range2. }
  destruct (fold_place_shape _ _ _ _ _ _ _ (wf_tabulate _ _ _) Hm)
    as (Hr & Hc & Hwf). simpl in Hr, Hc.
  exists m. split; [|split_and!; [done..|]].
  { unfold create_combined_heightmap. by rewrite Hm. }
  intros dr c a b Hdr Hcol Ha' Hb'. simpl in Ha, Hb.
  destruct (sectors_data !! Z.of_nat (index_of dr c)) as [s|] eqn:Hs.
  - rewrite (Ha _ _ dr c s); [|nia|nia|by apply elem_of_range2|done|lia].
    f_equal; lia.
  - rewrite Hb; [|nia|nia|].
    + unfold np_zeros. rewrite get_tabulate; [done|nia|nia].
    + intros dr' c' s' Hin Hs' Hblk.
      apply elem_of_range2 in Hin as [? ?].
      assert (dr' = dr /\ c' = c) as [-> ->]; [|congruence].
      eapply in_block_unique; [exact Hblk|lia].
Qed.

(** The export path recovers the array before the rotations. *)
Lemma export_undo_transforms_display m :
  wf_ndarray m ->
  export_undo_transforms (rot90 (fliplr (rot90 m 1)) 1) = m.
Proof.
  intros Hm. unfold export_undo_transforms.
  apply ndarray_eq; [apply wf_rot90, wf_tabulate|done|done|done|].
  simpl. intros i j Hi Hj.
  rewrite get_rot90_m1 by (simpl; lia). simpl.
  rewrite get_fliplr by (simpl; lia). simpl.
  rewrite get_rot90_m1 by (simpl; lia). simpl.
  rewrite get_rot90_1 by (simpl; lia). simpl.
  rewrite get_fliplr by (simpl; lia). simpl.
  rewrite get_rot90_1 by (simpl; lia). f_equal; lia.
Qed.

Lemma elem_of_export_calls file_exists m k sd :
  (k, sd) ∈ export_calls file_exists m sectors_x sectors_y grid_size <->
  exists dr c, dr < sectors_y /\ c < sectors_x /\ k = index_of dr c /\
    file_exists k = true /\
    sd = slice m (dr * grid_size) (dr * grid_size + grid_size)
                 (c * grid_size) (c * grid_size + grid_size).
Proof.
  unfold export_calls. rewrite list_elem_of_bind. split.
  - intros ([dr c] & Hin & Hrc). apply elem_of_range2 in Hrc as [? ?].
    destruct (file_exists _) eqn:Hfe; [|by apply elem_of_nil in Hin].
    apply list_elem_of_singleton in Hin. inversion Hin; subst.
    exists dr, c. done.
  - intros (dr & c & Hdr & Hc & -> & Hfe & ->).
    exists (dr, c). split; [|by apply elem_of_range2].
    rewrite Hfe. by apply list_elem_of_singleton.
Qed.

Hypothesis sectors_wf : forall k s, sectors_data !! k = Some s -> wf_ndarray s.

(** The block of a slot, flipped back, is the sector's grid (or the zero
    grid for a sector that is not in the map). *)
Lemma flipud_slot_block m dr c :
  nrows m = sectors_y * grid_size -> ncols m = sectors_x * grid_size ->
  (forall a b, a < grid_size -> b < grid_size ->
     get m (dr * grid_size + a) (c * grid_size + b) =
       match sectors_data !! Z.of_nat (index_of dr c) with
       | Some s => get s (grid_size - 1 - a) b
       | None => 0%Q
       end) ->
  dr < sectors_y -> c < sectors_x ->
  flipud (slice m (dr * grid_size) (dr * grid_size + grid_size)
                  (c * grid_size) (c * grid_size + grid_size)) =
    default (np_zeros grid_size grid_size)
            (sectors_data !! Z.of_nat (index_of dr c)).
Proof.
  intros Hr Hc Hget Hdr Hcol.
  assert (dr * grid_size + grid_size <= nrows m) as Hey by nia.
  assert (c * grid_size + grid_size <= ncols m) as Hex by nia.
  destruct (slice_shape m (dr * grid_size) (dr * grid_size + grid_size)
              (c * grid_size) (c * grid_size + grid_size) Hey Hex) as [Hsr Hsc].
  assert (wf_ndarray (default (np_zeros grid_size grid_size)
            (sectors_data !! Z.of_nat (index_of dr c))) /\
          nrows (default (np_zeros grid_size grid_size)
            (sectors_data !! Z.of_nat (index_of dr c))) = grid_size /\
          ncols (default (np_zeros grid_size grid_size)
            (sectors_data !! Z.of_nat (index_of dr c))) = grid_size)
    as (Hwf & Hnr & Hnc).
  { destruct (sectors_data !! _) as [s|] eqn:Hs; simpl.
    - destruct (sectors_square _ _ Hs). eauto.
    - split; [apply wf_tabulate|done]. }
  apply ndarray_eq; [apply wf_tabulate|done| | |].
  - unfold flipud. rewrite nrows_tabulate, Hsr, Hnr. lia.
  - unfold flipud. rewrite ncols_tabulate, Hsc, Hnc. lia.
  - unfold flipud at 1 2. rewrite nrows_tabulate, ncols_tabulate, Hsr, Hsc.
    intros a b Ha Hb. rewrite get_flipud by lia. rewrite Hsr.
    rewrite get_slice by lia. rewrite Hget by lia.
    destruct (sectors_data !! _) as [s|]; simpl.
    + f_equal; lia.
    + unfold np_zeros. rewrite get_tabulate by lia. done.
Qed.

End compose.

(** C5, as stated, fails: with two sectors side by side (sectors_x = 2,
    sectors_y = 1, grid_size = 1) the mosaic returned by
    [create_combined_heightmap] has 2 rows and 1 column, not
    sectors_y*grid_size = 1 row and sectors_x*grid_size = 2 columns. *)
Lemma mosaic_shape_counterexample :
  exists C, create_combined_heightmap ∅ 2 1 1 = Some C /\
            nrows C = 2 /\ ncols C = 1 /\
            ~ (nrows C = 1 * 1 /\ ncols C = 2 * 1).
Proof.
  eexists. split; [reflexivity|]. simpl. split_and!; [done..|]. intros [? _]. lia.
Qed.

(** C5 (amended): for every sectors_x, sectors_y and grid_size, the mosaic
    returned by [create_combined_heightmap] is a 2-D array with
    sectors_x*grid_size rows and sectors_y*grid_size columns (the final
    rotation swaps the two axes); a mosaic is returned whenever the grids of
    the sector map are grid_size-square. *)
Theorem mosaic_shape (sectors_data : gmap Z ndarray) (sectors_x sectors_y grid_size : nat) :
  (forall C,
     create_combined_heightmap sectors_data sectors_x sectors_y grid_size = Some C ->
     wf_ndarray C /\
     nrows C = sectors_x * grid_size /\ ncols C = sectors_y * grid_size) /\
  ((forall k s, sectors_data !! k = Some s ->
      nrows s = grid_size /\ ncols s = grid_size) ->
   is_Some (create_combined_heightmap sectors_data sectors_x sectors_y grid_size)).
Proof.
  split.
  - intros C HC. apply create_combined_heightmap_shape in HC. tauto.
  - intros Hsq.
    destruct (create_combined_heightmap_placed _ sectors_x sectors_y _ Hsq)
      as (m & HC & _).
    by eexists.
Qed.

Lemma mosaic_shape_witness :
  exists C,
    create_combined_heightmap
      {[ 0%Z := mk_ndarray 2 2 [[1; 2]; [3; 4]]%Q ]} 3 2 2 = Some C /\
    wf_ndarray C /\ nrows C = 3 * 2 /\ ncols C = 2 * 2.
Proof.
  destruct (mosaic_shape {[ 0%Z := mk_ndarray 2 2 [[1; 2]; [3; 4]]%Q ]} 3 2 2)
    as [Hshape Hsome].
  destruct Hsome as [C HC].
  - intros k s Hs. apply lookup_singleton_Some in Hs as [_ <-]. simpl. lia.
  - exists C. split; [exact HC|]. apply Hshape. exact HC.
Defined.

(** C3, as stated, fails: a sector that is absent from the input but whose
    file exists is part of the output of the split, as the all-zero grid.
    Here sector 1 of a 2 x 1 layout is absent from the map. *)
Lemma mosaic_split_counterexample :
  ({[ 0%Z := mk_ndarray 1 1 [[5%Q]] ]} : gmap Z ndarray) !! 1%Z = None /\
  exists C,
    create_combined_heightmap {[ 0%Z := mk_ndarray 1 1 [[5%Q]] ]} 2 1 1 = Some C /\
    export_split (fun _ => true) (rot90 C 1) 2 1 1 =
      [(0, mk_ndarray 1 1 [[5%Q]]); (1, mk_ndarray 1 1 [[0%Q]])].
Proof.
  split; [reflexivity|]. eexists. split; reflexivity.
Qed.

(** C3 (amended): for every map from sector indices to well-formed
    grid_size-square grids and every sectors_x, sectors_y, grid_size, the
    mosaic is composed, and the export path's split (rotate clockwise, mirror,
    rotate clockwise, block extraction, vertical un-flip), applied to the
    mosaic with the extra display rotation, yields for every sector index
    below sectors_x*sectors_y whose file exists exactly the grid of that
    sector when it was present in the input and the all-zero grid when it was
    absent; a sector is left out of the output exactly when its file does not
    exist. *)
Theorem mosaic_split_compose (sectors_data : gmap Z ndarray)
    (sectors_x sectors_y grid_size : nat) (file_exists : nat -> bool) :
  (forall k s, sectors_data !! k = Some s ->
     wf_ndarray s /\ nrows s = grid_size /\ ncols s = grid_size) ->
  exists C,
    create_combined_heightmap sectors_data sectors_x sectors_y grid_size = Some C /\
    (forall k s, k < sectors_x * sectors_y ->
       sectors_data !! Z.of_nat k = Some s -> file_exists k = true ->
       (k, s) ∈ export_split file_exists (rot90 C 1) sectors_x sectors_y grid_size) /\
    (forall k, k < sectors_x * sectors_y ->
       sectors_data !! Z.of_nat k = None -> file_exists k = true ->
       (k, np_zeros grid_size grid_size)
         ∈ export_split file_exists (rot90 C 1) sectors_x sectors_y grid_size) /\
    (forall k s',
       (k, s') ∈ export_split file_exists (rot90 C 1) sectors_x sectors_y grid_size ->
       k < sectors_x * sectors_y /\ file_exists k = true /\
       s' = default (np_zeros grid_size grid_size) (sectors_data !! Z.of_nat k)).
Proof.
  intros Hs.
  assert (forall k s, sectors_data !! k = Some s ->
            nrows s = grid_size /\ ncols s = grid_size) as Hsq.
  { intros k s H. apply Hs in H. tauto. }
  assert (forall k s, sectors_data !! k = Some s -> wf_ndarray s) as Hwf.
  { intros k s H. apply Hs in H. tauto. }
  destruct (create_combined_heightmap_placed _ sectors_x sectors_y _ Hsq)
    as (m & HC & Hm & Hr & Hc & Hget).
  eexists. split; [exact HC|].
  unfold export_split. rewrite export_undo_transforms_display by done.
  assert (forall k, k < sectors_x * sectors_y -> file_exists k = true ->
            (k, default (np_zeros grid_size grid_size) (sectors_data !! Z.of_nat k))
              ∈ (fun '(sector_index, sector_data) => (sector_index, flipud sector_data))
                  <$> export_calls file_exists m sectors_x sectors_y grid_size) as Hin.
  { intros k Hk Hfe.
    destruct (slot_of_index sectors_x sectors_y k Hk) as (dr & c & Hdr & Hcol & Hidx).
    apply list_elem_of_fmap. eexists (k, _). split; cycle 1.
    - apply elem_of_export_calls. exists dr, c. split_and!; done.
    - f_equal. rewrite <- Hidx. symmetry.
      apply flipud_slot_block; try done. intros a b ? ?. by apply Hget. }
  split_and!.
  - intros k s Hk Hlook Hfe. specialize (Hin k Hk Hfe). by rewrite Hlook in Hin.
  - intros k Hk Hlook Hfe. specialize (Hin k Hk Hfe). by rewrite Hlook in Hin.
  - intros k s' Hel.
    apply list_elem_of_fmap in Hel as ([k' sd] & Heq & Hel).
    inversion Heq; subst k' s'.
    apply elem_of_export_calls in Hel as (dr & c & Hdr & Hcol & -> & Hfe & ->).
    split; [by apply index_of_lt|]. split; [done|].
    apply flipud_slot_block; try done. intros a b ? ?. by apply Hget.
Qed.

Lemma mosaic_split_compose_witness :
  exists C,
    create_combined_heightmap
      {[ 0%Z := mk_ndarray 2 2 [[1; 2]; [3; 4]]%Q ]} 2 1 2 = Some C /\
    (0, mk_ndarray 2 2 [[1; 2]; [3; 4]]%Q)
      ∈ export_split (fun _ => true) (rot90 C 1) 2 1 2.
Proof.
  destruct (mosaic_split_compose
              {[ 0%Z := mk_ndarray 2 2 [[1; 2]; [3; 4]]%Q ]} 2 1 2 (fun _ => true))
    as (C & HC & Hpresent & _).
  - intros k s Hs. apply lookup_singleton_Some in Hs as [_ <-].
    split; [|simpl; lia]. split; [reflexivity|]. repeat constructor.
  - exists C. split; [exact HC|]. apply Hpresent; [lia|reflexivity|reflexivity].
Defined.

(** ** Normalisation *)

Lemma Qlt_bool_iff x y : Qlt_bool x y = true <-> (x < y)%Q.
Proof.
  unfold Qlt_bool. rewrite negb_true_iff. split.
  - intros H. apply Qnot_le_lt. intros Hle.
    apply Qle_bool_iff in Hle. congruence.
  - intros H. destruct (Qle_bool y x) eqn:Hle; [|done].
    apply Qle_bool_iff in Hle. exfalso. by apply (Qlt_not_le x y).
Qed.

Lemma get_nd_map f a i j :
  wf_ndarray a -> i < nrows a -> j < ncols a ->
  get (nd_map f a) i j = f (get a i j).
Proof.
  intros [Hlen Hrows] Hi Hj. unfold get, nd_map; simpl.
  destruct (lookup_lt_is_Some_2 (cells a) i) as [r Hr]; [lia|].
  assert (length r = ncols a) as Hw.
  { rewrite Forall_forall in Hrows. apply Hrows.
    by apply list_elem_of_lookup_2 in Hr. }
  destruct (lookup_lt_is_Some_2 r j) as [x Hx]; [lia|].
  rewrite list_lookup_fmap, Hr; simpl.
  rewrite list_lookup_fmap, Hx. done.
Qed.

Lemma wf_nd_map f a : wf_ndarray a -> wf_ndarray (nd_map f a).
Proof.
  intros [Hlen Hrows]. split; simpl.
  - by rewrite length_fmap.
  - apply Forall_fmap. eapply Forall_impl; [exact Hrows|].
    intros r Hr. simpl. by rewrite length_fmap.
Qed.



Lemma lookup_flatten a i j :
  wf_ndarray a -> i < nrows a -> j < ncols a ->
  flatten a !! (i * ncols a + j) = Some (get a i j).
Proof.
  intros [Hlen Hrows] Hi Hj. unfold flatten, get.
  destruct (lookup_lt_is_Some_2 (cells a) i) as [r Hr]; [lia|].
  assert (length r = ncols a) as Hw.
  { rewrite Forall_forall in Hrows. apply Hrows.
    by apply list_elem_of_lookup_2 in Hr. }
  destruct (lookup_lt_is_Some_2 r j) as [x Hx]; [lia|].
  rewrite Hr; simpl. rewrite Hx; simpl.
  apply join_lookup_Some_same_length'; [done|done|]. eauto.
Qed.

Lemma lookup_rgba (l : list Q) k x :
  l !! k = Some x ->
  (l ≫= fun v => [v; v; v; 1%Q]) !! (k * 4) = Some x.
Proof.
  revert k. induction l as [|v l IH]; intros k Hk; [done|].
  destruct k as [|k]; simpl in *.
  - by simplify_eq.
  - by apply IH.
Qed.

(** Reading the R channel back gives the normalised array. *)
Lemma blender_image_roundtrip a :
  wf_ndarray a ->
  blender_image_to_numpy
    (mk_image (ncols a) (nrows a) (flatten a ≫= fun v => [v; v; v; 1%Q])) = a.
Proof.
  intros Ha. unfold blender_image_to_numpy; simpl.
  etrans; [|apply (tabulate_get a Ha)]. apply tabulate_ext.
  intros i j Hi Hj.
  by rewrite (lookup_rgba _ _ (get a i j)) by by apply lookup_flatten.
Qed.





(** ** Bytes *)

Lemma byte_val_range b : (0 <= byte_val b < 256)%Z.
Proof.
  unfold byte_val. pose proof (Byte.to_N_bounded b). lia.
Qed.

Lemma int_from_bytes_little_2 b0 b1 :
  int_from_bytes_little [b0; b1] = (byte_val b0 + 256 * byte_val b1)%Z.
Proof. unfold int_from_bytes_little. simpl. lia. Qed.

Lemma int_from_bytes_little_2_range b0 b1 :
  (0 <= int_from_bytes_little [b0; b1] <= 65535)%Z.
Proof.
  rewrite int_from_bytes_little_2.
  pose proof (byte_val_range b0). pose proof (byte_val_range b1). lia.
Qed.

Lemma byte_of_val b : Byte.of_N (Z.to_N (byte_val b)) = Some b.
Proof. unfold byte_val. rewrite N2Z.id. apply Byte.of_to_N. Qed.

(** writing back the integer read from two bytes gives the two bytes *)
Lemma int_to_bytes2_from_bytes b0 b1 :
  int_to_bytes2_little (int_from_bytes_little [b0; b1]) = Some [b0; b1].
Proof.
  pose proof (int_from_bytes_little_2_range b0 b1) as Hr.
  rewrite int_from_bytes_little_2 in *.
  pose proof (byte_val_range b0). pose proof (byte_val_range b1).
  unfold int_to_bytes2_little.
  destruct (Z.leb_spec 0 (byte_val b0 + 256 * byte_val b1)); [|lia].
  destruct (Z.ltb_spec (byte_val b0 + 256 * byte_val b1) 65536); [|lia].
  simpl.
  replace ((byte_val b0 + 256 * byte_val b1) mod 256)%Z with (byte_val b0).
  2:{ apply (Z.mod_unique_pos _ 256 (byte_val b1)); lia. }
  replace ((byte_val b0 + 256 * byte_val b1) / 256)%Z with (byte_val b1).
  2:{ apply (Z.div_unique_pos _ 256 _ (byte_val b0)); lia. }
  by rewrite !byte_of_val.
Qed.

(** every integer in range is written as two bytes that read back as it *)
Lemma int_to_bytes2_in_range v :
  (0 <= v <= 65535)%Z ->
  exists lo hi, int_to_bytes2_little v = Some [lo; hi] /\
                int_from_bytes_little [lo; hi] = v.
Proof.
  intros Hv. unfold int_to_bytes2_little.
  destruct (Z.leb_spec 0 v); [|lia]. destruct (Z.ltb_spec v 65536); [|lia]. simpl.
  pose proof (Z.mod_pos_bound v 256 ltac:(lia)) as Hlo.
  assert (0 <= v / 256 < 256)%Z as Hhi.
  { split; [apply Z.div_pos; lia|apply Z.div_lt_upper_bound; lia]. }
  destruct (Byte.of_N (Z.to_N (v mod 256))) as [lo|] eqn:Hblo.
  2:{ apply Byte.of_N_None_iff in Hblo. lia. }
  destruct (Byte.of_N (Z.to_N (v / 256))) as [hi|] eqn:Hbhi.
  2:{ apply Byte.of_N_None_iff in Hbhi. lia. }
  exists lo, hi. split; [done|].
  apply Byte.to_of_N in Hblo, Hbhi.
  unfold byte_val. rewrite Hblo, Hbhi.
  rewrite !Z2N.id by lia. pose proof (Z.div_mod v 256). lia.
Qed.

Lemma clamp_range v : (0 <= Z.max 0 (Z.min 65535 v) <= 65535)%Z.
Proof. lia. Qed.

(** [int(n / 128 * 128)] is [n] *)
Lemma int_of_float_sample n : int_of_float (inject_Z n / 128 * 128) = n.
Proof.
  unfold int_of_float. simpl.
  replace (n * 1 * 128)%Z with (n * 128)%Z by lia.
  apply Z.quot_mul. lia.
Qed.

Lemma terrain_read_size : 16900 = 4 * (65 * 65).
Proof. vm_compute. reflexivity. Qed.

Lemma take2_drop_take (l : list byte) o n :
  o + 2 <= n -> take 2 (drop o (take n l)) = take 2 (drop o l).
Proof.
  intros Ho. rewrite !take_drop_commute, take_take.
  by rewrite Nat.min_l by lia.
Qed.

Lemma take2_lookup (l : list byte) o :
  o + 2 <= length l ->
  exists b0 b1, l !! o = Some b0 /\ l !! (o + 1) = Some b1 /\
                take 2 (drop o l) = [b0; b1].
Proof.
  intros Ho.
  destruct (lookup_lt_is_Some_2 l o) as [b0 H0]; [lia|].
  destruct (lookup_lt_is_Some_2 l (o + 1)) as [b1 H1]; [lia|].
  exists b0, b1. split; [done|]. split; [done|].
  apply list_eq. intros [|[|i]].
  - rewrite lookup_take_lt, lookup_drop by lia.
    by rewrite Nat.add_0_r.
  - rewrite lookup_take_lt, lookup_drop by lia. done.
  - rewrite lookup_take_ge by lia. done.
Qed.

Lemma set_slice2_length c pos (data : list byte) :
  pos + 2 <= length c -> length data = 2 ->
  length (bytearray_set_slice2 c pos data) = length c.
Proof.
  intros Hpos Hd. unfold bytearray_set_slice2.
  rewrite !length_app, length_take, length_drop, Hd. lia.
Qed.

Lemma set_slice2_lookup c pos b0 b1 p :
  pos + 2 <= length c ->
  bytearray_set_slice2 c pos [b0; b1] !! p =
    if decide (p = pos) then Some b0
    else if decide (p = pos + 1) then Some b1
    else c !! p.
Proof.
  intros Hpos. unfold bytearray_set_slice2.
  destruct (decide (p < pos)) as [Hlt|Hge].
  - rewrite lookup_app_l by (rewrite length_take; lia).
    rewrite lookup_take_lt by done.
    rewrite decide_False by lia. rewrite decide_False by lia. done.
  - rewrite lookup_app_r by (rewrite length_take; lia).
    rewrite length_take, Nat.min_l by lia.
    destruct (decide (p = pos)) as [->|Hne].
    { by rewrite Nat.sub_diag. }
    destruct (decide (p = pos + 1)) as [->|Hne'].
    { by replace (pos + 1 - pos) with 1 by lia. }
    replace (p - pos) with (2 + (p - pos - 2)) by lia. simpl.
    rewrite lookup_drop. f_equal. lia.
Qed.

(** ** Decoding *)

Lemma sample_at_drop s k o : sample_at (drop k s) o = sample_at s (k + o).
Proof. unfold sample_at. by rewrite drop_drop. Qed.

(** a row for which all the samples are there *)
Lemma read_row_full n s :
  n = 0 \/ 4 * n <= length s + 2 ->
  read_row n s = ((fun x => sample_at s (4 * x)) <$> seq 0 n, drop (4 * n) s).
Proof.
  revert s. induction n as [|n IH]; intros s Hn; [done|].
  cbn [read_row].
  assert (length (take 2 s) = 2) as Hlen by (rewrite length_take; lia).
  rewrite Hlen. cbn [Nat.ltb Nat.leb].
  rewrite IH by (rewrite !length_drop; lia).
  rewrite !drop_drop. f_equal; [|f_equal; lia].
  cbn [seq fmap list_fmap]. f_equal.
  rewrite <- fmap_S_seq, <- list_fmap_compose.
  apply list_fmap_ext. intros _ x _. unfold compose.
  rewrite sample_at_drop. f_equal. lia.
Qed.

(** a row that runs out of data: it is short, and nothing is left *)
Lemma read_row_short n s :
  length s + 2 < 4 * n ->
  length (read_row n s).1 < n /\ (read_row n s).2 = [] /\
  (2 <= length s -> 1 <= length (read_row n s).1).
Proof.
  revert s. induction n as [|n IH]; intros s Hn; [lia|].
  cbn [read_row]. rewrite length_take.
  destruct (Nat.ltb_spec (Nat.min 2 (length s)) 2) as [Hlt|Hge].
  - simpl. split; [lia|]. split; [|lia].
    apply nil_length_inv. rewrite length_drop. lia.
  - destruct (IH (drop 2 (drop 2 s))) as (Hl & Hnil & _).
    { rewrite !length_drop. lia. }
    destruct (read_row n (drop 2 (drop 2 s))) as [row rest]. simpl in *.
    split; [lia|]. split; [done|lia].
Qed.

Lemma read_row_nil n : read_row n [] = ([], []).
Proof. by destruct n. Qed.

Lemma read_rows_nil m g : read_rows m g [] = replicate m [].
Proof.
  induction m as [|m IH]; [done|]. cbn [read_rows].
  rewrite read_row_nil. by rewrite IH.
Qed.

(** all the rows, when all the samples are there *)
Lemma read_rows_full m g s :
  m * g = 0 \/ 4 * (m * g) <= length s + 2 ->
  read_rows m g s =
    (fun y => (fun x => sample_at s (4 * (y * g + x))) <$> seq 0 g) <$> seq 0 m.
Proof.
  revert s. induction m as [|m IH]; intros s Hm; [done|].
  cbn [read_rows]. rewrite read_row_full by nia.
  rewrite IH by (rewrite length_drop; nia).
  cbn [seq fmap list_fmap]. f_equal.
  rewrite <- fmap_S_seq, <- list_fmap_compose.
  apply list_fmap_ext. intros _ y _. unfold compose.
  apply list_fmap_ext. intros _ x _.
  rewrite sample_at_drop. f_equal. lia.
Qed.

Lemma np_array_tabulate h w (f : nat -> nat -> Q) :
  (h = 0 -> w = 0) ->
  np_array ((fun y => f y <$> seq 0 w) <$> seq 0 h) = Some (tabulate h w f).
Proof.
  intros Hw. destruct h as [|h].
  - rewrite Hw by done. done.
  - unfold np_array. cbn [seq fmap list_fmap].
    rewrite (proj2 (forallb_forall _ _)).
    + unfold tabulate. cbn [seq fmap list_fmap length].
      by rewrite !length_fmap, !length_seq.
    + intros r Hr. apply list_elem_of_In, list_elem_of_fmap in Hr as (y & -> & _).
      rewrite !length_fmap. apply Nat.eqb_refl.
Qed.

Lemma np_array_Some rows a :
  np_array rows = Some a ->
  cells a = rows /\ nrows a = length rows /\
  Forall (fun r => length r = ncols a) rows.
Proof.
  unfold np_array. destruct rows as [|r rs].
  - intros [= <-]. done.
  - destruct (forallb _ rs) eqn:Hall; [|done]. intros [= <-]. simpl.
    split; [done|]. split; [done|]. constructor; [done|].
    apply Forall_forall. intros r' Hr'.
    rewrite forallb_forall in Hall. apply Nat.eqb_eq, Hall.
    by apply list_elem_of_In.
Qed.

(** The decoder on a buffer that holds every sample, for a grid of at most
    65 x 65 cells: cell (y, x) is the sample at offset 708 + 4*(y*g + x). *)
Lemma load_single_sector_full content g :
  g <= 65 -> g = 0 \/ 706 + 4 * (g * g) <= length content ->
  load_single_sector content g =
    Some (tabulate g g (fun y x => sample_at content (708 + 4 * (y * g + x)))).
Proof.
  intros Hg Hlen. unfold load_single_sector.
  rewrite read_rows_full.
  2:{ rewrite length_take, length_drop, terrain_read_size. nia. }
  rewrite np_array_tabulate by done. f_equal.
  apply tabulate_ext. intros y x Hy Hx.
  unfold sample_at at 1. rewrite take2_drop_take.
  2:{ rewrite terrain_read_size. nia. }
  by rewrite drop_drop.
Qed.

(** ** Encoding *)

Lemma cell_index_lt g y x : y < g -> x < g -> y * g + x < g * g.
Proof. intros. nia. Qed.

Lemma int_to_bytes2_length v data :
  int_to_bytes2_little v = Some data -> length data = 2.
Proof.
  unfold int_to_bytes2_little. intros H.
  destruct (_ && _); [|done].
  destruct (Byte.of_N (Z.to_N (v mod 256))); [|done].
  destruct (Byte.of_N (Z.to_N (v / 256))); [|done].
  by simplify_eq/=.
Qed.

Section write_loop.
Context (hf : ndarray) (g : nat).

Local Abbreviation step :=
  (fun acc yx => acc ≫= fun c => write_cell hf g c yx).
Local Abbreviation pos_of y x := (708 + (y * g + x) * 4).
Local Abbreviation value_of y x :=
  (Z.max 0 (Z.min 65535 (int_of_float (get hf y x * 128)))).

Lemma write_cell_Some c y x c' :
  write_cell hf g c (y, x) = Some c' ->
  exists data, length data = 2 /\ c' = bytearray_set_slice2 c (pos_of y x) data.
Proof.
  unfold write_cell. intros H.
  destruct (getitem hf y x) as [h|]; [|done]. simpl in H.
  destruct (float_overflow _); [done|].
  destruct (int_to_bytes2_little _) as [data|] eqn:Hd; [|done].
  simplify_eq/=. exists data. split; [|done].
  by eapply int_to_bytes2_length.
Qed.

(** Whatever the grid, a successful run of the loop over cells of the
    grid_size-square only rewrites the sample bytes of those cells. *)
Lemma write_loop_frame l c0 c :
  (forall y x, (y, x) ∈ l -> y < g /\ x < g) ->
  708 + 4 * (g * g) <= length c0 ->
  foldl step (Some c0) l = Some c ->
  length c = length c0 /\
  forall p, (forall y x, (y, x) ∈ l -> p <> pos_of y x /\ p <> pos_of y x + 1) ->
            c !! p = c0 !! p.
Proof.
  revert c0. induction l as [|[y x] l IH]; intros c0 Hl Hlen Hf.
  - simpl in Hf. by simplify_eq.
  - change (foldl step (step (Some c0) (y, x)) l = Some c) in Hf.
    cbn [mbind option_bind] in Hf.
    destruct (write_cell hf g c0 (y, x)) as [c1|] eqn:Hw.
    2:{ by rewrite foldl_bind_None in Hf. }
    apply write_cell_Some in Hw as (data & Hd & ->).
    destruct (Hl y x) as [Hy Hx]; [by left|].
    pose proof (cell_index_lt g y x Hy Hx) as Hidx.
    destruct data as [|b0 [|b1 [|]]]; try done.
    apply IH in Hf as [Hlen' Hframe].
    2:{ intros y' x' Hin. apply Hl. by right. }
    2:{ rewrite set_slice2_length; [done|lia|done]. }
    rewrite set_slice2_length in Hlen' by (done || lia).
    split; [done|]. intros p Hp.
    rewrite Hframe by (intros y' x' Hin; apply Hp; by right).
    rewrite set_slice2_lookup by lia.
    destruct (Hp y x) as [? ?]; [by left|].
    rewrite decide_False by done. by rewrite decide_False by done.
Qed.

(** The length of the buffer after a successful run of the loop, whatever
    the length before: a slice assignment beyond the end appends. *)
Lemma write_loop_length l c0 c :
  foldl step (Some c0) l = Some c ->
  Z.of_nat (length c) =
    foldl (fun len yx =>
             let pos := (708 + (Z.of_nat yx.1 * Z.of_nat g + Z.of_nat yx.2) * 4)%Z in
             (Z.min pos len + 2 + Z.max 0 (len - (pos + 2)))%Z)
          (Z.of_nat (length c0)) l.
Proof.
  revert c0. induction l as [|[y x] l IH]; intros c0 Hf.
  - simpl in Hf. by simplify_eq.
  - change (foldl step (step (Some c0) (y, x)) l = Some c) in Hf.
    cbn [mbind option_bind] in Hf.
    destruct (write_cell hf g c0 (y, x)) as [c1|] eqn:Hw.
    2:{ by rewrite foldl_bind_None in Hf. }
    apply write_cell_Some in Hw as (data & Hd & ->).
    rewrite (IH _ Hf). cbn [foldl fst snd]. f_equal.
    unfold bytearray_set_slice2.
    rewrite !length_app, length_take, length_drop, Hd. lia.
Qed.

Hypothesis rows_cover : g <= nrows hf.
Hypothesis cols_cover : g <= ncols hf.
Hypothesis cells_finite :
  forall y x, y < g -> x < g -> float_overflow (get hf y x * 128) = false.

Lemma write_cell_covered c y x :
  y < g -> x < g ->
  exists lo hi,
    int_to_bytes2_little (value_of y x) = Some [lo; hi] /\
    int_from_bytes_little [lo; hi] = value_of y x /\
    write_cell hf g c (y, x) = Some (bytearray_set_slice2 c (pos_of y x) [lo; hi]).
Proof.
  intros Hy Hx.
  destruct (int_to_bytes2_in_range (value_of y x) (clamp_range _))
    as (lo & hi & Hb & Hv).
  exists lo, hi. split; [done|]. split; [done|].
  unfold write_cell, getitem.
  destruct (Nat.ltb_spec y (nrows hf)); [|lia].
  destruct (Nat.ltb_spec x (ncols hf)); [|lia]. simpl.
  rewrite cells_finite by done. by rewrite Hb.
Qed.

(** On a grid of finite heights that covers the grid_size-square the loop
    never fails, whatever the length of the buffer. *)
Lemma write_loop_succeeds l c0 :
  (forall y x, (y, x) ∈ l -> y < g /\ x < g) ->
  is_Some (foldl step (Some c0) l).
Proof.
  revert c0. induction l as [|[y x] l IH]; intros c0 Hl; [by eexists|].
  change (is_Some (foldl step (step (Some c0) (y, x)) l)).
  cbn [mbind option_bind].
  destruct (Hl y x) as [Hy Hx]; [by left|].
  destruct (write_cell_covered c0 y x Hy Hx) as (lo & hi & _ & _ & ->).
  apply IH. intros y' x' Hin. apply Hl. by right.
Qed.

(** ... and on a buffer that holds the whole elevation region every cell
    of the loop ends up with its sample bytes. *)
Lemma write_loop_values l c0 :
  (forall y x, (y, x) ∈ l -> y < g /\ x < g) ->
  708 + 4 * (g * g) <= length c0 ->
  exists c,
    foldl step (Some c0) l = Some c /\
    forall y x, (y, x) ∈ l ->
      exists lo hi,
        int_to_bytes2_little (value_of y x) = Some [lo; hi] /\
        c !! pos_of y x = Some lo /\ c !! (pos_of y x + 1) = Some hi.
Proof.
  revert c0. induction l as [|[y0 x0] l IH]; intros c0 Hl Hlen.
  - exists c0. split; [done|]. intros y x Hin. by apply elem_of_nil in Hin.
  - destruct (Hl y0 x0) as [Hy0 Hx0]; [by left|].
    pose proof (cell_index_lt g y0 x0 Hy0 Hx0) as Hidx.
    destruct (write_cell_covered c0 y0 x0 Hy0 Hx0) as (lo & hi & Hb & _ & Hw).
    assert (forall y x, (y, x) ∈ l -> y < g /\ x < g) as Hl'.
    { intros y x Hin. apply Hl. by right. }
    destruct (IH (bytearray_set_slice2 c0 (pos_of y0 x0) [lo; hi]) Hl')
      as (c & Hc & Hvals).
    { rewrite set_slice2_length; [done|lia|done]. }
    exists c. split.
    { change (foldl step (step (Some c0) (y0, x0)) l = Some c).
      cbn [mbind option_bind]. by rewrite Hw. }
    intros y x Hin.
    destruct (decide ((y, x) ∈ l)) as [Hin'|Hnin]; [by apply Hvals|].
    apply elem_of_cons in Hin as [Heq|Hin]; [|done].
    inversion Heq; subst y0 x0.
    exists lo, hi. split; [done|].
    destruct (write_loop_frame l
                (bytearray_set_slice2 c0 (pos_of y x) [lo; hi]) c Hl')
      as [_ Hframe]; [|done|].
    { rewrite set_slice2_length; [done|lia|done]. }
    assert (forall y' x', (y', x') ∈ l ->
              (y' * g + x') <> (y * g + x)) as Hne.
    { intros y' x' Hin' Heq'. destruct (Hl' y' x' Hin') as [? ?].
      destruct (row_major_inj y' x' y x g) as [-> ->]; done. }
    rewrite !Hframe.
    + rewrite !set_slice2_lookup by lia.
      rewrite decide_True by done. rewrite decide_False by lia.
      by rewrite decide_True by done.
    + intros y' x' Hin'. specialize (Hne y' x' Hin'). lia.
    + intros y' x' Hin'. specialize (Hne y' x' Hin'). lia.
Qed.

End write_loop.

(** A height of magnitude below 2^1017 has a finite product with 128. *)
Lemma float_overflow_128 (h : Q) :
  (Qabs h < inject_Z (2 ^ 1017))%Q -> float_overflow (h * 128) = false.
Proof.
  intros Hh. unfold float_overflow.
  destruct (Qle_bool _ _) eqn:Hle; [exfalso|done].
  apply Qle_bool_iff in Hle. rewrite Qabs_Qmult in Hle.
  change (Qabs 128) with 128%Q in Hle.
  assert (inject_Z (2 ^ 1024) == inject_Z (2 ^ 1017) * 128)%Q as Hpow
    by (vm_compute; reflexivity).
  rewrite Hpow in Hle.
  revert Hh Hle. generalize (inject_Z (2 ^ 1017)) (Qabs h). intros A B Hh Hle. lra.
Qed.

(** The heights that [write_sector_to_file] reads: the grid_size-square of
    the flipped grid. *)
Lemma flipped_cells_finite (height_data : ndarray) (grid_size : nat) :
  grid_size <= nrows height_data -> grid_size <= ncols height_data ->
  (forall y x, y < grid_size -> x < grid_size ->
     float_overflow (get height_data (nrows height_data - 1 - y) x * 128) = false) ->
  forall y x, y < grid_size -> x < grid_size ->
    float_overflow (get (flipud height_data) y x * 128) = false.
Proof.
  intros Hr Hc Hfin y x Hy Hx. rewrite get_flipud by lia. by apply Hfin.
Qed.

Lemma sample_position_cases g p :
  (exists y x, y < g /\ x < g /\
     (p = 708 + (y * g + x) * 4 \/ p = 708 + (y * g + x) * 4 + 1)) \/
  (forall y x, y < g -> x < g ->
     p <> 708 + (y * g + x) * 4 /\ p <> 708 + (y * g + x) * 4 + 1).
Proof.
  destruct (decide (708 <= p < 708 + 4 * (g * g))) as [Hin|Hout].
  - pose proof (Nat.div_mod_eq (p - 708) 4) as Hp.
    pose proof (Nat.mod_upper_bound (p - 708) 4 ltac:(lia)) as Hr.
    destruct (decide ((p - 708) mod 4 < 2)) as [Hlo|Hhi].
    + left. assert (0 < g) as Hg by nia.
      pose proof (Nat.div_mod_eq ((p - 708) / 4) g) as Hk.
      pose proof (Nat.mod_upper_bound ((p - 708) / 4) g ltac:(lia)) as Hx.
      exists ((p - 708) / 4 / g), ((p - 708) / 4 mod g).
      split; [apply Nat.Div0.div_lt_upper_bound; lia|]. split; [done|]. lia.
    + right. intros y x Hy Hx. lia.
  - right. intros y x Hy Hx. pose proof (cell_index_lt g y x Hy Hx). lia.
Qed.

(** C7: for every original buffer of at least 708 + grid_size*grid_size*4
    bytes and every input grid, the contents left by [write_sector_to_file]
    have the length of the original and differ from it at most at the sample
    positions 708 + 4*i and 708 + 4*i + 1, i < grid_size*grid_size: the
    708-byte header, the two trailing payload bytes of every cell and every
    byte after the elevation region are unchanged.  (On a grid of finite
    heights, of magnitude below 2^1017, that covers the grid_size-square the
    write reports success.) *)
Theorem encode_frame (content : list byte) (height_data : ndarray) (grid_size : nat) :
  708 + grid_size * grid_size * 4 <= length content ->
  length (write_sector_to_file content height_data grid_size).2 = length content /\
  (forall p,
     (forall i, i < grid_size * grid_size -> p <> 708 + 4 * i /\ p <> 708 + 4 * i + 1) ->
     (write_sector_to_file content height_data grid_size).2 !! p = content !! p) /\
  (forall p, p < 708 ->
     (write_sector_to_file content height_data grid_size).2 !! p = content !! p) /\
  (forall i,
     (write_sector_to_file content height_data grid_size).2 !! (708 + 4 * i + 2)
       = content !! (708 + 4 * i + 2) /\
     (write_sector_to_file content height_data grid_size).2 !! (708 + 4 * i + 3)
       = content !! (708 + 4 * i + 3)) /\
  (forall p, 708 + grid_size * grid_size * 4 <= p ->
     (write_sector_to_file content height_data grid_size).2 !! p = content !! p) /\
  (grid_size <= nrows height_data -> grid_size <= ncols height_data ->
   (forall y x, y < grid_size -> x < grid_size ->
      (Qabs (get height_data (nrows height_data - 1 - y) x) < inject_Z (2 ^ 1017))%Q) ->
     (write_sector_to_file content height_data grid_size).1 = true).
Proof.
  intros Hlen.
  assert (length (write_sector_to_file content height_data grid_size).2 = length content /\
          forall p,
            (forall i, i < grid_size * grid_size -> p <> 708 + 4 * i /\ p <> 708 + 4 * i + 1) ->
            (write_sector_to_file content height_data grid_size).2 !! p = content !! p)
    as [Hl Hframe].
  { unfold write_sector_to_file.
    destruct (foldl _ _ _) as [c|] eqn:Hf; [|done]. simpl.
    apply write_loop_frame in Hf as [Hl Hframe]; [|intros y x; apply elem_of_range2|lia].
    split; [done|]. intros p Hp. apply Hframe. intros y x Hin.
    apply elem_of_range2 in Hin as [Hy Hx].
    destruct (Hp (y * grid_size + x)); [by apply cell_index_lt|]. lia. }
  split; [done|]. split; [done|]. split_and!.
  - intros p Hp. apply Hframe. intros i Hi. lia.
  - intros i. split; apply Hframe; intros i' Hi'; lia.
  - intros p Hp. apply Hframe. intros i Hi. lia.
  - intros Hr Hc Hfin. unfold write_sector_to_file.
    destruct (write_loop_succeeds (flipud height_data) grid_size Hr Hc
                (flipped_cells_finite height_data grid_size Hr Hc
                   (fun y x Hy Hx => float_overflow_128 _ (Hfin y x Hy Hx)))
                (range2 grid_size grid_size) content) as [c ->]; [|done].
    intros y x. apply elem_of_range2.
Qed.

Lemma encode_frame_witness :
  length (write_sector_to_file (replicate 708 "000"%byte ++ ["001"; "002"; "003"; "004"]%byte)
            (mk_ndarray 1 1 [[5%Q]]) 1).2 = 712 /\
  (write_sector_to_file (replicate 708 "000"%byte ++ ["001"; "002"; "003"; "004"]%byte)
     (mk_ndarray 1 1 [[5%Q]]) 1).2 !! 710 = Some "003"%byte.
Proof.
  destruct (encode_frame (replicate 708 "000"%byte ++ ["001"; "002"; "003"; "004"]%byte)
              (mk_ndarray 1 1 [[5%Q]]) 1) as (Hl & _ & _ & Hpay & _).
  - simpl. lia.
  - split; [exact Hl|]. exact (proj1 (Hpay 0)).
Defined.

(** C2, as stated, fails twice over: the written value is truncated, not
    rounded (the cell 7/512 gives 1.75 and is written as 1, not 2), and the
    rows are flipped before they are written (with the grid [[1, 0], [0, 0]]
    the sample at the offset of cell (0, 0) is 0 and the sample at the offset
    of cell (1, 0) is 128). *)
Lemma encode_value_counterexample :
  (exists out,
     write_sector_to_file (replicate 712 "000"%byte) (mk_ndarray 1 1 [[7 # 512]]) 1
       = (true, out) /\
     read_u16le out (708 + (0 * 1 + 0) * 4) = Some 1%Z /\
     Z.max 0 (Z.min 65535 (round_nearest ((7 # 512) * 128))) = 2%Z) /\
  (exists out,
     write_sector_to_file (replicate 724 "000"%byte)
       (mk_ndarray 2 2 [[1; 0]; [0; 0]]%Q) 2 = (true, out) /\
     Z.max 0 (Z.min 65535 (round_nearest (1 * 128))) = 128%Z /\
     read_u16le out (708 + (0 * 2 + 0) * 4) = Some 0%Z /\
     read_u16le out (708 + (1 * 2 + 0) * 4) = Some 128%Z).
Proof.
  split.
  - eexists. split; [vm_compute; reflexivity|]. split; reflexivity.
  - eexists. split; [vm_compute; reflexivity|]. split_and!; reflexivity.
Qed.

(** C2 (amended): for every buffer of at least 708 + grid_size*grid_size*4
    bytes, every grid with n >= grid_size rows and at least grid_size columns
    (n = grid_size for a sector grid) whose heights grid[n-1-y][x],
    0 <= y, x < grid_size, are finite and of magnitude below 2^1017 (so that
    the product with 128 is finite and [int] does not raise), and every cell
    (y, x) with 0 <= y, x < grid_size, the encoder succeeds and the
    little-endian unsigned 16-bit value at byte offset
    708 + (y*grid_size + x)*4 of the output is int(grid[n-1-y][x] * 128),
    truncated toward zero and clamped to [0, 65535]: the rows are written in
    reverse order. *)
Theorem encode_value (content : list byte) (height_data : ndarray)
    (grid_size y x : nat) :
  708 + grid_size * grid_size * 4 <= length content ->
  grid_size <= nrows height_data -> grid_size <= ncols height_data ->
  (forall y' x', y' < grid_size -> x' < grid_size ->
     (Qabs (get height_data (nrows height_data - 1 - y') x') < inject_Z (2 ^ 1017))%Q) ->
  y < grid_size -> x < grid_size ->
  exists out,
    write_sector_to_file content height_data grid_size = (true, out) /\
    read_u16le out (708 + (y * grid_size + x) * 4) =
      Some (Z.max 0 (Z.min 65535
              (int_of_float (get height_data (nrows height_data - 1 - y) x * 128)))).
Proof.
  intros Hlen Hr Hc Hfin Hy Hx. unfold write_sector_to_file.
  destruct (write_loop_values (flipud height_data) grid_size Hr Hc
              (flipped_cells_finite height_data grid_size Hr Hc
                 (fun y' x' Hy' Hx' => float_overflow_128 _ (Hfin y' x' Hy' Hx')))
              (range2 grid_size grid_size) content)
    as (c & -> & Hvals); [intros ??; apply elem_of_range2|lia|].
  exists c. split; [done|].
  destruct (Hvals y x) as (lo & hi & Hb & Hlo & Hhi); [by apply elem_of_range2|].
  unfold read_u16le. rewrite Hlo, Hhi. simpl.
  destruct (int_to_bytes2_in_range _ (clamp_range
              (int_of_float (get (flipud height_data) y x * 128))))
    as (lo' & hi' & Hb' & Hv).
  rewrite Hb in Hb'. inversion Hb'; subst lo' hi'.
  unfold int_from_bytes_little in Hv. simpl in Hv. rewrite Hv.
  by rewrite get_flipud by lia.
Qed.

Lemma encode_value_witness :
  exists out,
    write_sector_to_file (replicate 724 "000"%byte)
      (mk_ndarray 2 2 [[1; 2]; [3; 4]]%Q) 2 = (true, out) /\
    read_u16le out (708 + (0 * 2 + 1) * 4) = Some 512%Z.
Proof.
  apply (encode_value (replicate 724 "000"%byte)
           (mk_ndarray 2 2 [[1; 2]; [3; 4]]%Q) 2 0 1).
  - simpl. lia.
  - simpl. lia.
  - simpl. lia.
  - intros [|[|y']] [|[|x']] Hy Hx; try lia; reflexivity.
  - lia.
  - lia.
Defined.

(** ** Round trip and decoded range *)

Lemma sample_at_read_u16le content pos :
  pos + 2 <= length content ->
  exists v, read_u16le content pos = Some v /\
            sample_at content pos = (inject_Z v / 128)%Q /\
            (0 <= v <= 65535)%Z /\
            int_to_bytes2_little v = Some (take 2 (drop pos content)).
Proof.
  intros Hpos. destruct (take2_lookup content pos Hpos) as (b0 & b1 & H0 & H1 & Ht).
  exists (int_from_bytes_little [b0; b1]).
  unfold read_u16le, sample_at. rewrite H0, H1, Ht. simpl.
  split; [done|]. split; [done|].
  split; [apply int_from_bytes_little_2_range|apply int_to_bytes2_from_bytes].
Qed.

(** The decode contract for grids of at most 65 x 65 cells: cell (y, x) is
    the little-endian 16-bit integer at offset 708 + 4*(y*g + x), over 128. *)
Lemma decode_contract_small_grid content g :
  g <= 65 -> 708 + g * g * 4 <= length content ->
  exists arr,
    load_single_sector content g = Some arr /\
    wf_ndarray arr /\ nrows arr = g /\ ncols arr = g /\
    forall y x, y < g -> x < g ->
      exists v, read_u16le content (708 + 4 * (y * g + x)) = Some v /\
                get arr y x = (inject_Z v / 128)%Q.
Proof.
  intros Hg Hlen. eexists. split; [apply load_single_sector_full; lia|].
  split; [apply wf_tabulate|]. split; [done|]. split; [done|].
  intros y x Hy Hx. pose proof (cell_index_lt g y x Hy Hx).
  destruct (sample_at_read_u16le content (708 + 4 * (y * g + x)))
    as (v & Hv & Hs & _); [lia|].
  exists v. split; [done|]. by rewrite get_tabulate.
Qed.

Lemma read_row_samples n s :
  Forall (fun v => exists b0 b1,
            v = (inject_Z (int_from_bytes_little [b0; b1]) / 128)%Q)
         (read_row n s).1.
Proof.
  revert s. induction n as [|n IH]; intros s; cbn [read_row]; [constructor|].
  destruct (Nat.ltb_spec (length (take 2 s)) 2) as [Hlt|Hge]; [constructor|].
  specialize (IH (drop 2 (drop 2 s))).
  destruct (read_row n (drop 2 (drop 2 s))) as [row rest]. simpl in *.
  constructor; [|done].
  destruct s as [|b0 [|b1 s]]; simpl in Hge; try lia. by exists b0, b1.
Qed.

Lemma read_rows_samples m g s :
  Forall (Forall (fun v => exists b0 b1,
            v = (inject_Z (int_from_bytes_little [b0; b1]) / 128)%Q))
         (read_rows m g s).
Proof.
  revert s. induction m as [|m IH]; intros s; cbn [read_rows]; [constructor|].
  pose proof (read_row_samples g s) as Hrow.
  destruct (read_row g s) as [row rest]. constructor; [done|apply IH].
Qed.

(** C10: for every input buffer and grid_size, every elevation value
    produced by [load_single_sector] is n/128 for an integer n with
    0 <= n <= 65535; consequently the value the encoder computes from it,
    int(v * 128), is that n, and the clamp to [0, 65535] leaves it as it
    is. *)
Theorem decoded_range (content : list byte) (grid_size : nat) (arr : ndarray) (v : Q) :
  load_single_sector content grid_size = Some arr ->
  v ∈ flatten arr ->
  exists n : Z,
    (0 <= n <= 65535)%Z /\
    v = (inject_Z n / 128)%Q /\
    int_of_float (v * 128) = n /\
    Z.max 0 (Z.min 65535 (int_of_float (v * 128))) = int_of_float (v * 128).
Proof.
  unfold load_single_sector. intros Hload Hv.
  apply np_array_Some in Hload as (Hcells & _).
  unfold flatten in Hv. rewrite Hcells in Hv.
  apply list_elem_of_join in Hv as (row & Hv & Hrow).
  pose proof (read_rows_samples grid_size grid_size
                (take 16900 (drop 708 content))) as Hall.
  rewrite Forall_forall in Hall. specialize (Hall row Hrow).
  rewrite Forall_forall in Hall. destruct (Hall v Hv) as (b0 & b1 & ->).
  exists (int_from_bytes_little [b0; b1]).
  pose proof (int_from_bytes_little_2_range b0 b1).
  split; [done|]. split; [done|].
  rewrite int_of_float_sample. split; [done|lia].
Qed.

Lemma decoded_range_witness :
  exists n : Z,
    (0 <= n <= 65535)%Z /\
    (260 # 128) = (inject_Z n / 128)%Q /\
    int_of_float ((260 # 128) * 128) = n /\
    Z.max 0 (Z.min 65535 (int_of_float ((260 # 128) * 128)))
      = int_of_float ((260 # 128) * 128).
Proof.
  apply (decoded_range (replicate 708 "000"%byte ++ ["004"; "001"; "255"; "255"]%byte) 1
           (mk_ndarray 1 1 [[260 # 128]])).
  - vm_compute. reflexivity.
  - vm_compute. apply list_elem_of_singleton. reflexivity.
Defined.

(** C1, as stated, fails: encoding the decoded grid itself over the buffer
    writes the rows in reverse order.  With grid_size = 2 and a buffer whose
    only non-zero sample is cell (0, 0), the result carries that sample at
    cell (1, 0). *)
Lemma codec_round_trip_counterexample :
  exists arr,
    load_single_sector
      (replicate 708 "000"%byte ++ ["001"; "000"; "000"; "000"]%byte
         ++ replicate 12 "000"%byte) 2 = Some arr /\
    read_u16le
      (replicate 708 "000"%byte ++ ["001"; "000"; "000"; "000"]%byte
         ++ replicate 12 "000"%byte) 708 = Some 1%Z /\
    read_u16le
      (write_sector_to_file
         (replicate 708 "000"%byte ++ ["001"; "000"; "000"; "000"]%byte
            ++ replicate 12 "000"%byte) arr 2).2 708 = Some 0%Z /\
    write_sector_to_file
      (replicate 708 "000"%byte ++ ["001"; "000"; "000"; "000"]%byte
         ++ replicate 12 "000"%byte) arr 2
    <> (true, replicate 708 "000"%byte ++ ["001"; "000"; "000"; "000"]%byte
                ++ replicate 12 "000"%byte).
Proof.
  eexists. split; [vm_compute; reflexivity|].
  split; [reflexivity|]. split; [vm_compute; reflexivity|].
  intros H. apply (f_equal (fun r => read_u16le r.2 708)) in H.
  vm_compute in H. discriminate.
Qed.

Lemma decoded_cell_in_file (content : list byte) (grid_size y x : nat) :
  708 + grid_size * grid_size * 4 <= length content ->
  y < grid_size -> x < grid_size ->
  708 + 4 * (y * grid_size + x) + 2 <= length content.
Proof. intros Hlen Hy Hx. pose proof (cell_index_lt grid_size y x Hy Hx). lia. Qed.

(** A decoded height, a 16-bit integer over 128, has a finite product with
    128. *)
Lemma sample_at_finite content pos :
  pos + 2 <= length content ->
  float_overflow (sample_at content pos * 128) = false.
Proof.
  intros Hlen.
  destruct (sample_at_read_u16le content pos Hlen) as (v & _ & -> & Hv & _).
  unfold float_overflow.
  destruct (Qle_bool _ _) eqn:Hle; [exfalso|done].
  apply Qle_bool_iff in Hle.
  assert (inject_Z v / 128 * 128 == inject_Z v)%Q as Heq by field.
  rewrite Heq in Hle.
  rewrite Qabs_pos in Hle by (rewrite (Zle_Qle 0 v) in Hv; tauto).
  rewrite <- Zle_Qle in Hle.
  assert (65535 < 2 ^ 1024)%Z by (vm_compute; reflexivity). lia.
Qed.

(** C1 (amended): for every grid_size g of at most 65 and every byte buffer
    B of at least 708 + g*g*4 bytes, the decoder returns a g-square grid, and
    encoding over B the vertical flip of that grid (the form in which
    [create_combined_heightmap] stores a sector in the mosaic; the encoder
    flips its input back) reproduces B bit-for-bit. *)
Theorem codec_round_trip (content : list byte) (grid_size : nat) :
  grid_size <= 65 ->
  708 + grid_size * grid_size * 4 <= length content ->
  exists arr,
    load_single_sector content grid_size = Some arr /\
    nrows arr = grid_size /\ ncols arr = grid_size /\
    write_sector_to_file content (flipud arr) grid_size = (true, content).
Proof.
  intros Hg Hlen.
  exists (tabulate grid_size grid_size
            (fun y x => sample_at content (708 + 4 * (y * grid_size + x)))).
  split; [apply load_single_sector_full; lia|]. split; [done|]. split; [done|].
  unfold write_sector_to_file. rewrite flipud_involutive by apply wf_tabulate.
  destruct (write_loop_values
              (tabulate grid_size grid_size
                 (fun y x => sample_at content (708 + 4 * (y * grid_size + x))))
              grid_size ltac:(done) ltac:(done)
              (fun y x Hy Hx =>
                 eq_ind_r (fun h => float_overflow (h * 128) = false)
                   (sample_at_finite content (708 + 4 * (y * grid_size + x))
                      (decoded_cell_in_file content grid_size y x Hlen Hy Hx))
                   (get_tabulate grid_size grid_size _ y x Hy Hx))
              (range2 grid_size grid_size) content)
    as (c & Hc & Hvals); [intros ??; apply elem_of_range2|lia|].
  rewrite Hc. f_equal.
  pose proof Hc as Hc'.
  apply write_loop_frame in Hc' as [Hl Hframe];
    [|intros ??; apply elem_of_range2|lia].
  apply list_eq. intros p.
  destruct (sample_position_cases grid_size p) as [(y & x & Hy & Hx & Hp)|Hnone].
  - pose proof (cell_index_lt grid_size y x Hy Hx) as Hidx.
    destruct (Hvals y x) as (lo & hi & Hb & Hlo & Hhi); [by apply elem_of_range2|].
    rewrite get_tabulate in Hb by done.
    destruct (sample_at_read_u16le content (708 + 4 * (y * grid_size + x)))
      as (v & _ & Hs & Hv & Hback); [lia|].
    rewrite Hs, int_of_float_sample in Hb.
    replace (Z.max 0 (Z.min 65535 v)) with v in Hb by lia.
    rewrite Hb in Hback.
    destruct (take2_lookup content (708 + 4 * (y * grid_size + x)))
      as (b0 & b1 & H0 & H1 & Ht); [lia|].
    rewrite Ht in Hback. inversion Hback; subst b0 b1.
    replace (708 + 4 * (y * grid_size + x)) with (708 + (y * grid_size + x) * 4)
      in H0, H1 by lia.
    destruct Hp as [-> | ->]; congruence.
  - apply Hframe. intros y x Hin. apply elem_of_range2 in Hin as [? ?].
    by apply Hnone.
Qed.

Lemma codec_round_trip_witness :
  exists arr,
    load_single_sector
      (replicate 708 "000"%byte ++ ["001"; "002"; "003"; "004"]%byte) 1 = Some arr /\
    nrows arr = 1 /\ ncols arr = 1 /\
    write_sector_to_file
      (replicate 708 "000"%byte ++ ["001"; "002"; "003"; "004"]%byte) (flipud arr) 1
    = (true, replicate 708 "000"%byte ++ ["001"; "002"; "003"; "004"]%byte).
Proof.
  apply (codec_round_trip
           (replicate 708 "000"%byte ++ ["001"; "002"; "003"; "004"]%byte) 1).
  - lia.
  - simpl. lia.
Defined.

(** C6, on a buffer that is too short.  With grid_size = 2 the elevation
    region needs 708 + 16 = 724 bytes; on a buffer of 712 bytes the write
    reports success, and the samples whose offset lies beyond the end are
    appended to the buffer one after the other.  With grid_size = 65 and a
    sector file of 708 + 100 bytes the write reports success as well and
    leaves a file of 9208 bytes. *)
Theorem encode_short_buffer :
  write_sector_to_file (replicate 712 "000"%byte)
    (mk_ndarray 2 2 [[1; 2]; [3; 4]]%Q) 2
  = (true,
     replicate 708 "000"%byte
       ++ ["128"; "001"; "000"; "000"; "000"; "002"; "128"; "000"; "000"; "001"]%byte) /\
  (write_sector_to_file (replicate (708 + 100) "000"%byte)
     (tabulate 65 65 (fun _ _ => 1%Q)) 65).1 = true /\
  length (write_sector_to_file (replicate (708 + 100) "000"%byte)
            (tabulate 65 65 (fun _ _ => 1%Q)) 65).2 = 808 + 2 * (65 * 65 - 25).
Proof.
  split; [vm_compute; reflexivity|].
  unfold write_sector_to_file.
  destruct (write_loop_succeeds (flipud (tabulate 65 65 (fun _ _ => 1%Q))) 65
              (Nat.le_refl 65) (Nat.le_refl 65)) with
    (l := range2 65 65) (c0 := replicate (708 + 100) "000"%byte) as [c Hc].
  { intros y x Hy Hx. rewrite get_flipud by done.
    rewrite get_tabulate by (simpl; lia). reflexivity. }
  { intros y x. apply elem_of_range2. }
  rewrite Hc. split; [done|]. cbn [snd].
  apply Nat2Z.inj. rewrite (write_loop_length _ _ _ _ _ Hc), length_replicate.
  vm_compute. reflexivity.
Qed.

(** C8, on a grid larger than 65 x 65: the decoder reads at most 16900
    bytes of the elevation region, so with grid_size = 66 and a buffer of
    708 + 66*66*4 bytes the rows are incomplete and no grid is returned. *)
Theorem decode_large_grid :
  load_single_sector (replicate (708 + 66 * 66 * 4) "000"%byte) 66 = None.
Proof. vm_compute. reflexivity. Qed.

(** ** Truncated sectors *)

(** when the data run out before the last row, some row is short *)
Lemma read_rows_short_row m g s :
  length s + 2 < 4 * (m * g) ->
  exists y r, read_rows m g s !! y = Some r /\ length r < g.
Proof.
  revert s. induction m as [|m IH]; intros s Hlen; [lia|].
  cbn [read_rows].
  destruct (decide (4 * g <= length s + 2)) as [Hfull|Hshort].
  - rewrite read_row_full by lia.
    destruct (IH (drop (4 * g) s)) as (y & r & Hy & Hr).
    { rewrite length_drop. lia. }
    exists (S y), r. done.
  - destruct (read_row_short g s) as (Hl & _); [lia|].
    destruct (read_row g s) as [row rest]. exists 0, row. done.
Qed.

(** With at least two rows and one sample, but not all of them, the rows
    have unequal lengths. *)
Lemma read_rows_ragged m g s :
  2 <= m -> 2 <= length s -> length s + 2 < 4 * (m * g) ->
  np_array (read_rows m g s) = None.
Proof.
  intros Hm Hs Hlen.
  destruct (np_array (read_rows m g s)) as [a|] eqn:Ha; [exfalso|done].
  apply np_array_Some in Ha as (_ & _ & Hall).
  rewrite Forall_forall in Hall.
  destruct (read_rows_short_row m g s Hlen) as (y & r & Hy & Hr).
  apply list_elem_of_lookup_2, Hall in Hy.
  destruct m as [|[|m]]; [lia..|]. cbn [read_rows] in Hall.
  destruct (decide (4 * g <= length s + 2)) as [Hfull|Hshort].
  - rewrite read_row_full in Hall by lia.
    specialize (Hall _ (list_elem_of_here _ _)).
    rewrite length_fmap, length_seq in Hall. lia.
  - destruct (read_row_short g s) as (_ & Hnil & Hone); [lia|].
    destruct (read_row g s) as [row rest]. simpl in *. subst rest.
    rewrite read_row_nil in Hall.
    pose proof (Hall _ (list_elem_of_here _ _)) as H0.
    pose proof (Hall _ (list_elem_of_further _ _ _ (list_elem_of_here _ _))) as H1.
    simpl in H1. specialize (Hone Hs). lia.
Qed.

Lemma terrain_bytes_length (content : list byte) :
  length (take 16900 (drop 708 content)) = Nat.min (4 * (65 * 65)) (length content - 708).
Proof. by rewrite length_take, length_drop, terrain_read_size. Qed.

(** A sector file with at least one sample but without the last one is not
    decoded. *)
Lemma load_single_sector_truncated content :
  710 <= length content -> length content < 708 + 65 * 65 * 4 - 2 ->
  load_single_sector content 65 = None.
Proof.
  intros Hlo Hhi. unfold load_single_sector.
  apply read_rows_ragged; [lia|..]; rewrite terrain_bytes_length; lia.
Qed.

(** A sector file with at least one sample is decoded to a full grid or
    not at all. *)
Lemma load_single_sector_shape content arr :
  710 <= length content ->
  load_single_sector content 65 = Some arr ->
  wf_ndarray arr /\ nrows arr = 65 /\ ncols arr = 65.
Proof.
  intros Hlo Hload.
  destruct (decide (length content < 708 + 65 * 65 * 4 - 2)) as [Hhi|Hfull].
  - by rewrite load_single_sector_truncated in Hload.
  - rewrite load_single_sector_full in Hload by lia.
    inversion Hload; subst arr. split; [apply wf_tabulate|done].
Qed.

Section directory.
Context (py_int : string -> option Z) (sectors_x sectors_y : nat).

Local Abbreviation load_step :=
  (fun (sectors_data : gmap Z ndarray) '(filename, content) =>
     if glob_sd_csdat filename then
       match py_int (sector_num_text filename) with
       | Some sector_num =>
           match load_single_sector content 65 with
           | Some height_data => <[sector_num := height_data]> sectors_data
           | None => sectors_data
           end
       | None => sectors_data
       end
     else sectors_data).

(** a file that is not decoded leaves the sector map as it is *)
Lemma load_skips_undecoded pre filename content post :
  load_single_sector content 65 = None ->
  load_sectors_from_directory py_int (pre ++ (filename, content) :: post)
    sectors_x sectors_y =
  load_sectors_from_directory py_int (pre ++ post) sectors_x sectors_y.
Proof.
  intros Hnone. unfold load_sectors_from_directory.
  rewrite !foldl_app. cbn [foldl]. rewrite Hnone.
  by destruct (glob_sd_csdat filename), (py_int (sector_num_text filename)).
Qed.

Lemma fold_load_invariant (P : Z -> ndarray -> Prop) directory acc :
  (forall k s, acc !! k = Some s -> P k s) ->
  (forall filename content sector_num s,
     (filename, content) ∈ directory ->
     glob_sd_csdat filename = true ->
     py_int (sector_num_text filename) = Some sector_num ->
     load_single_sector content 65 = Some s -> P sector_num s) ->
  forall k s, foldl load_step acc directory !! k = Some s -> P k s.
Proof.
  revert acc. induction directory as [|[filename content] directory IH];
    intros acc Hacc Hdir; [done|].
  cbn [foldl]. apply IH.
  - intros k s.
    destruct (glob_sd_csdat filename) eqn:Hglob; [|apply Hacc].
    destruct (py_int (sector_num_text filename)) as [n|] eqn:Hn; [|apply Hacc].
    destruct (load_single_sector content 65) as [h|] eqn:Hh; [|apply Hacc].
    rewrite lookup_insert. case_decide as Hk; [|apply Hacc].
    intros [= <-]. subst k. eapply (Hdir filename content); [by left|done..].
  - intros f c n s Hin. apply (Hdir f c n s). by right.
Qed.

(** every sector of the map comes from a file of the directory *)
Lemma load_sectors_origin directory k s :
  load_sectors_from_directory py_int directory sectors_x sectors_y !! k = Some s ->
  exists filename content,
    (filename, content) ∈ directory /\ glob_sd_csdat filename = true /\
    py_int (sector_num_text filename) = Some k /\
    load_single_sector content 65 = Some s.
Proof.
  unfold load_sectors_from_directory.
  apply (fold_load_invariant (fun k s => exists filename content,
           (filename, content) ∈ directory /\ glob_sd_csdat filename = true /\
           py_int (sector_num_text filename) = Some k /\
           load_single_sector content 65 = Some s)).
  - intros k' s' H. by rewrite lookup_empty in H.
  - intros f c n s' Hin Hg Hn Hl. by exists f, c.
Qed.

End directory.

(** The composed mosaic, cell by cell: the cell (a, b) of the slot in
    display row [dr] and column [c], after the rotation and the mirror. *)
Lemma create_combined_heightmap_cells (sectors_data : gmap Z ndarray)
    (sectors_x sectors_y grid_size : nat) :
  (forall k s, sectors_data !! k = Some s ->
     nrows s = grid_size /\ ncols s = grid_size) ->
  exists C,
    create_combined_heightmap sectors_data sectors_x sectors_y grid_size = Some C /\
    forall dr c a b,
      dr < sectors_y -> c < sectors_x -> a < grid_size -> b < grid_size ->
      get C (sectors_x * grid_size - 1 - (c * grid_size + b))
            (sectors_y * grid_size - 1 - (dr * grid_size + a)) =
        match sectors_data !! Z.of_nat ((sectors_y - 1 - dr) * sectors_x + c) with
        | Some s => get s (grid_size - 1 - a) b
        | None => 0%Q
        end.
Proof.
  intros Hsq.
  destruct (create_combined_heightmap_placed _ sectors_x sectors_y _ Hsq)
    as (m & HC & Hm & Hr & Hc & Hget).
  eexists. split; [exact HC|]. intros dr c a b Hdr Hcol Ha Hb.
  assert (dr * grid_size + a < sectors_y * grid_size) by nia.
  assert (c * grid_size + b < sectors_x * grid_size) by nia.
  rewrite get_fliplr by (simpl; lia). simpl.
  rewrite get_rot90_1 by lia.
  rewrite <- Hget by done. f_equal; lia.
Qed.

(** C9, as stated, fails at the upper end of the range: a sector file that
    lacks only the two payload bytes of its last cell (708 + 65*65*4 - 2
    bytes) is shorter than 708 + 65*65*4 bytes, yet it is decoded in full and
    is part of the sector map. *)
Lemma truncated_sector_counterexample :
  length (replicate (708 + 65 * 65 * 4 - 2) "000"%byte) < 708 + 65 * 65 * 4 /\
  (fun a => (nrows a, ncols a)) <$>
    (load_sectors_from_directory decimal_int
       [("sd0.csdat"%string, replicate (708 + 65 * 65 * 4 - 2) "000"%byte)] 1 1
     !! 0%Z) = Some (65, 65).
Proof.
  split; [rewrite length_replicate; lia|]. vm_compute. reflexivity.
Qed.

(** At the lower end the import does not fail softly either: a sector file
    without a single sample (708 bytes) is decoded to an array of 65 empty
    rows, which is kept in the sector map and does not fit its slot. *)
Lemma empty_sector_aborts_compose :
  (fun a => (nrows a, ncols a)) <$>
    (load_sectors_from_directory decimal_int
       [("sd0.csdat"%string, replicate 708 "000"%byte)] 1 1 !! 0%Z) = Some (65, 0) /\
  create_combined_heightmap
    (load_sectors_from_directory decimal_int
       [("sd0.csdat"%string, replicate 708 "000"%byte)] 1 1) 1 1 65 = None.
Proof. split; vm_compute; reflexivity. Qed.

(** C9 (amended): every sector file of at least 710 and fewer than
    708 + 65*65*4 - 2 bytes (e.g. 708 + 100 bytes) is a soft decode failure of
    the import: it is not decoded, and the sector map is the one of the
    directory without that file, so every other file is decoded as before and
    the sector is absent unless another file carries its number.  When the
    other sector files (the files that match [sd*.csdat] and carry an
    integer) hold at least one sample each (710 bytes), whatever the other
    files of the directory are, the mosaic is still composed: every sector of
    the map is placed in its slot, and every slot without a sector is the
    all-zero grid_size-square patch. *)
Theorem truncated_sector_soft_failure (py_int : string -> option Z)
    (pre post : list (string * list byte)) (filename : string)
    (content : list byte) (sectors_x sectors_y : nat) :
  710 <= length content -> length content < 708 + 65 * 65 * 4 - 2 ->
  load_single_sector content 65 = None /\
  load_sectors_from_directory py_int (pre ++ (filename, content) :: post)
    sectors_x sectors_y =
  load_sectors_from_directory py_int (pre ++ post) sectors_x sectors_y /\
  (forall k,
     (forall f c, (f, c) ∈ pre ++ post -> glob_sd_csdat f = true ->
        py_int (sector_num_text f) <> Some k) ->
     load_sectors_from_directory py_int (pre ++ (filename, content) :: post)
       sectors_x sectors_y !! k = None) /\
  ((forall f c, (f, c) ∈ pre ++ post -> glob_sd_csdat f = true ->
      is_Some (py_int (sector_num_text f)) -> 710 <= length c) ->
   exists C,
     create_combined_heightmap
       (load_sectors_from_directory py_int (pre ++ (filename, content) :: post)
          sectors_x sectors_y) sectors_x sectors_y 65 = Some C /\
     forall dr c a b,
       dr < sectors_y -> c < sectors_x -> a < 65 -> b < 65 ->
       get C (sectors_x * 65 - 1 - (c * 65 + b))
             (sectors_y * 65 - 1 - (dr * 65 + a)) =
         match load_sectors_from_directory py_int
                 (pre ++ (filename, content) :: post) sectors_x sectors_y
               !! Z.of_nat ((sectors_y - 1 - dr) * sectors_x + c) with
         | Some s => get s (65 - 1 - a) b
         | None => 0%Q
         end).
Proof.
  intros Hlo Hhi.
  pose proof (load_single_sector_truncated content Hlo Hhi) as Hnone.
  split; [done|].
  rewrite (load_skips_undecoded py_int sectors_x sectors_y pre filename content post Hnone).
  split; [done|]. split.
  - intros k Hk.
    destruct (load_sectors_from_directory py_int (pre ++ post) sectors_x sectors_y !! k)
      as [s|] eqn:Hs; [exfalso|done].
    apply load_sectors_origin in Hs as (f & c & Hin & Hglob & Hnum & _).
    by apply (Hk f c).
  - intros Hothers. apply create_combined_heightmap_cells. intros k s Hs.
    apply load_sectors_origin in Hs as (f & c & Hin & Hglob & Hnum & Hload).
    apply load_single_sector_shape in Hload; [tauto|].
    apply (Hothers f c Hin Hglob). rewrite Hnum. by eexists.
Qed.

Lemma truncated_sector_soft_failure_witness :
  load_single_sector (replicate (708 + 100) "000"%byte) 65 = None /\
  load_sectors_from_directory decimal_int
    ([("sd0.csdat"%string, replicate (708 + 65 * 65 * 4) "001"%byte)]
       ++ ("sd1.csdat"%string, replicate (708 + 100) "000"%byte) :: []) 2 1 =
  load_sectors_from_directory decimal_int
    ([("sd0.csdat"%string, replicate (708 + 65 * 65 * 4) "001"%byte)] ++ []) 2 1 /\
  is_Some (create_combined_heightmap
    (load_sectors_from_directory decimal_int
       ([("sd0.csdat"%string, replicate (708 + 65 * 65 * 4) "001"%byte)]
          ++ ("sd1.csdat"%string, replicate (708 + 100) "000"%byte) :: []) 2 1)
    2 1 65).
Proof.
  destruct (truncated_sector_soft_failure decimal_int
              [("sd0.csdat"%string, replicate (708 + 65 * 65 * 4) "001"%byte)] []
              "sd1.csdat" (replicate (708 + 100) "000"%byte) 2 1)
    as (Hnone & Hmap & _ & Hcompose).
  - rewrite length_replicate. lia.
  - rewrite length_replicate. lia.
  - split; [exact Hnone|]. split; [exact Hmap|].
    destruct Hcompose as (C & HC & _); [|by exists C].
    intros f c Hin _ _. apply list_elem_of_singleton in Hin.
    pose proof (f_equal snd Hin) as Hc. cbn [snd] in Hc.
    rewrite Hc, length_replicate. lia.
Defined.


(** * Further properties of the code *)

(** ** Decoding: the three outcomes *)

Lemma read_rows_no_sample m g s :
  0 < g -> length s < 2 -> read_rows m g s = replicate m [].
Proof.
  intros Hg Hs. destruct m as [|m]; [done|]. cbn [read_rows].
  destruct g as [|g]; [lia|]. cbn [read_row].
  destruct (Nat.ltb_spec (length (take 2 s)) 2) as [_|Hge].
  2:{ rewrite length_take in Hge. lia. }
  rewrite (drop_ge s 2) by lia. by rewrite read_rows_nil.
Qed.

Lemma np_array_empty_rows m :
  0 < m -> np_array (replicate m []) = Some (mk_ndarray m 0 (replicate m [])).
Proof.
  intros Hm. destruct m as [|m]; [lia|]. unfold np_array. cbn [replicate].
  rewrite (proj2 (forallb_forall _ _)).
  - cbn [length]. by rewrite length_replicate.
  - intros r Hr. apply list_elem_of_In, elem_of_replicate in Hr as [-> _]. done.
Qed.

Lemma load_single_sector_no_sample (content : list byte) (grid_size : nat) :
  0 < grid_size -> length content < 710 ->
  load_single_sector content grid_size
    = Some (mk_ndarray grid_size 0 (replicate grid_size [])).
Proof.
  intros Hg Hlen. unfold load_single_sector.
  rewrite read_rows_no_sample; [by apply np_array_empty_rows|done|].
  rewrite length_take, length_drop. lia.
Qed.

(** A sector file that holds no complete sample (fewer than 710 bytes, the
    empty file included) is not rejected: it decodes to an array of
    grid_size empty rows. *)
Theorem decode_without_samples (content : list byte) (grid_size : nat) :
  0 < grid_size -> length content < 710 ->
  load_single_sector content grid_size
    = Some (mk_ndarray grid_size 0 (replicate grid_size [])).
Proof. apply load_single_sector_no_sample. Qed.

Lemma decode_without_samples_witness :
  load_single_sector (replicate 709 "007"%byte) 3
    = Some (mk_ndarray 3 0 (replicate 3 [])).
Proof.
  apply (decode_without_samples (replicate 709 "007"%byte) 3).
  - lia.
  - rewrite length_replicate. lia.
Defined.

(** The decoder returns [None] exactly when the grid has at least two rows,
    the file holds at least one sample, and some sample is missing: because
    the grid is larger than 65 x 65 (only 16900 bytes are read) or because
    the file ends before the last sample. *)
Theorem decode_fails_iff (content : list byte) (grid_size : nat) :
  load_single_sector content grid_size = None <->
  2 <= grid_size /\ 710 <= length content /\
  (65 < grid_size \/ length content < 706 + 4 * (grid_size * grid_size)).
Proof.
  split.
  - intros Hnone.
    destruct (decide (grid_size = 0)) as [->|Hg0]; [done|].
    destruct (decide (length content < 710)) as [Hshort|Hlong].
    { rewrite load_single_sector_no_sample in Hnone by lia. done. }
    destruct (decide (grid_size <= 65 /\
                      706 + 4 * (grid_size * grid_size) <= length content))
      as [[Hg Hfull]|Hnot].
    { rewrite load_single_sector_full in Hnone by lia. done. }
    destruct (decide (grid_size = 1)) as [->|Hg1]; lia.
  - intros (Hg & Hlen & Hmiss). unfold load_single_sector.
    apply read_rows_ragged; [done|..]; rewrite terrain_bytes_length; [lia|].
    destruct Hmiss as [Hbig|Hshort]; [|lia].
    assert (66 * 66 <= grid_size * grid_size) by nia. lia.
Qed.

(** On two files that agree on the sample bytes of the elevation region the
    decoder returns the same grid: the header, the payload bytes of the cells
    and the trailer are never looked at. *)
Theorem decode_reads_samples_only (content1 content2 : list byte) (grid_size : nat) :
  grid_size <= 65 ->
  708 + grid_size * grid_size * 4 <= length content1 ->
  708 + grid_size * grid_size * 4 <= length content2 ->
  (forall i, i < grid_size * grid_size ->
     content1 !! (708 + 4 * i) = content2 !! (708 + 4 * i) /\
     content1 !! (708 + 4 * i + 1) = content2 !! (708 + 4 * i + 1)) ->
  load_single_sector content1 grid_size = load_single_sector content2 grid_size.
Proof.
  intros Hg Hl1 Hl2 Hsame.
  rewrite !load_single_sector_full by lia. f_equal.
  apply tabulate_ext. intros y x Hy Hx.
  pose proof (cell_index_lt grid_size y x Hy Hx) as Hi.
  destruct (Hsame _ Hi) as [H0 H1].
  destruct (take2_lookup content1 (708 + 4 * (y * grid_size + x)))
    as (a0 & a1 & Ha0 & Ha1 & Ha); [lia|].
  destruct (take2_lookup content2 (708 + 4 * (y * grid_size + x)))
    as (b0 & b1 & Hb0 & Hb1 & Hb); [lia|].
  unfold sample_at. rewrite Ha, Hb. congruence.
Qed.

Lemma decode_reads_samples_only_witness :
  load_single_sector (replicate 708 "000"%byte ++ ["001"; "002"; "003"; "004"]%byte) 1
  = load_single_sector (replicate 708 "255"%byte ++ ["001"; "002"; "009"; "009"; "009"]%byte) 1.
Proof.
  apply (decode_reads_samples_only
           (replicate 708 "000"%byte ++ ["001"; "002"; "003"; "004"]%byte)
           (replicate 708 "255"%byte ++ ["001"; "002"; "009"; "009"; "009"]%byte) 1).
  - lia.
  - simpl. lia.
  - simpl. lia.
  - intros i Hi. assert (i = 0) as -> by lia. split; reflexivity.
Defined.

(** ** Encoding: what is written and when it fails *)

(** the result of a write of finite heights on a buffer that holds the
    elevation region *)
Lemma write_sector_to_file_result content h g :
  708 + g * g * 4 <= length content -> g <= nrows h -> g <= ncols h ->
  (forall y x, y < g -> x < g ->
     float_overflow (get h (nrows h - 1 - y) x * 128) = false) ->
  exists out,
    write_sector_to_file content h g = (true, out) /\
    length out = length content /\
    (forall y x, y < g -> x < g ->
       exists lo hi,
         int_to_bytes2_little
           (Z.max 0 (Z.min 65535 (int_of_float (get h (nrows h - 1 - y) x * 128))))
           = Some [lo; hi] /\
         out !! (708 + (y * g + x) * 4) = Some lo /\
         out !! (708 + (y * g + x) * 4 + 1) = Some hi) /\
    (forall p,
       (forall y x, y < g -> x < g ->
          p <> 708 + (y * g + x) * 4 /\ p <> 708 + (y * g + x) * 4 + 1) ->
       out !! p = content !! p).
Proof.
  intros Hlen Hr Hc Hfin. unfold write_sector_to_file.
  destruct (write_loop_values (flipud h) g Hr Hc (flipped_cells_finite h g Hr Hc Hfin)
              (range2 g g) content)
    as (c & Hfold & Hvals); [intros ??; apply elem_of_range2|lia|].
  rewrite Hfold. exists c. split; [done|].
  apply write_loop_frame in Hfold as [Hl Hframe];
    [|intros ??; apply elem_of_range2|lia].
  split; [done|]. split.
  - intros y x Hy Hx.
    destruct (Hvals y x) as (lo & hi & Hb & Hlo & Hhi); [by apply elem_of_range2|].
    rewrite get_flipud in Hb by lia. by exists lo, hi.
  - intros p Hp. apply Hframe. intros y x Hin.
    apply elem_of_range2 in Hin as [? ?]. by apply Hp.
Qed.

Lemma load_after_write (content : list byte) (height_data : ndarray)
    (grid_size : nat) :
  grid_size <= 65 ->
  708 + grid_size * grid_size * 4 <= length content ->
  grid_size <= nrows height_data -> grid_size <= ncols height_data ->
  (forall y x, y < grid_size -> x < grid_size ->
     float_overflow (get height_data (nrows height_data - 1 - y) x * 128) = false) ->
  load_single_sector (write_sector_to_file content height_data grid_size).2 grid_size
  = Some (tabulate grid_size grid_size (fun y x =>
            inject_Z (Z.max 0 (Z.min 65535
              (int_of_float (get height_data (nrows height_data - 1 - y) x * 128))))
            / 128)%Q).
Proof.
  intros Hg Hlen Hr Hc Hfin.
  destruct (write_sector_to_file_result content height_data grid_size Hlen Hr Hc Hfin)
    as (out & -> & Hl & Hvals & _). simpl.
  rewrite load_single_sector_full by lia. f_equal.
  apply tabulate_ext. intros y x Hy Hx.
  pose proof (cell_index_lt grid_size y x Hy Hx) as Hi.
  destruct (Hvals y x Hy Hx) as (lo & hi & Hb & Hlo & Hhi).
  destruct (int_to_bytes2_in_range _ (clamp_range
              (int_of_float (get height_data (nrows height_data - 1 - y) x * 128))))
    as (lo' & hi' & Hb' & Hv).
  rewrite Hb in Hb'. inversion Hb'; subst lo' hi'.
  destruct (take2_lookup out (708 + 4 * (y * grid_size + x)))
    as (b0 & b1 & H0 & H1 & Ht); [lia|].
  replace (708 + 4 * (y * grid_size + x)) with (708 + (y * grid_size + x) * 4)
    in H0, H1 by lia.
  unfold sample_at. rewrite Ht.
  assert (b0 = lo) as -> by congruence. assert (b1 = hi) as -> by congruence.
  by rewrite Hv.
Qed.

(** Decoding what was encoded gives the grid as it was quantised: when
    the heights written are finite and of magnitude below 2^1017, cell
    (y, x) of the decoded grid is int(grid[n-1-y][x] * 128), clamped to
    [0, 65535], over 128. *)
Theorem decode_after_encode (content : list byte) (height_data : ndarray)
    (grid_size : nat) :
  grid_size <= 65 ->
  708 + grid_size * grid_size * 4 <= length content ->
  grid_size <= nrows height_data -> grid_size <= ncols height_data ->
  (forall y x, y < grid_size -> x < grid_size ->
     (Qabs (get height_data (nrows height_data - 1 - y) x) < inject_Z (2 ^ 1017))%Q) ->
  load_single_sector (write_sector_to_file content height_data grid_size).2 grid_size
  = Some (tabulate grid_size grid_size (fun y x =>
            inject_Z (Z.max 0 (Z.min 65535
              (int_of_float (get height_data (nrows height_data - 1 - y) x * 128))))
            / 128)%Q).
Proof.
  intros Hg Hlen Hr Hc Hfin. apply load_after_write; [done..|].
  intros y x Hy Hx. by apply float_overflow_128, Hfin.
Qed.

Lemma decode_after_encode_witness :
  load_single_sector
    (write_sector_to_file (replicate 724 "000"%byte)
       (mk_ndarray 2 2 [[1; 2]; [3; 4]]%Q) 2).2 2
  = Some (tabulate 2 2 (fun y x =>
            inject_Z (Z.max 0 (Z.min 65535
              (int_of_float (get (mk_ndarray 2 2 [[1; 2]; [3; 4]]%Q) (2 - 1 - y) x * 128))))
            / 128)%Q).
Proof.
  apply (decode_after_encode (replicate 724 "000"%byte)
           (mk_ndarray 2 2 [[1; 2]; [3; 4]]%Q) 2).
  - lia.
  - simpl. lia.
  - simpl. lia.
  - simpl. lia.
  - intros [|[|y']] [|[|x']] Hy Hx; try lia; reflexivity.
Defined.

(** The elevation of one sector file can be moved into another: encoding
    the flipped decoded grid of a file over any other file of full length and
    decoding the result gives the decoded grid of the first file. *)
Theorem decode_encode_transplant (source target : list byte) (grid_size : nat)
    (arr : ndarray) :
  grid_size <= 65 ->
  708 + grid_size * grid_size * 4 <= length source ->
  708 + grid_size * grid_size * 4 <= length target ->
  load_single_sector source grid_size = Some arr ->
  load_single_sector (write_sector_to_file target (flipud arr) grid_size).2 grid_size
  = Some arr.
Proof.
  intros Hg Hls Hlt Harr.
  remember (fun y x => sample_at source (708 + 4 * (y * grid_size + x))) as f eqn:Hf.
  assert (arr = tabulate grid_size grid_size f) as ->.
  { rewrite load_single_sector_full in Harr by lia. subst f. congruence. }
  rewrite load_after_write; [|done|done|simpl; lia|simpl; lia|].
  2:{ intros y x Hy Hx. simpl nrows. rewrite get_flipud by (simpl; lia). simpl nrows.
      replace (grid_size - 1 - (grid_size - 1 - y)) with y by lia.
      rewrite get_tabulate by done. subst f. cbv beta.
      apply sample_at_finite. by apply decoded_cell_in_file. }
  f_equal. apply tabulate_ext. intros y x Hy Hx.
  simpl nrows. rewrite get_flipud by (simpl; lia). simpl nrows.
  replace (grid_size - 1 - (grid_size - 1 - y)) with y by lia.
  rewrite get_tabulate by done. subst f. cbv beta.
  pose proof (cell_index_lt grid_size y x Hy Hx) as Hi.
  destruct (sample_at_read_u16le source (708 + 4 * (y * grid_size + x)))
    as (v & _ & -> & Hv & _); [lia|].
  rewrite int_of_float_sample. f_equal. f_equal. lia.
Qed.

Lemma decode_encode_transplant_witness :
  load_single_sector
    (write_sector_to_file (replicate 712 "255"%byte)
       (flipud (mk_ndarray 1 1 [[(513 # 128)%Q]])) 1).2 1
  = Some (mk_ndarray 1 1 [[(513 # 128)%Q]]).
Proof.
  apply (decode_encode_transplant
           (replicate 708 "000"%byte ++ ["001"; "002"; "003"; "004"]%byte)
           (replicate 712 "255"%byte) 1).
  - lia.
  - simpl. lia.
  - simpl. lia.
  - vm_compute. reflexivity.
Defined.

Lemma sample_positions_by_index g p :
  (forall i, i < g * g -> p <> 708 + 4 * i /\ p <> 708 + 4 * i + 1) ->
  forall y x, y < g -> x < g ->
    p <> 708 + (y * g + x) * 4 /\ p <> 708 + (y * g + x) * 4 + 1.
Proof.
  intros Hp y x Hy Hx.
  destruct (Hp (y * g + x)); [by apply cell_index_lt|]. lia.
Qed.

Lemma write_sector_to_file_u16 content h g out y x :
  708 + g * g * 4 <= length content -> g <= nrows h -> g <= ncols h ->
  (forall y' x', y' < g -> x' < g ->
     float_overflow (get h (nrows h - 1 - y') x' * 128) = false) ->
  write_sector_to_file content h g = (true, out) ->
  y < g -> x < g ->
  read_u16le out (708 + (y * g + x) * 4) =
    Some (Z.max 0 (Z.min 65535 (int_of_float (get h (nrows h - 1 - y) x * 128)))).
Proof.
  intros Hlen Hr Hc Hfin Hout Hy Hx.
  destruct (write_sector_to_file_result content h g Hlen Hr Hc Hfin)
    as (out' & Hout' & _ & Hvals & _).
  assert (out' = out) as -> by congruence.
  destruct (Hvals y x Hy Hx) as (lo & hi & Hb & Hlo & Hhi).
  unfold read_u16le. rewrite Hlo, Hhi. simpl.
  destruct (int_to_bytes2_in_range _ (clamp_range
              (int_of_float (get h (nrows h - 1 - y) x * 128))))
    as (lo' & hi' & Hb' & Hv).
  rewrite Hb in Hb'. inversion Hb'; subst lo' hi'.
  unfold int_from_bytes_little in Hv. simpl in Hv. by rewrite Hv.
Qed.

(** The encoder overwrites the samples: when the heights written are
    finite and of magnitude below 2^1017, so that the write succeeds, its
    result does not depend on the samples the file held before, only on the
    other bytes and on the grid.  In particular writing the same grid a second
    time changes nothing. *)
Theorem encode_overwrites_samples (content content' : list byte)
    (height_data : ndarray) (grid_size : nat) :
  708 + grid_size * grid_size * 4 <= length content ->
  length content' = length content ->
  grid_size <= nrows height_data -> grid_size <= ncols height_data ->
  (forall y x, y < grid_size -> x < grid_size ->
     (Qabs (get height_data (nrows height_data - 1 - y) x) < inject_Z (2 ^ 1017))%Q) ->
  (forall p,
     (forall i, i < grid_size * grid_size -> p <> 708 + 4 * i /\ p <> 708 + 4 * i + 1) ->
     content' !! p = content !! p) ->
  write_sector_to_file content' height_data grid_size
    = write_sector_to_file content height_data grid_size /\
  write_sector_to_file
    (write_sector_to_file content height_data grid_size).2 height_data grid_size
    = write_sector_to_file content height_data grid_size.
Proof.
  intros Hlen Hlen' Hr Hc Hbound Hsame.
  assert (forall y x, y < grid_size -> x < grid_size ->
            float_overflow (get height_data (nrows height_data - 1 - y) x * 128) = false)
    as Hfin by (intros y x Hy Hx; by apply float_overflow_128, Hbound).
  assert (forall c1 c2, 708 + grid_size * grid_size * 4 <= length c1 ->
            length c2 = length c1 ->
            (forall p,
               (forall y x, y < grid_size -> x < grid_size ->
                  p <> 708 + (y * grid_size + x) * 4 /\
                  p <> 708 + (y * grid_size + x) * 4 + 1) ->
               c2 !! p = c1 !! p) ->
            write_sector_to_file c2 height_data grid_size
              = write_sector_to_file c1 height_data grid_size) as Hgen.
  { intros c1 c2 Hl1 Hl2 Hagree.
    destruct (write_sector_to_file_result c1 height_data grid_size Hl1 Hr Hc Hfin)
      as (o1 & -> & _ & Hv1 & Hf1).
    destruct (write_sector_to_file_result c2 height_data grid_size ltac:(lia) Hr Hc Hfin)
      as (o2 & -> & _ & Hv2 & Hf2).
    f_equal. apply list_eq. intros p.
    destruct (sample_position_cases grid_size p) as [(y & x & Hy & Hx & Hp)|Hnone].
    - destruct (Hv1 y x Hy Hx) as (lo & hi & Hb & Hlo & Hhi).
      destruct (Hv2 y x Hy Hx) as (lo' & hi' & Hb' & Hlo' & Hhi').
      rewrite Hb in Hb'. inversion Hb'; subst lo' hi'.
      destruct Hp as [-> | ->]; congruence.
    - rewrite Hf1, Hf2 by done. by apply Hagree. }
  split.
  - apply Hgen; [done..|]. intros p Hp. apply Hsame.
    intros i Hi. destruct (sample_position_cases grid_size p)
      as [(y & x & Hy & Hx & Hyx)|Hnone].
    + destruct (Hp y x Hy Hx). lia.
    + assert (0 < grid_size) by nia.
      pose proof (Nat.div_mod_eq i grid_size).
      pose proof (Nat.mod_upper_bound i grid_size ltac:(lia)).
      destruct (Hnone (i / grid_size) (i mod grid_size));
        [apply Nat.Div0.div_lt_upper_bound; lia|done|lia].
  - destruct (write_sector_to_file_result content height_data grid_size Hlen Hr Hc Hfin)
      as (o & Ho & Hlo & _ & Hfo).
    rewrite Ho. simpl. rewrite <- Ho. by apply Hgen.
Qed.

Lemma encode_overwrites_samples_witness :
  write_sector_to_file (replicate 708 "000"%byte ++ ["009"; "009"; "003"; "004"]%byte)
    (mk_ndarray 1 1 [[5%Q]]) 1
  = write_sector_to_file (replicate 708 "000"%byte ++ ["001"; "002"; "003"; "004"]%byte)
      (mk_ndarray 1 1 [[5%Q]]) 1.
Proof.
  apply (encode_overwrites_samples
           (replicate 708 "000"%byte ++ ["001"; "002"; "003"; "004"]%byte)
           (replicate 708 "000"%byte ++ ["009"; "009"; "003"; "004"]%byte)
           (mk_ndarray 1 1 [[5%Q]]) 1).
  - simpl. lia.
  - reflexivity.
  - simpl. lia.
  - simpl. lia.
  - intros [|y'] [|x'] Hy Hx; try lia; reflexivity.
  - intros p Hp. destruct (Hp 0) as [H0 H1]; [lia|].
    destruct (decide (p < 708)) as [Hlt|Hge].
    + rewrite !lookup_app_l by (rewrite length_replicate; lia). done.
    + rewrite !lookup_app_r by (rewrite length_replicate; lia).
      rewrite length_replicate.
      destruct (p - 708) as [|[|n]] eqn:Hn; [lia|lia|done].
Defined.

Lemma foldl_bind_fails {A B} (f : A -> B -> option A) l a b :
  b ∈ l -> (forall a', f a' b = None) ->
  foldl (fun acc b' => acc ≫= fun a' => f a' b') (Some a) l = None.
Proof.
  revert a. induction l as [|b0 l IH]; intros a Hin Hb.
  - by apply elem_of_nil in Hin.
  - cbn [foldl mbind option_bind].
    apply elem_of_cons in Hin as [<-|Hin].
    + rewrite Hb. apply foldl_bind_None.
    + destruct (f a b0) as [a1|]; [by apply IH|apply foldl_bind_None].
Qed.

(** On a grid with fewer than grid_size rows or columns the write fails:
    the function returns [False] and the file is left as it was. *)
Theorem encode_grid_too_small (content : list byte) (height_data : ndarray)
    (grid_size : nat) :
  nrows height_data < grid_size \/ ncols height_data < grid_size ->
  write_sector_to_file content height_data grid_size = (false, content).
Proof.
  intros Hsmall. unfold write_sector_to_file.
  rewrite (foldl_bind_fails _ _ _
             (if decide (nrows height_data < grid_size)
              then (nrows height_data, 0) else (0, ncols height_data))); [done| |].
  - case_decide; apply elem_of_range2; lia.
  - intros c. case_decide; unfold write_cell, getitem; simpl.
    + by rewrite Nat.ltb_irrefl.
    + rewrite Nat.ltb_irrefl. by rewrite andb_false_r.
Qed.

Lemma encode_grid_too_small_witness :
  write_sector_to_file (replicate 724 "007"%byte) (mk_ndarray 2 1 [[1%Q]; [2%Q]]) 2
  = (false, replicate 724 "007"%byte).
Proof.
  apply (encode_grid_too_small (replicate 724 "007"%byte)
           (mk_ndarray 2 1 [[1%Q]; [2%Q]]) 2).
  right. simpl. lia.
Defined.

Lemma int_of_float_negative q : (q < 0)%Q -> (int_of_float (q * 128) <= 0)%Z.
Proof.
  unfold Qlt, int_of_float. simpl. intros Hq.
  replace (Qnum q * 128)%Z with (- (- Qnum q * 128))%Z by lia.
  rewrite Z.quot_opp_l by lia.
  pose proof (Z.quot_pos (- Qnum q * 128) (Z.pos (Qden q * 1))). lia.
Qed.

Lemma int_of_float_large q : (512 <= q)%Q -> (65536 <= int_of_float (q * 128))%Z.
Proof.
  unfold Qle, int_of_float. simpl. intros Hq.
  rewrite Z.quot_div_nonneg by lia.
  apply Z.div_le_lower_bound; lia.
Qed.

(** The encoder saturates: when the heights written are finite and of
    magnitude below 2^1017, a negative elevation is written as 0 and an
    elevation of 512 or more as 65535. *)
Theorem encode_saturates (content : list byte) (height_data : ndarray)
    (grid_size y x : nat) :
  708 + grid_size * grid_size * 4 <= length content ->
  grid_size <= nrows height_data -> grid_size <= ncols height_data ->
  (forall y' x', y' < grid_size -> x' < grid_size ->
     (Qabs (get height_data (nrows height_data - 1 - y') x') < inject_Z (2 ^ 1017))%Q) ->
  y < grid_size -> x < grid_size ->
  ((get height_data (nrows height_data - 1 - y) x < 0)%Q ->
   read_u16le (write_sector_to_file content height_data grid_size).2
     (708 + (y * grid_size + x) * 4) = Some 0%Z) /\
  ((512 <= get height_data (nrows height_data - 1 - y) x)%Q ->
   read_u16le (write_sector_to_file content height_data grid_size).2
     (708 + (y * grid_size + x) * 4) = Some 65535%Z).
Proof.
  intros Hlen Hr Hc Hbound Hy Hx.
  assert (forall y' x', y' < grid_size -> x' < grid_size ->
            float_overflow (get height_data (nrows height_data - 1 - y') x' * 128) = false)
    as Hfin by (intros y' x' Hy' Hx'; by apply float_overflow_128, Hbound).
  destruct (write_sector_to_file_result content height_data grid_size Hlen Hr Hc Hfin)
    as (out & Hout & _).
  rewrite Hout. cbn [snd].
  rewrite (write_sector_to_file_u16 content height_data grid_size out y x) by done.
  split; intros Hq.
  - apply int_of_float_negative in Hq. f_equal. lia.
  - apply int_of_float_large in Hq. f_equal. lia.
Qed.

Lemma encode_saturates_witness :
  read_u16le (write_sector_to_file (replicate 724 "000"%byte)
                (mk_ndarray 2 2 [[(-3); 600]; [1; 2]]%Q) 2).2 (708 + (1 * 2 + 0) * 4)
    = Some 0%Z /\
  read_u16le (write_sector_to_file (replicate 724 "000"%byte)
                (mk_ndarray 2 2 [[(-3); 600]; [1; 2]]%Q) 2).2 (708 + (1 * 2 + 1) * 4)
    = Some 65535%Z.
Proof.
  split.
  - destruct (encode_saturates (replicate 724 "000"%byte)
                (mk_ndarray 2 2 [[(-3); 600]; [1; 2]]%Q) 2 1 0) as [Hneg _].
    + simpl. lia.
    + simpl. lia.
    + simpl. lia.
    + intros [|[|y']] [|[|x']] Hy Hx; try lia; reflexivity.
    + lia.
    + lia.
    + apply Hneg. reflexivity.
  - destruct (encode_saturates (replicate 724 "000"%byte)
                (mk_ndarray 2 2 [[(-3); 600]; [1; 2]]%Q) 2 1 1) as [_ Hbig].
    + simpl. lia.
    + simpl. lia.
    + simpl. lia.
    + intros [|[|y']] [|[|x']] Hy Hx; try lia; reflexivity.
    + lia.
    + lia.
    + apply Hbig. discriminate.
Defined.

(** ** The sector directory *)

Section directory_facts.
Context (py_int : string -> option Z) (sectors_x sectors_y : nat).

Local Abbreviation load_step :=
  (fun (sectors_data : gmap Z ndarray) '(filename, content) =>
     if glob_sd_csdat filename then
       match py_int (sector_num_text filename) with
       | Some sector_num =>
           match load_single_sector content 65 with
           | Some height_data => <[sector_num := height_data]> sectors_data
           | None => sectors_data
           end
       | None => sectors_data
       end
     else sectors_data).

Lemma fold_load_keeps_keys directory acc k :
  is_Some (acc !! k) -> is_Some (foldl load_step acc directory !! k).
Proof.
  revert acc. induction directory as [|[f c] directory IH]; intros acc Hk; [done|].
  cbn [foldl]. apply IH.
  destruct (glob_sd_csdat f); [|done].
  destruct (py_int (sector_num_text f)) as [n|]; [|done].
  destruct (load_single_sector c 65) as [h|]; [|done].
  rewrite lookup_insert. case_decide; [by eexists|done].
Qed.

Lemma fold_load_lookup_stable directory acc k :
  (forall f c, (f, c) ∈ directory -> glob_sd_csdat f = true ->
     py_int (sector_num_text f) = Some k -> load_single_sector c 65 = None) ->
  foldl load_step acc directory !! k = acc !! k.
Proof.
  revert acc. induction directory as [|[f c] directory IH]; intros acc Hdir; [done|].
  cbn [foldl]. rewrite IH by (intros f' c' Hin; apply Hdir; by right).
  destruct (glob_sd_csdat f) eqn:Hglob; [|done].
  destruct (py_int (sector_num_text f)) as [n|] eqn:Hn; [|done].
  destruct (load_single_sector c 65) as [h|] eqn:Hh; [|done].
  rewrite lookup_insert. case_decide as Hk; [|done]. subst n.
  rewrite (Hdir f c) in Hh; [done|by left|done|done].
Qed.

End directory_facts.

(** A file is skipped without any effect on the sector map when its name
    does not match [sd*.csdat], when the text between [sd] and [.csdat] is
    not an integer, or when it is not decoded. *)
Theorem load_sectors_skips_file (py_int : string -> option Z)
    (pre post : list (string * list byte)) (filename : string)
    (content : list byte) (sectors_x sectors_y : nat) :
  glob_sd_csdat filename = false \/
  py_int (sector_num_text filename) = None \/
  load_single_sector content 65 = None ->
  load_sectors_from_directory py_int (pre ++ (filename, content) :: post)
    sectors_x sectors_y
  = load_sectors_from_directory py_int (pre ++ post) sectors_x sectors_y.
Proof.
  intros Hskip. unfold load_sectors_from_directory.
  rewrite !foldl_app. cbn [foldl].
  destruct Hskip as [-> | [Hn | Hl]]; [done|..].
  - rewrite Hn. by destruct (glob_sd_csdat filename).
  - rewrite Hl.
    by destruct (glob_sd_csdat filename), (py_int (sector_num_text filename)).
Qed.

Lemma load_sectors_skips_file_witness :
  load_sectors_from_directory decimal_int
    ([] ++ ("sdx1.csdat"%string, replicate 712 "000"%byte) :: []) 1 1
  = load_sectors_from_directory decimal_int ([] ++ []) 1 1.
Proof.
  apply (load_sectors_skips_file decimal_int [] [] "sdx1.csdat"
           (replicate 712 "000"%byte) 1 1).
  right. left. reflexivity.
Defined.

(** When several files carry the same sector number, the last one in the
    order of the listing that is decoded is the one in the sector map. *)
Theorem load_sectors_last_wins (py_int : string -> option Z)
    (pre post : list (string * list byte)) (filename : string)
    (content : list byte) (sectors_x sectors_y : nat) (k : Z) (s : ndarray) :
  glob_sd_csdat filename = true ->
  py_int (sector_num_text filename) = Some k ->
  load_single_sector content 65 = Some s ->
  (forall f c, (f, c) ∈ post -> glob_sd_csdat f = true ->
     py_int (sector_num_text f) = Some k -> load_single_sector c 65 = None) ->
  load_sectors_from_directory py_int (pre ++ (filename, content) :: post)
    sectors_x sectors_y !! k = Some s.
Proof.
  intros Hglob Hk Hs Hpost. unfold load_sectors_from_directory.
  rewrite foldl_app. cbn [foldl]. rewrite Hglob, Hk, Hs.
  rewrite (fold_load_lookup_stable py_int post _ k Hpost).
  apply lookup_insert_eq.
Qed.

Lemma load_sectors_last_wins_witness :
  load_sectors_from_directory decimal_int
    ([("sd1.csdat"%string, replicate (708 + 65 * 65 * 4) "001"%byte)]
       ++ ("sd01.csdat"%string, replicate (708 + 65 * 65 * 4) "002"%byte) :: []) 1 1
    !! 1%Z
  = Some (tabulate 65 65 (fun y x =>
            sample_at (replicate (708 + 65 * 65 * 4) "002"%byte)
                      (708 + 4 * (y * 65 + x)))).
Proof.
  apply (load_sectors_last_wins decimal_int
           [("sd1.csdat"%string, replicate (708 + 65 * 65 * 4) "001"%byte)] []
           "sd01.csdat" (replicate (708 + 65 * 65 * 4) "002"%byte) 1 1 1%Z).
  - reflexivity.
  - reflexivity.
  - apply load_single_sector_full; [lia|]. right. rewrite length_replicate. lia.
  - intros f c Hin. by apply elem_of_nil in Hin.
Defined.

(** A sector number is in the sector map exactly when some file of the
    listing matches [sd*.csdat], carries that number and is decoded. *)
Theorem load_sectors_dom (py_int : string -> option Z)
    (directory : list (string * list byte)) (sectors_x sectors_y : nat) (k : Z) :
  is_Some (load_sectors_from_directory py_int directory sectors_x sectors_y !! k) <->
  exists filename content,
    (filename, content) ∈ directory /\ glob_sd_csdat filename = true /\
    py_int (sector_num_text filename) = Some k /\
    is_Some (load_single_sector content 65).
Proof.
  split.
  - intros [s Hs]. apply load_sectors_origin in Hs as (f & c & Hin & Hg & Hn & Hl).
    exists f, c. rewrite Hl. eauto.
  - intros (f & c & Hin & Hg & Hn & [s Hl]).
    apply list_elem_of_split in Hin as (pre & post & ->).
    unfold load_sectors_from_directory. rewrite foldl_app. cbn [foldl].
    rewrite Hg, Hn, Hl. apply fold_load_keeps_keys.
    rewrite lookup_insert_eq. by eexists.
Qed.

(** ** The mosaic *)

Lemma foldl_ext_in {A B} (f g : A -> B -> A) l a :
  (forall a' b, b ∈ l -> f a' b = g a' b) -> foldl f a l = foldl g a l.
Proof.
  revert a. induction l as [|b l IH]; intros a Hfg; [done|].
  cbn [foldl]. rewrite Hfg by by left. apply IH.
  intros a' b' Hin. apply Hfg. by right.
Qed.

(** A sector whose number is not the index of a slot (negative, or
    sectors_x*sectors_y and more) has no effect on the mosaic. *)
Theorem compose_ignores_out_of_range (sectors_data : gmap Z ndarray)
    (sectors_x sectors_y grid_size : nat) (k : Z) (s : ndarray) :
  (k < 0 \/ Z.of_nat (sectors_x * sectors_y) <= k)%Z ->
  create_combined_heightmap (<[k := s]> sectors_data) sectors_x sectors_y grid_size
  = create_combined_heightmap sectors_data sectors_x sectors_y grid_size.
Proof.
  intros Hk. unfold create_combined_heightmap. f_equal.
  apply foldl_ext_in. intros acc [dr c] Hin.
  apply elem_of_range2 in Hin as [Hdr Hc].
  destruct acc as [m|]; [|done]. cbn [mbind option_bind]. unfold place_sector.
  rewrite lookup_insert_ne; [done|].
  pose proof (index_of_lt sectors_x sectors_y dr c Hdr Hc) as Hlt.
  revert Hk Hlt.
  generalize ((sectors_y - 1 - dr) * sectors_x + c) (sectors_x * sectors_y).
  intros n N Hk Hlt. lia.
Qed.

Lemma compose_ignores_out_of_range_witness :
  create_combined_heightmap
    (<[4%Z := mk_ndarray 1 1 [[7%Q]]]> {[ 0%Z := mk_ndarray 1 1 [[5%Q]] ]}) 2 2 1
  = create_combined_heightmap {[ 0%Z := mk_ndarray 1 1 [[5%Q]] ]} 2 2 1.
Proof.
  apply (compose_ignores_out_of_range {[ 0%Z := mk_ndarray 1 1 [[5%Q]] ]} 2 2 1 4%Z).
  right. simpl. lia.
Defined.

Section misfit.
Context (sectors_data : gmap Z ndarray) (sectors_x sectors_y grid_size : nat).

Local Abbreviation place :=
  (fun acc rc => acc ≫= fun m =>
     place_sector sectors_data sectors_x sectors_y grid_size m rc).

Lemma fold_place_misfit l m0 dr c s :
  wf_ndarray m0 ->
  nrows m0 = sectors_y * grid_size -> ncols m0 = sectors_x * grid_size ->
  (dr, c) ∈ l -> dr < sectors_y -> c < sectors_x ->
  sectors_data !! Z.of_nat ((sectors_y - 1 - dr) * sectors_x + c) = Some s ->
  (nrows s <> grid_size /\ nrows s <> 1) \/ (ncols s <> grid_size /\ ncols s <> 1) ->
  foldl place (Some m0) l = None.
Proof.
  intros Hwf Hr Hc Hin Hdr Hcol Hs Hbad.
  revert m0 Hwf Hr Hc Hin. induction l as [|rc l IH]; intros m0 Hwf Hr Hc Hin.
  - by apply elem_of_nil in Hin.
  - change (foldl place (place (Some m0) rc) l = None).
    cbn [mbind option_bind].
    destruct (place_sector sectors_data sectors_x sectors_y grid_size m0 rc)
      as [m1|] eqn:Hp; [|apply foldl_bind_None].
    apply elem_of_cons in Hin as [<-|Hin].
    + exfalso. unfold place_sector in Hp. rewrite Hs in Hp.
      unfold set_slice, broadcast_to in Hp. simpl in Hp.
      replace (Nat.min (dr * grid_size + grid_size) (nrows m0) - dr * grid_size)
        with grid_size in Hp by nia.
      replace (Nat.min (c * grid_size + grid_size) (ncols m0) - c * grid_size)
        with grid_size in Hp by nia.
      destruct Hbad as [[H1 H2]|[H1 H2]].
      * apply Nat.eqb_neq in H1, H2. by rewrite H1, H2 in Hp.
      * apply Nat.eqb_neq in H1, H2. rewrite H1, H2 in Hp.
        by rewrite andb_false_r in Hp.
    + apply place_sector_shape in Hp as (Hr1 & Hc1 & Hwf1); [|done].
      apply IH; [done|lia|lia|done].
Qed.

End misfit.

(** A sector that has a slot and whose array does not fit it (a number of
    rows, or of columns, that is neither grid_size nor 1) makes
    [create_combined_heightmap] raise: no mosaic is returned. *)
Theorem compose_sector_misfit (sectors_data : gmap Z ndarray)
    (sectors_x sectors_y grid_size k : nat) (s : ndarray) :
  k < sectors_x * sectors_y ->
  sectors_data !! Z.of_nat k = Some s ->
  (nrows s <> grid_size /\ nrows s <> 1) \/ (ncols s <> grid_size /\ ncols s <> 1) ->
  create_combined_heightmap sectors_data sectors_x sectors_y grid_size = None.
Proof.
  intros Hk Hs Hbad.
  destruct (slot_of_index sectors_x sectors_y k Hk) as (dr & c & Hdr & Hc & Hidx).
  unfold create_combined_heightmap.
  rewrite (fold_place_misfit sectors_data sectors_x sectors_y grid_size
             (range2 sectors_y sectors_x) _ dr c s); [done|apply wf_tabulate|done|done| | | | |done].
  - by apply elem_of_range2.
  - done.
  - done.
  - by rewrite Hidx.
Qed.

Lemma compose_sector_misfit_witness :
  create_combined_heightmap
    {[ 1%Z := mk_ndarray 2 0 [[]; []] ]} 2 1 2 = None.
Proof.
  apply (compose_sector_misfit {[ 1%Z := mk_ndarray 2 0 [[]; []] ]} 2 1 2 1
           (mk_ndarray 2 0 [[]; []])).
  - lia.
  - reflexivity.
  - right. simpl. lia.
Defined.

(** The layout of the mosaic: with the sectors laid out in file order
    (sector k in sector row k / sectors_x and sector column k mod sectors_x,
    rows and columns of a sector in file order), the mosaic is that terrain
    transposed, with the order of its rows reversed: cell (i, j) of the
    mosaic is row j mod grid_size, column grid_size-1 - i mod grid_size of
    the sector in sector row j / grid_size and sector column
    sectors_x-1 - i / grid_size, and 0 where that sector is missing. *)
Theorem mosaic_layout (sectors_data : gmap Z ndarray)
    (sectors_x sectors_y grid_size : nat) :
  (forall k s, sectors_data !! k = Some s ->
     nrows s = grid_size /\ ncols s = grid_size) ->
  exists C,
    create_combined_heightmap sectors_data sectors_x sectors_y grid_size = Some C /\
    forall i j, i < sectors_x * grid_size -> j < sectors_y * grid_size ->
      get C i j =
        match sectors_data
                !! Z.of_nat (j / grid_size * sectors_x + (sectors_x - 1 - i / grid_size)) with
        | Some s => get s (j mod grid_size) (grid_size - 1 - i mod grid_size)
        | None => 0%Q
        end.
Proof.
  intros Hsq.
  destruct (create_combined_heightmap_cells sectors_data sectors_x sectors_y
              grid_size Hsq) as (C & HC & Hcells).
  exists C. split; [done|]. intros i j Hi Hj.
  assert (0 < grid_size) as Hg by nia.
  pose proof (Nat.div_mod_eq i grid_size) as Hdi.
  pose proof (Nat.mod_upper_bound i grid_size ltac:(lia)) as Hmi.
  pose proof (Nat.div_mod_eq j grid_size) as Hdj.
  pose proof (Nat.mod_upper_bound j grid_size ltac:(lia)) as Hmj.
  assert (i / grid_size < sectors_x) as Hqi
    by (apply Nat.Div0.div_lt_upper_bound; lia).
  assert (j / grid_size < sectors_y) as Hqj
    by (apply Nat.Div0.div_lt_upper_bound; lia).
  specialize (Hcells (sectors_y - 1 - j / grid_size) (sectors_x - 1 - i / grid_size)
                (grid_size - 1 - j mod grid_size) (grid_size - 1 - i mod grid_size)
                ltac:(lia) ltac:(lia) ltac:(lia) ltac:(lia)).
  replace (sectors_y - 1 - (sectors_y - 1 - j / grid_size)) with (j / grid_size)
    in Hcells by lia.
  replace (grid_size - 1 - (grid_size - 1 - j mod grid_size)) with (j mod grid_size)
    in Hcells by lia.
  rewrite <- Hcells. f_equal.
  - remember (i / grid_size) as qi. remember (i mod grid_size) as ri.
    assert ((sectors_x - 1 - qi) * grid_size + qi * grid_size + grid_size
            = sectors_x * grid_size) by nia.
    lia.
  - remember (j / grid_size) as qj. remember (j mod grid_size) as rj.
    assert ((sectors_y - 1 - qj) * grid_size + qj * grid_size + grid_size
            = sectors_y * grid_size) by nia.
    lia.
Qed.

Lemma mosaic_layout_witness :
  exists C,
    create_combined_heightmap
      {[ 0%Z := mk_ndarray 2 2 [[1; 2]; [3; 4]]%Q ]} 2 1 2 = Some C /\
    get C 2 1 = 4%Q.
Proof.
  destruct (mosaic_layout {[ 0%Z := mk_ndarray 2 2 [[1; 2]; [3; 4]]%Q ]} 2 1 2)
    as (C & HC & Hcell).
  - intros k s Hs. apply lookup_singleton_Some in Hs as [_ <-]. simpl. lia.
  - exists C. split; [exact HC|]. rewrite Hcell by lia. reflexivity.
Defined.

(** ** The heightmap image *)

Lemma length_flatten a :
  wf_ndarray a -> length (flatten a) = nrows a * ncols a.
Proof.
  intros [Hlen Hrows]. unfold flatten.
  rewrite length_join, (sum_list_fmap_same (ncols a)) by done. by rewrite Hlen.
Qed.

Lemma elem_of_flatten a i j :
  wf_ndarray a -> i < nrows a -> j < ncols a -> get a i j ∈ flatten a.
Proof.
  intros Ha Hi Hj. eapply list_elem_of_lookup_2. by apply lookup_flatten.
Qed.

Lemma foldl_Qmin_lower xs x :
  (foldl Qmin x xs <= x)%Q /\ Forall (fun v => (foldl Qmin x xs <= v)%Q) xs.
Proof.
  revert x. induction xs as [|y ys IH]; intros x; simpl.
  - split; [apply Qle_refl|constructor].
  - destruct (IH (Qmin x y)) as [H1 H2]. split.
    + eapply Qle_trans; [exact H1|apply Q.le_min_l].
    + constructor; [eapply Qle_trans; [exact H1|apply Q.le_min_r]|done].
Qed.

Lemma foldl_Qmax_upper xs x :
  (x <= foldl Qmax x xs)%Q /\ Forall (fun v => (v <= foldl Qmax x xs)%Q) xs.
Proof.
  revert x. induction xs as [|y ys IH]; intros x; simpl.
  - split; [apply Qle_refl|constructor].
  - destruct (IH (Qmax x y)) as [H1 H2]. split.
    + eapply Qle_trans; [apply Q.le_max_l|exact H1].
    + constructor; [eapply Qle_trans; [apply Q.le_max_r|exact H1]|done].
Qed.

Lemma np_min_lower a mn v :
  np_min a = Some mn -> v ∈ flatten a -> (mn <= v)%Q.
Proof.
  unfold np_min. destruct (flatten a) as [|x xs]; [done|]. intros [= <-] Hv.
  destruct (foldl_Qmin_lower xs x) as [H1 H2].
  apply elem_of_cons in Hv as [->|Hv]; [done|].
  rewrite Forall_forall in H2. by apply H2.
Qed.

Lemma np_max_upper a mx v :
  np_max a = Some mx -> v ∈ flatten a -> (v <= mx)%Q.
Proof.
  unfold np_max. destruct (flatten a) as [|x xs]; [done|]. intros [= <-] Hv.
  destruct (foldl_Qmax_upper xs x) as [H1 H2].
  apply elem_of_cons in Hv as [->|Hv]; [done|].
  rewrite Forall_forall in H2. by apply H2.
Qed.

Lemma normalize_is_Some a :
  wf_ndarray a -> (is_Some (normalize a) <-> 0 < nrows a /\ 0 < ncols a).
Proof.
  intros Ha. pose proof (length_flatten a Ha) as Hlen.
  unfold normalize, np_min, np_max.
  destruct (flatten a) as [|x xs]; simpl in *.
  - split; [by intros [? ?]|]. intros [? ?]. nia.
  - split; [intros _; nia|by eexists].
Qed.

(** [numpy_to_blender_image] returns an image exactly when the array has at
    least one row and one column; on an array without cells the minimum
    raises. *)
Theorem image_defined_iff (numpy_array : ndarray) (rotate_texture : bool) :
  wf_ndarray numpy_array ->
  (is_Some (numpy_to_blender_image numpy_array rotate_texture) <->
   0 < nrows numpy_array /\ 0 < ncols numpy_array).
Proof.
  intros Ha. unfold numpy_to_blender_image.
  set (a' := if rotate_texture then rot90 numpy_array 1 else numpy_array).
  assert (wf_ndarray a') as Ha'.
  { subst a'. destruct rotate_texture; [by apply wf_rot90|done]. }
  assert (0 < nrows a' /\ 0 < ncols a' <-> 0 < nrows numpy_array /\ 0 < ncols numpy_array)
    as <-.
  { subst a'. destruct rotate_texture; simpl; lia. }
  rewrite <- (normalize_is_Some a' Ha').
  destruct (normalize a') as [n|]; simpl.
  - split; intros _; eexists; reflexivity.
  - split; intros [? ?]; discriminate.
Qed.

Lemma image_defined_iff_witness :
  is_Some (numpy_to_blender_image (mk_ndarray 1 2 [[1; 2]]%Q) true) <->
  0 < 1 /\ 0 < 2.
Proof.
  apply (image_defined_iff (mk_ndarray 1 2 [[1; 2]]%Q) true).
  split; [reflexivity|]. repeat constructor.
Defined.

Lemma lookup_rgba_channels (l : list Q) k x :
  l !! k = Some x ->
  (l ≫= fun v => [v; v; v; 1%Q]) !! (k * 4) = Some x /\
  (l ≫= fun v => [v; v; v; 1%Q]) !! (k * 4 + 1) = Some x /\
  (l ≫= fun v => [v; v; v; 1%Q]) !! (k * 4 + 2) = Some x /\
  (l ≫= fun v => [v; v; v; 1%Q]) !! (k * 4 + 3) = Some 1%Q.
Proof.
  revert k. induction l as [|v l IH]; intros k Hk; [done|].
  destruct k as [|k]; simpl in *.
  - by simplify_eq.
  - by apply IH.
Qed.

Lemma length_rgba (l : list Q) :
  length (l ≫= fun v => [v; v; v; 1%Q]) = 4 * length l.
Proof.
  induction l as [|v l IH]; [done|].
  change (length ([v; v; v; 1%Q] ++ (l ≫= fun v => [v; v; v; 1%Q]))
          = 4 * length (v :: l)).
  rewrite length_app, IH. simpl. lia.
Qed.

Lemma normalize_shape a n :
  wf_ndarray a -> normalize a = Some n ->
  wf_ndarray n /\ nrows n = nrows a /\ ncols n = ncols a.
Proof.
  intros Ha. unfold normalize.
  destruct (np_min a), (np_max a); simpl; try done. intros [= <-].
  destruct (Qlt_bool _ _); [|split; [apply wf_tabulate|done]].
  split; [by apply wf_nd_map|done].
Qed.

Lemma normalize_cell a n i j :
  wf_ndarray a -> normalize a = Some n -> i < nrows a -> j < ncols a ->
  exists mn mx,
    np_min a = Some mn /\ np_max a = Some mx /\
    (mn <= get a i j <= mx)%Q /\
    get n i j = if Qlt_bool mn mx then ((get a i j - mn) / (mx - mn))%Q else 0%Q.
Proof.
  intros Ha Hn Hi Hj. unfold normalize in Hn.
  destruct (np_min a) as [mn|] eqn:Hmn; [|done].
  destruct (np_max a) as [mx|] eqn:Hmx; [|done]. simpl in Hn.
  exists mn, mx. split; [done|]. split; [done|].
  pose proof (elem_of_flatten a i j Ha Hi Hj) as Hel.
  split; [split; [by eapply np_min_lower|by eapply np_max_upper]|].
  inversion Hn; subst n. destruct (Qlt_bool mn mx).
  - by rewrite get_nd_map.
  - unfold np_zeros. by rewrite get_tabulate.
Qed.

Lemma normalized_range mn mx v :
  (mn <= v <= mx)%Q ->
  (0 <= (if Qlt_bool mn mx then (v - mn) / (mx - mn) else 0) <= 1)%Q.
Proof.
  intros [Hlo Hhi]. destruct (Qlt_bool mn mx) eqn:Hlt; [|lra].
  apply Qlt_bool_iff in Hlt. split.
  - apply Qle_shift_div_l; lra.
  - apply Qle_shift_div_r; lra.
Qed.

(** The pixel buffer of the image: four values per cell, row by row; the
    red, green and blue values of a pixel are the same number between 0 and
    1, and the alpha value is 1. *)
Theorem image_pixels (numpy_array : ndarray) (rotate_texture : bool) (img : image) :
  wf_ndarray numpy_array ->
  numpy_to_blender_image numpy_array rotate_texture = Some img ->
  img_height img = (if rotate_texture then ncols numpy_array else nrows numpy_array) /\
  img_width img = (if rotate_texture then nrows numpy_array else ncols numpy_array) /\
  length (pixels img) = 4 * (img_height img * img_width img) /\
  forall i j, i < img_height img -> j < img_width img ->
    exists v,
      (0 <= v <= 1)%Q /\
      pixels img !! ((i * img_width img + j) * 4) = Some v /\
      pixels img !! ((i * img_width img + j) * 4 + 1) = Some v /\
      pixels img !! ((i * img_width img + j) * 4 + 2) = Some v /\
      pixels img !! ((i * img_width img + j) * 4 + 3) = Some 1%Q.
Proof.
  intros Ha. unfold numpy_to_blender_image.
  set (a' := if rotate_texture then rot90 numpy_array 1 else numpy_array).
  assert (wf_ndarray a') as Ha'.
  { subst a'. destruct rotate_texture; [by apply wf_rot90|done]. }
  assert (nrows a' = (if rotate_texture then ncols numpy_array else nrows numpy_array) /\
          ncols a' = (if rotate_texture then nrows numpy_array else ncols numpy_array))
    as [Hr Hc].
  { subst a'. by destruct rotate_texture. }
  destruct (normalize a') as [n|] eqn:Hn; [|done]. simpl. intros [= <-]. simpl.
  destruct (normalize_shape a' n Ha' Hn) as (Hwfn & Hnr & Hnc).
  split; [done|]. split; [done|]. split.
  - rewrite length_rgba, length_flatten by done. by rewrite Hnr, Hnc.
  - intros i j Hi Hj.
    destruct (normalize_cell a' n i j Ha' Hn Hi Hj) as (mn & mx & _ & _ & Hb & Hcell).
    exists (get n i j). split; [rewrite Hcell; by apply normalized_range|].
    rewrite <- Hnc. apply lookup_rgba_channels, lookup_flatten; [done|lia..].
Qed.

Lemma image_pixels_witness :
  exists img,
    numpy_to_blender_image (mk_ndarray 1 2 [[1; 3]]%Q) false = Some img /\
    length (pixels img) = 4 * (img_height img * img_width img).
Proof.
  destruct (numpy_to_blender_image (mk_ndarray 1 2 [[1; 3]]%Q) false) as [img|] eqn:Himg.
  - exists img. split; [reflexivity|].
    destruct (image_pixels (mk_ndarray 1 2 [[1; 3]]%Q) false img) as (_ & _ & Hl & _).
    + split; [reflexivity|]. repeat constructor.
    + exact Himg.
    + exact Hl.
  - vm_compute in Himg. discriminate.
Defined.

(** Reading the image back gives an array of the shape of the (rotated)
    input in which the lowest cells are 0 and, unless the input is constant,
    the highest cells are 1: black is low and white is high. *)
Theorem image_readback (numpy_array : ndarray) (rotate_texture : bool) (img : image) :
  wf_ndarray numpy_array ->
  numpy_to_blender_image numpy_array rotate_texture = Some img ->
  exists mn mx,
    np_min (if rotate_texture then rot90 numpy_array 1 else numpy_array) = Some mn /\
    np_max (if rotate_texture then rot90 numpy_array 1 else numpy_array) = Some mx /\
    nrows (blender_image_to_numpy img) = img_height img /\
    ncols (blender_image_to_numpy img) = img_width img /\
    forall i j, i < img_height img -> j < img_width img ->
      (mn <= get (if rotate_texture then rot90 numpy_array 1 else numpy_array) i j <= mx)%Q /\
      (get (if rotate_texture then rot90 numpy_array 1 else numpy_array) i j == mn ->
       get (blender_image_to_numpy img) i j == 0)%Q /\
      ((mn < mx)%Q ->
       get (if rotate_texture then rot90 numpy_array 1 else numpy_array) i j == mx ->
       get (blender_image_to_numpy img) i j == 1)%Q.
Proof.
  intros Ha. unfold numpy_to_blender_image.
  set (a' := if rotate_texture then rot90 numpy_array 1 else numpy_array).
  assert (wf_ndarray a') as Ha'.
  { subst a'. destruct rotate_texture; [by apply wf_rot90|done]. }
  destruct (normalize a') as [n|] eqn:Hn; [|done]. simpl. intros [= <-].
  destruct (normalize_shape a' n Ha' Hn) as (Hwfn & Hnr & Hnc).
  pose proof (blender_image_roundtrip n Hwfn) as Hback.
  rewrite Hnr, Hnc in Hback. rewrite Hback. simpl.
  pose proof Hn as Hn'. unfold normalize in Hn'.
  destruct (np_min a') as [mn|] eqn:Hmn; [|done].
  destruct (np_max a') as [mx|] eqn:Hmx; [|done].
  exists mn, mx. split; [done|]. split; [done|]. split; [done|]. split; [done|].
  intros i j Hi Hj.
  destruct (normalize_cell a' n i j Ha' Hn Hi Hj) as (mn' & mx' & Hmn' & Hmx' & Hb & Hcell).
  assert (mn' = mn) as -> by congruence. assert (mx' = mx) as -> by congruence.
  split; [done|]. rewrite Hcell. split.
  - intros Heq. destruct (Qlt_bool mn mx) eqn:Hlt; [|done].
    apply Qlt_bool_iff in Hlt. rewrite Heq. field. lra.
  - intros Hlt Heq. apply Qlt_bool_iff in Hlt as Hlt'. rewrite Hlt'.
    rewrite Heq. field. lra.
Qed.

Lemma image_readback_witness :
  exists img mn mx,
    numpy_to_blender_image (mk_ndarray 1 2 [[1; 3]]%Q) false = Some img /\
    np_min (mk_ndarray 1 2 [[1; 3]]%Q) = Some mn /\
    np_max (mk_ndarray 1 2 [[1; 3]]%Q) = Some mx.
Proof.
  destruct (numpy_to_blender_image (mk_ndarray 1 2 [[1; 3]]%Q) false) as [img|] eqn:Himg.
  - destruct (image_readback (mk_ndarray 1 2 [[1; 3]]%Q) false img)
      as (mn & mx & Hmn & Hmx & _).
    + split; [reflexivity|]. repeat constructor.
    + exact Himg.
    + exists img, mn, mx. split; [reflexivity|]. split; [exact Hmn|exact Hmx].
  - vm_compute in Himg. discriminate.
Defined.

(** ** The export *)

(** The three steps by which the export undoes the display transformations
    amount to one mirror image, and so does the display transformation
    itself (rotation, mirror, rotation): the image shows the array of the
    placed sectors mirrored left to right. *)
Theorem export_undo_is_mirror (edited_array : ndarray) :
  export_undo_transforms edited_array = fliplr edited_array /\
  rot90 (fliplr (rot90 edited_array 1)) 1 = fliplr edited_array.
Proof.
  split.
  - unfold export_undo_transforms.
    change (rot90 (fliplr (rot90 edited_array (-1))) (-1))
      with (fliplr (transpose (fliplr (fliplr (transpose edited_array))))).
    unfold fliplr at 1 4. simpl nrows. simpl ncols.
    apply tabulate_ext. intros i j Hi Hj.
    rewrite get_transpose by (simpl; lia).
    rewrite get_fliplr by (simpl; lia). simpl ncols.
    rewrite get_fliplr by (simpl; lia). simpl ncols.
    rewrite get_transpose by (simpl; lia). f_equal. lia.
  - change (rot90 (fliplr (rot90 edited_array 1)) 1)
      with (transpose (fliplr (fliplr (transpose (fliplr edited_array))))).
    unfold transpose at 1. unfold fliplr at 4. simpl nrows. simpl ncols.
    apply tabulate_ext. intros i j Hi Hj.
    rewrite get_fliplr by (simpl; lia). simpl ncols.
    rewrite get_fliplr by (simpl; lia). simpl ncols.
    rewrite get_transpose by (simpl; lia).
    rewrite get_fliplr by (simpl; lia). f_equal. lia.
Qed.

Lemma string_length_append s t :
  String.length (s +:+ t) = String.length s + String.length t.
Proof. induction s as [|a s IH]; simpl; [done|]. by rewrite IH. Qed.

Lemma string_append_inj_r s1 s2 t : s1 +:+ t = s2 +:+ t -> s1 = s2.
Proof.
  revert s2. induction s1 as [|a s1 IH]; intros [|b s2] H.
  - done.
  - apply (f_equal String.length) in H.
    rewrite !string_length_append in H. simpl in H. lia.
  - apply (f_equal String.length) in H.
    rewrite !string_length_append in H. simpl in H. lia.
  - simpl in H. injection H as -> H. f_equal. by apply IH.
Qed.

Lemma sector_filename_inj k k' : sector_filename k = sector_filename k' -> k = k'.
Proof.
  unfold sector_filename. intros H.
  apply (inj (String.app "sd")) in H. apply string_append_inj_r in H.
  by apply (inj pretty) in H.
Qed.

Lemma NoDup_range2 h w : NoDup (range2 h w).
Proof.
  unfold range2. apply NoDup_bind; [| |apply NoDup_seq].
  - intros y1 y2 p _ _ H1 H2.
    apply list_elem_of_bind in H1 as (x1 & H1 & _).
    apply list_elem_of_bind in H2 as (x2 & H2 & _).
    apply list_elem_of_singleton in H1, H2. congruence.
  - intros y _. apply NoDup_bind; [| |apply NoDup_seq].
    + intros x1 x2 p _ _ H1 H2.
      apply list_elem_of_singleton in H1, H2. congruence.
    + intros x _. apply NoDup_singleton.
Qed.

(** the slot indices of the loop are the numbers below sectors_x*sectors_y *)
Lemma slot_indices_permutation sectors_x sectors_y :
  (fun rc : nat * nat => (sectors_y - 1 - rc.1) * sectors_x + rc.2)
    <$> range2 sectors_y sectors_x
  ≡ₚ seq 0 (sectors_x * sectors_y).
Proof.
  apply NoDup_Permutation; [|apply NoDup_seq|].
  - apply NoDup_fmap_2_strong; [|apply NoDup_range2].
    intros [dr c] [dr' c'] H1 H2 Heq. simpl in Heq.
    apply elem_of_range2 in H1 as [? ?]. apply elem_of_range2 in H2 as [? ?].
    destruct (index_of_inj sectors_x sectors_y dr c dr' c') as [-> ->]; done.
  - intros k. rewrite list_elem_of_fmap, elem_of_seq. split.
    + intros ([dr c] & -> & Hin). apply elem_of_range2 in Hin as [Hdr Hc]. simpl.
      split; [apply Nat.le_0_l|]. by apply index_of_lt.
    + intros [_ Hk]. simpl in Hk.
      destruct (slot_of_index sectors_x sectors_y k Hk) as (dr & c & ? & ? & <-).
      exists (dr, c). split; [done|]. by apply elem_of_range2.
Qed.

Lemma write_sector_to_file_frame content h g :
  708 + g * g * 4 <= length content ->
  length (write_sector_to_file content h g).2 = length content /\
  forall p,
    (forall i, i < g * g -> p <> 708 + 4 * i /\ p <> 708 + 4 * i + 1) ->
    (write_sector_to_file content h g).2 !! p = content !! p.
Proof.
  intros Hlen. unfold write_sector_to_file.
  destruct (foldl _ _ _) as [c|] eqn:Hf; [|done]. simpl.
  apply write_loop_frame in Hf as [Hl Hframe]; [|intros y x; apply elem_of_range2|lia].
  split; [done|]. intros p Hp. apply Hframe. intros y x Hin.
  apply elem_of_range2 in Hin as [Hy Hx]. by apply sample_positions_by_index.
Qed.

Lemma write_sector_to_file_failed content h g :
  (write_sector_to_file content h g).1 = false ->
  (write_sector_to_file content h g).2 = content.
Proof. unfold write_sector_to_file. by destruct (foldl _ _ _). Qed.

Section export_loop.
Context (td : TerrainEditorData) (denormalized : ndarray).

Local Abbreviation name_of rc :=
  (sector_filename ((td_sectors_y td - 1 - rc.1) * td_sectors_x td + rc.2)).
Local Abbreviation block_of rc :=
  (slice denormalized (rc.1 * td_grid_size td) (rc.1 * td_grid_size td + td_grid_size td)
         (rc.2 * td_grid_size td) (rc.2 * td_grid_size td + td_grid_size td)).

Lemma export_sector_eq files w f rc :
  export_sector td denormalized (files, w, f) rc =
    match files !! name_of rc with
    | Some content =>
        if (write_sector_to_file content (block_of rc) (td_grid_size td)).1
        then (<[name_of rc :=
                 (write_sector_to_file content (block_of rc) (td_grid_size td)).2]> files,
              S w, f)
        else (files, w, S f)
    | None => (files, w, f)
    end.
Proof.
  destruct rc as [dr c]. unfold export_sector. simpl.
  destruct (files !! _) as [content|]; [|done].
  by destruct (write_sector_to_file _ _ _) as [[] ?].
Qed.

(** one step: the file of the slot, when there is one, becomes the result
    of the write; nothing else changes *)
Lemma export_sector_files files w f rc files' w' f' :
  export_sector td denormalized (files, w, f) rc = (files', w', f') ->
  (forall name, name <> name_of rc -> files' !! name = files !! name) /\
  files' !! name_of rc =
    (fun content => (write_sector_to_file content (block_of rc) (td_grid_size td)).2)
      <$> files !! name_of rc.
Proof.
  rewrite export_sector_eq.
  destruct (files !! name_of rc) as [content|] eqn:Hc.
  - destruct (write_sector_to_file content (block_of rc) (td_grid_size td)).1 eqn:Hok;
      intros [= <- <- <-].
    + split; [intros name Hne; by rewrite lookup_insert_ne|].
      by rewrite lookup_insert_eq.
    + split; [done|]. rewrite Hc. simpl.
      by rewrite write_sector_to_file_failed.
  - intros [= <- <- <-]. split; [done|]. by rewrite Hc.
Qed.

Lemma export_sector_counts files w f rc files' w' f' :
  export_sector td denormalized (files, w, f) rc = (files', w', f') ->
  w' + f' = w + f + match files !! name_of rc with Some _ => 1 | None => 0 end /\
  (f' = f \/
   exists content, files !! name_of rc = Some content /\
     (write_sector_to_file content (block_of rc) (td_grid_size td)).1 = false).
Proof.
  rewrite export_sector_eq.
  destruct (files !! name_of rc) as [content|] eqn:Hc.
  - destruct (write_sector_to_file content (block_of rc) (td_grid_size td)).1 eqn:Hok;
      intros [= <- <- <-].
    + split; [lia|by left].
    + split; [lia|]. right. by exists content.
  - intros [= <- <- <-]. split; [lia|by left].
Qed.

Lemma export_fold_files l files w f files' w' f' :
  foldl (export_sector td denormalized) (files, w, f) l = (files', w', f') ->
  (forall name, is_Some (files' !! name) <-> is_Some (files !! name)) /\
  (forall name, (forall rc, rc ∈ l -> name <> name_of rc) ->
     files' !! name = files !! name) /\
  (forall name content,
     files !! name = Some content ->
     708 + td_grid_size td * td_grid_size td * 4 <= length content ->
     exists content',
       files' !! name = Some content' /\ length content' = length content /\
       forall p,
         (forall i, i < td_grid_size td * td_grid_size td ->
            p <> 708 + 4 * i /\ p <> 708 + 4 * i + 1) ->
         content' !! p = content !! p).
Proof.
  revert files w f. induction l as [|rc l IH]; intros files w f Hfold.
  - simpl in Hfold. simplify_eq. split; [done|]. split; [done|].
    intros name content Hc _. by exists content.
  - cbn [foldl] in Hfold.
    destruct (export_sector td denormalized (files, w, f) rc) as [[files1 w1] f1] eqn:Hstep.
    apply export_sector_files in Hstep as [Hother Hslot].
    destruct (IH _ _ _ Hfold) as (Hdom & Hframe & Hkeep).
    assert (forall name, is_Some (files1 !! name) <-> is_Some (files !! name)) as Hdom1.
    { intros name. destruct (decide (name = name_of rc)) as [->|Hne].
      - rewrite Hslot. by rewrite fmap_is_Some.
      - by rewrite Hother. }
    split; [intros name; by rewrite Hdom, Hdom1|]. split.
    + intros name Hname. rewrite Hframe by (intros rc' Hin; apply Hname; by right).
      apply Hother, Hname. by left.
    + intros name content Hc Hlen.
      assert (exists c1, files1 !! name = Some c1 /\ length c1 = length content /\
                forall p,
                  (forall i, i < td_grid_size td * td_grid_size td ->
                     p <> 708 + 4 * i /\ p <> 708 + 4 * i + 1) ->
                  c1 !! p = content !! p) as (c1 & Hc1 & Hl1 & Hp1).
      { destruct (decide (name = name_of rc)) as [->|Hne].
        - rewrite Hslot, Hc. simpl. eexists. split; [done|].
          by apply write_sector_to_file_frame.
        - exists content. by rewrite Hother. }
      destruct (Hkeep name c1 Hc1 ltac:(lia)) as (c' & Hc' & Hl' & Hp').
      exists c'. split; [done|]. split; [lia|].
      intros p Hp. by rewrite Hp', Hp1.
Qed.

Lemma export_fold_counts l files w f files' w' f' :
  foldl (export_sector td denormalized) (files, w, f) l = (files', w', f') ->
  w' + f' = w + f + length (filter (fun rc => is_Some (files !! name_of rc)) l).
Proof.
  revert files w f. induction l as [|rc l IH]; intros files w f Hfold.
  - simpl in Hfold. simplify_eq. simpl. lia.
  - cbn [foldl] in Hfold.
    destruct (export_sector td denormalized (files, w, f) rc) as [[files1 w1] f1] eqn:Hstep.
    pose proof (export_sector_counts _ _ _ _ _ _ _ Hstep) as [Hcount _].
    apply export_sector_files in Hstep as [Hother Hslot].
    rewrite (IH _ _ _ Hfold).
    rewrite (list_filter_iff (fun rc' => is_Some (files1 !! name_of rc'))
               (fun rc' => is_Some (files !! name_of rc'))).
    2:{ intros rc'. destruct (decide (name_of rc' = name_of rc)) as [->|Hne].
        - rewrite Hslot. by rewrite fmap_is_Some.
        - by rewrite Hother. }
    rewrite filter_cons. destruct (files !! name_of rc) as [content|] eqn:Hc.
    + rewrite decide_True by by eexists. simpl. lia.
    + rewrite decide_False by (by intros [? ?]). lia.
Qed.

Lemma export_fold_blocks l files w f files' w' f' :
  NoDup l ->
  (forall rc rc', rc ∈ l -> rc' ∈ l -> name_of rc = name_of rc' -> rc = rc') ->
  foldl (export_sector td denormalized) (files, w, f) l = (files', w', f') ->
  forall rc, rc ∈ l ->
    files' !! name_of rc =
      (fun content => (write_sector_to_file content (block_of rc) (td_grid_size td)).2)
        <$> files !! name_of rc.
Proof.
  revert files w f. induction l as [|rc0 l IH]; intros files w f Hnd Hinj Hfold rc Hin.
  - by apply elem_of_nil in Hin.
  - cbn [foldl] in Hfold.
    destruct (export_sector td denormalized (files, w, f) rc0) as [[files1 w1] f1] eqn:Hstep.
    apply export_sector_files in Hstep as [Hother Hslot].
    apply NoDup_cons in Hnd as [Hnotin Hnd].
    apply elem_of_cons in Hin as [->|Hin].
    + destruct (export_fold_files _ _ _ _ _ _ _ Hfold) as (_ & Hframe & _).
      rewrite Hframe; [done|]. intros rc' Hin' Heq.
      apply Hnotin. rewrite (Hinj rc0 rc'); [done|by left|by right|done].
    + rewrite (IH _ _ _ Hnd (fun a b Ha Hb => Hinj a b (list_elem_of_further _ _ _ Ha)
                                                 (list_elem_of_further _ _ _ Hb)) Hfold rc Hin).
      rewrite Hother; [done|]. intros Heq. apply Hnotin.
      rewrite <- (Hinj rc rc0); [done|by right|by left|done].
Qed.

End export_loop.

Lemma length_filter_fmap {A B} (P : B -> Prop) `{forall x, Decision (P x)}
    (g : A -> B) (l : list A) :
  length (filter (fun x => P (g x)) l) = length (filter P (g <$> l)).
Proof.
  induction l as [|x l IH]; [done|].
  cbn [fmap list_fmap]. rewrite !filter_cons.
  destruct (decide (P (g x))); simpl; by rewrite IH.
Qed.

(** The export never creates or deletes a file, and the only files it can
    change are the sector files [sd<k>.csdat] of the slots,
    k < sectors_x*sectors_y. *)
Theorem export_touches_only_slot_files (terrain_data : TerrainEditorData)
    (files files' : gmap string (list byte)) (res : option operator_result)
    (written failed : nat) :
  export_execute terrain_data files = (res, files', written, failed) ->
  (forall name, is_Some (files' !! name) <-> is_Some (files !! name)) /\
  (forall name,
     (forall k, k < td_sectors_x terrain_data * td_sectors_y terrain_data ->
        name <> sector_filename k) ->
     files' !! name = files !! name).
Proof.
  unfold export_execute. intros Hexp.
  destruct (td_heightmap_image terrain_data) as [img|]; [|by simplify_eq].
  destruct (decide (td_current_directory terrain_data = "")); [by simplify_eq|].
  destruct (py_min _) as [mn|]; [|by simplify_eq].
  destruct (py_max _) as [mx|]; [|by simplify_eq].
  destruct (foldl _ _ _) as [[files1 w1] f1] eqn:Hfold. simplify_eq.
  apply export_fold_files in Hfold as (Hdom & Hframe & _).
  split; [done|]. intros name Hname. apply Hframe.
  intros [dr c] Hin. apply elem_of_range2 in Hin as [Hdr Hc]. simpl.
  apply Hname. by apply index_of_lt.
Qed.

Lemma export_touches_only_slot_files_witness :
  (export_execute
     (mk_terrain_data {[ 0%Z := mk_ndarray 1 1 [[(3 # 128)%Q]] ]} "dir" 1 1 1
        (Some (mk_image 1 1 [0; 0; 0; 1]%Q)))
     {[ "notes.txt"%string := ["001"%byte] ]}).1.1.2 !! "notes.txt"%string
  = Some ["001"%byte].
Proof.
  destruct (export_execute
     (mk_terrain_data {[ 0%Z := mk_ndarray 1 1 [[(3 # 128)%Q]] ]} "dir" 1 1 1
        (Some (mk_image 1 1 [0; 0; 0; 1]%Q)))
     {[ "notes.txt"%string := ["001"%byte] ]}) as [[[res files'] w] f] eqn:Hexp.
  destruct (export_touches_only_slot_files _ _ _ _ _ _ Hexp) as [_ Hframe].
  simpl. rewrite Hframe; [reflexivity|].
  intros k Hk. simpl in Hk. assert (k = 0) as -> by lia.
  vm_compute. discriminate.
Defined.

(** Whatever the image holds, the export leaves every file of full length
    (at least 708 + grid_size*grid_size*4 bytes) with its length, its
    708-byte header, the two payload bytes of every cell and its trailer:
    only elevation samples change. *)
Theorem export_preserves_opaque_bytes (terrain_data : TerrainEditorData)
    (files files' : gmap string (list byte)) (res : option operator_result)
    (written failed : nat) (name : string) (content : list byte) :
  export_execute terrain_data files = (res, files', written, failed) ->
  files !! name = Some content ->
  708 + td_grid_size terrain_data * td_grid_size terrain_data * 4 <= length content ->
  exists content',
    files' !! name = Some content' /\ length content' = length content /\
    forall p,
      (forall i, i < td_grid_size terrain_data * td_grid_size terrain_data ->
         p <> 708 + 4 * i /\ p <> 708 + 4 * i + 1) ->
      content' !! p = content !! p.
Proof.
  unfold export_execute. intros Hexp Hc Hlen.
  destruct (td_heightmap_image terrain_data) as [img|];
    [|simplify_eq; by exists content].
  destruct (decide (td_current_directory terrain_data = ""));
    [simplify_eq; by exists content|].
  destruct (py_min _) as [mn|]; [|simplify_eq; by exists content].
  destruct (py_max _) as [mx|]; [|simplify_eq; by exists content].
  destruct (foldl _ _ _) as [[files1 w1] f1] eqn:Hfold. simplify_eq.
  apply export_fold_files in Hfold as (_ & _ & Hkeep). by apply Hkeep.
Qed.

Lemma export_preserves_opaque_bytes_witness :
  exists content',
    (export_execute
       (mk_terrain_data {[ 0%Z := mk_ndarray 1 1 [[(3 # 128)%Q]] ]} "dir" 1 1 1
          (Some (mk_image 1 1 [0; 0; 0; 1]%Q)))
       {[ "sd0.csdat"%string := replicate 708 "007"%byte ++ ["001"; "002"; "003"; "004"]%byte ]}).1.1.2
      !! "sd0.csdat"%string = Some content' /\
    length content' = 712.
Proof.
  destruct (export_execute
       (mk_terrain_data {[ 0%Z := mk_ndarray 1 1 [[(3 # 128)%Q]] ]} "dir" 1 1 1
          (Some (mk_image 1 1 [0; 0; 0; 1]%Q)))
       {[ "sd0.csdat"%string := replicate 708 "007"%byte ++ ["001"; "002"; "003"; "004"]%byte ]})
    as [[[res files'] w] f] eqn:Hexp.
  destruct (export_preserves_opaque_bytes _ _ _ _ _ _ "sd0.csdat"
              (replicate 708 "007"%byte ++ ["001"; "002"; "003"; "004"]%byte) Hexp)
    as (content' & Hc' & Hl & _).
  - reflexivity.
  - simpl. lia.
  - exists content'. split; [exact Hc'|exact Hl].
Defined.

(** The report of a finished export: [sectors_written + sectors_failed] is
    the number of slots k < sectors_x*sectors_y whose file [sd<k>.csdat]
    exists. *)
Theorem export_counts (terrain_data : TerrainEditorData)
    (files files' : gmap string (list byte)) (written failed : nat) :
  export_execute terrain_data files = (Some FINISHED, files', written, failed) ->
  written + failed =
    length (filter (fun k => is_Some (files !! sector_filename k))
              (seq 0 (td_sectors_x terrain_data * td_sectors_y terrain_data))).
Proof.
  unfold export_execute. intros Hexp.
  destruct (td_heightmap_image terrain_data) as [img|]; [|by simplify_eq].
  destruct (decide (td_current_directory terrain_data = "")); [by simplify_eq|].
  destruct (py_min _) as [mn|]; [|by simplify_eq].
  destruct (py_max _) as [mx|]; [|by simplify_eq].
  destruct (foldl _ _ _) as [[files1 w1] f1] eqn:Hfold. simplify_eq.
  apply export_fold_counts in Hfold. rewrite Hfold. simpl.
  rewrite <- (slot_indices_permutation (td_sectors_x terrain_data)
                (td_sectors_y terrain_data)).
  by rewrite <- length_filter_fmap.
Qed.

Lemma export_counts_witness :
  (export_execute
     (mk_terrain_data {[ 0%Z := mk_ndarray 1 1 [[(3 # 128)%Q]] ]} "dir" 1 2 1
        (Some (mk_image 2 1 [0; 0; 0; 1; 0; 0; 0; 1]%Q)))
     {[ "sd1.csdat"%string := replicate 712 "007"%byte ]}).1.2
  + (export_execute
     (mk_terrain_data {[ 0%Z := mk_ndarray 1 1 [[(3 # 128)%Q]] ]} "dir" 1 2 1
        (Some (mk_image 2 1 [0; 0; 0; 1; 0; 0; 0; 1]%Q)))
     {[ "sd1.csdat"%string := replicate 712 "007"%byte ]}).2
  = 1.
Proof.
  destruct (export_execute
     (mk_terrain_data {[ 0%Z := mk_ndarray 1 1 [[(3 # 128)%Q]] ]} "dir" 1 2 1
        (Some (mk_image 2 1 [0; 0; 0; 1; 0; 0; 0; 1]%Q)))
     {[ "sd1.csdat"%string := replicate 712 "007"%byte ]}) as [[[res files'] w] f] eqn:Hexp.
  assert (res = Some FINISHED) as ->.
  { apply (f_equal (fun r => r.1.1.1)) in Hexp. vm_compute in Hexp. congruence. }
  simpl. rewrite (export_counts _ _ _ _ _ Hexp). reflexivity.
Defined.

(** A finished export has rewritten every existing slot file exactly once:
    the file [sd<k>.csdat] of the slot in display row [dr] and column [c]
    holds what [write_sector_to_file] makes of its former contents and of the
    block of the slot in the denormalised array. *)
Theorem export_rewrites_slot_files (terrain_data : TerrainEditorData)
    (img : image) (files files' : gmap string (list byte)) (written failed : nat) :
  td_heightmap_image terrain_data = Some img ->
  export_execute terrain_data files = (Some FINISHED, files', written, failed) ->
  exists original_min original_max,
    py_min (all_heights (td_sectors_data terrain_data)) = Some original_min /\
    py_max (all_heights (td_sectors_data terrain_data)) = Some original_max /\
    forall dr c, dr < td_sectors_y terrain_data -> c < td_sectors_x terrain_data ->
      files' !! sector_filename
                  ((td_sectors_y terrain_data - 1 - dr) * td_sectors_x terrain_data + c)
      = (fun content =>
           (write_sector_to_file content
              (slice (denormalize (export_undo_transforms (blender_image_to_numpy img))
                        original_min original_max)
                 (dr * td_grid_size terrain_data)
                 (dr * td_grid_size terrain_data + td_grid_size terrain_data)
                 (c * td_grid_size terrain_data)
                 (c * td_grid_size terrain_data + td_grid_size terrain_data))
              (td_grid_size terrain_data)).2)
        <$> files !! sector_filename
                       ((td_sectors_y terrain_data - 1 - dr) * td_sectors_x terrain_data + c).
Proof.
  unfold export_execute. intros Himg Hexp. rewrite Himg in Hexp.
  destruct (decide (td_current_directory terrain_data = "")); [by simplify_eq|].
  destruct (py_min _) as [mn|]; [|by simplify_eq].
  destruct (py_max _) as [mx|]; [|by simplify_eq].
  destruct (foldl _ _ _) as [[files1 w1] f1] eqn:Hfold. simplify_eq.
  exists mn, mx. split; [done|]. split; [done|]. intros dr c Hdr Hc.
  apply (export_fold_blocks _ _ _ _ _ _ _ _ _ (NoDup_range2 _ _)) with (rc := (dr, c))
    in Hfold; [done| |by apply elem_of_range2].
  intros [dr1 c1] [dr2 c2] H1 H2 Heq. simpl in Heq.
  apply elem_of_range2 in H1 as [? ?]. apply elem_of_range2 in H2 as [? ?].
  apply sector_filename_inj in Heq.
  assert (dr1 = dr2 /\ c1 = c2) as [-> ->]; [|done].
  eapply index_of_inj; [| | | |exact Heq]; done.
Qed.

Lemma export_rewrites_slot_files_witness :
  exists original_min original_max,
    py_min (all_heights {[ 0%Z := mk_ndarray 1 1 [[(3 # 128)%Q]] ]}) = Some original_min /\
    py_max (all_heights {[ 0%Z := mk_ndarray 1 1 [[(3 # 128)%Q]] ]}) = Some original_max.
Proof.
  destruct (export_execute
     (mk_terrain_data {[ 0%Z := mk_ndarray 1 1 [[(3 # 128)%Q]] ]} "dir" 1 1 1
        (Some (mk_image 1 1 [0; 0; 0; 1]%Q)))
     {[ "sd0.csdat"%string := replicate 712 "007"%byte ]}) as [[[res files'] w] f] eqn:Hexp.
  assert (res = Some FINISHED) as ->.
  { apply (f_equal (fun r => r.1.1.1)) in Hexp. vm_compute in Hexp. congruence. }
  eapply export_rewrites_slot_files in Hexp as (mn & mx & Hmn & Hmx & _);
    [|reflexivity].
  exists mn, mx. split; [exact Hmn|exact Hmx].
Defined.

(** ** The two operators together *)

Lemma load_sectors_empty_iff (py_int : string -> option Z)
    (entries : list (string * list byte)) (sectors_x sectors_y : nat) :
  load_sectors_from_directory py_int entries sectors_x sectors_y = ∅ <->
  forall filename content,
    (filename, content) ∈ entries -> glob_sd_csdat filename = true ->
    is_Some (py_int (sector_num_text filename)) ->
    load_single_sector content 65 = None.
Proof.
  split.
  - intros Hempty f c Hin Hg [k Hk].
    destruct (load_single_sector c 65) as [s|] eqn:Hl; [exfalso|done].
    assert (is_Some (load_sectors_from_directory py_int entries sectors_x sectors_y !! k))
      as [s' Hs'].
    { apply list_elem_of_split in Hin as (pre & post & ->).
      unfold load_sectors_from_directory. rewrite foldl_app. cbn [foldl].
      rewrite Hg, Hk, Hl. apply fold_load_keeps_keys.
      rewrite lookup_insert_eq. by eexists. }
    by rewrite Hempty, lookup_empty in Hs'.
  - intros Hnone. apply map_empty. intros k.
    destruct (load_sectors_from_directory py_int entries sectors_x sectors_y !! k)
      as [s|] eqn:Hs; [exfalso|done].
    apply load_sectors_origin in Hs as (f & c & Hin & Hg & Hn & Hl).
    rewrite (Hnone f c) in Hl; [done|done|done|]. rewrite Hn. by eexists.
Qed.

(** The import is cancelled exactly when none of the files among which
    [glob] selects is a decoded sector file: every such file either does not
    match [sd*.csdat], or has no integer between [sd] and [.csdat], or is
    not decoded.  The path is read as a pattern: when it holds one of [*],
    [?], [[] and no directory matches it, the import is cancelled whatever
    the directory at that very path holds. *)
Theorem import_cancelled_iff (py_int : string -> option Z)
    (glob_dirs : string -> list string) (fs : string -> list (string * list byte))
    (directory : string) (sectors_x sectors_y : nat)
    (terrain_data : TerrainEditorData) :
  ((import_execute py_int glob_dirs fs directory sectors_x sectors_y terrain_data).1
     = Some CANCELLED <->
   forall filename content,
     (filename, content) ∈ glob_files glob_dirs fs directory ->
     glob_sd_csdat filename = true ->
     is_Some (py_int (sector_num_text filename)) ->
     load_single_sector content 65 = None) /\
  (has_magic directory = false -> glob_files glob_dirs fs directory = fs directory) /\
  (has_magic directory = true -> glob_dirs directory = [] ->
   (import_execute py_int glob_dirs fs directory sectors_x sectors_y terrain_data).1
     = Some CANCELLED).
Proof.
  assert ((import_execute py_int glob_dirs fs directory sectors_x sectors_y terrain_data).1
            = Some CANCELLED <->
          load_sectors_from_directory py_int (glob_files glob_dirs fs directory)
            sectors_x sectors_y = ∅) as Hiff.
  { unfold import_execute. cbv zeta.
    destruct (decide (load_sectors_from_directory py_int
                        (glob_files glob_dirs fs directory) sectors_x sectors_y = ∅))
      as [He|Hne]; [done|].
    split; [|done]. cbn [td_grid_size].
    destruct (create_combined_heightmap _ _ _ _) as [C|]; [|done].
    by destruct (numpy_to_blender_image C true). }
  split; [|split].
  - rewrite Hiff. apply load_sectors_empty_iff.
  - intros Hmagic. unfold glob_files. by rewrite Hmagic.
  - intros Hmagic Hnone. apply Hiff. unfold glob_files. by rewrite Hmagic, Hnone.
Qed.

Lemma import_cancelled_iff_witness :
  (import_execute decimal_int (fun _ => [])
     (fun path =>
        if String.eqb path "maps[1]"
        then [("sd0.csdat"%string, replicate (708 + 65 * 65 * 4) "003"%byte)]
        else [])
     "maps[1]" 1 1 terrain_data_init).1 = Some CANCELLED.
Proof.
  apply (import_cancelled_iff decimal_int (fun _ => [])
           (fun path =>
              if String.eqb path "maps[1]"
              then [("sd0.csdat"%string, replicate (708 + 65 * 65 * 4) "003"%byte)]
              else [])
           "maps[1]" 1 1 terrain_data_init).
  - reflexivity.
  - reflexivity.
Defined.

(** A cancelled import is not without effect: it has replaced the sector
    map by the empty one (and stored the directory and the two counts) while
    keeping the image of an earlier import.  An export that follows finds no
    height to take the minimum of: with an image and a directory it raises
    ([min] of an empty list) and leaves every file as it is. *)
Theorem export_after_cancelled_import (py_int : string -> option Z)
    (glob_dirs : string -> list string) (fs : string -> list (string * list byte))
    (directory : string) (sectors_x sectors_y : nat)
    (terrain_data terrain_data' : TerrainEditorData) (img : image)
    (files : gmap string (list byte)) :
  import_execute py_int glob_dirs fs directory sectors_x sectors_y terrain_data
    = (Some CANCELLED, terrain_data') ->
  td_heightmap_image terrain_data = Some img ->
  directory <> "" ->
  td_sectors_data terrain_data' = ∅ /\
  td_heightmap_image terrain_data' = Some img /\
  export_execute terrain_data' files = (None, files, 0, 0).
Proof.
  unfold import_execute. cbv zeta. intros Himp Himg Hdir.
  destruct (decide (load_sectors_from_directory py_int
                      (glob_files glob_dirs fs directory) sectors_x sectors_y = ∅))
    as [He|Hne].
  - injection Himp as <-. cbn [td_sectors_data td_heightmap_image].
    split; [done|]. split; [done|].
    unfold export_execute. cbn [td_heightmap_image td_current_directory td_sectors_data].
    rewrite Himg, decide_False by done. by rewrite He.
  - cbn [td_grid_size] in Himp.
    destruct (create_combined_heightmap _ _ _ _) as [C|]; [|done].
    by destruct (numpy_to_blender_image C true).
Qed.

Lemma export_after_cancelled_import_witness :
  export_execute
    (import_execute decimal_int (fun _ => [])
       (fun _ => [("readme.txt"%string, [])]) "dir" 1 1
       (mk_terrain_data {[ 0%Z := mk_ndarray 1 1 [[(3 # 128)%Q]] ]} "old" 1 1 1
          (Some (mk_image 1 1 [0; 0; 0; 1]%Q)))).2
    {[ "sd0.csdat"%string := replicate 712 "007"%byte ]}
  = (None, {[ "sd0.csdat"%string := replicate 712 "007"%byte ]}, 0, 0).
Proof.
  apply (export_after_cancelled_import decimal_int (fun _ => [])
           (fun _ => [("readme.txt"%string, [])]) "dir" 1 1
           (mk_terrain_data {[ 0%Z := mk_ndarray 1 1 [[(3 # 128)%Q]] ]} "old" 1 1 1
              (Some (mk_image 1 1 [0; 0; 0; 1]%Q)))
           _ (mk_image 1 1 [0; 0; 0; 1]%Q)).
  - reflexivity.
  - reflexivity.
  - discriminate.
Defined.

Lemma import_execute_finishes (py_int : string -> option Z)
    (glob_dirs : string -> list string) (fs : string -> list (string * list byte))
    (directory : string) (sectors_x sectors_y : nat)
    (terrain_data : TerrainEditorData) :
  td_grid_size terrain_data = 65 -> 0 < sectors_x -> 0 < sectors_y ->
  has_magic directory = false ->
  (forall filename content,
     (filename, content) ∈ fs directory -> glob_sd_csdat filename = true ->
     is_Some (py_int (sector_num_text filename)) -> 710 <= length content) ->
  (exists filename content,
     (filename, content) ∈ fs directory /\ glob_sd_csdat filename = true /\
     is_Some (py_int (sector_num_text filename)) /\
     708 + 65 * 65 * 4 - 2 <= length content) ->
  exists terrain_data' img,
    import_execute py_int glob_dirs fs directory sectors_x sectors_y terrain_data
      = (Some FINISHED, terrain_data') /\
    td_heightmap_image terrain_data' = Some img.
Proof.
  intros Hg Hx Hy Hmagic Hlong (f & c & Hin & Hglob & Hnum & Hfull).
  unfold import_execute, glob_files. rewrite Hmagic.
  cbv zeta. cbn [td_grid_size]. rewrite Hg.
  destruct (decide (load_sectors_from_directory py_int (fs directory)
                      sectors_x sectors_y = ∅)) as [He|Hne].
  { exfalso.
    pose proof (proj1 (load_sectors_empty_iff _ _ _ _) He f c Hin Hglob Hnum) as Hnone.
    rewrite load_single_sector_full in Hnone; [done|lia|]. right. lia. }
  destruct (create_combined_heightmap_placed
              (load_sectors_from_directory py_int (fs directory) sectors_x sectors_y)
              sectors_x sectors_y 65) as (m & HC & Hwfm & Hrm & Hcm & _).
  { intros k s Hs. apply load_sectors_origin in Hs as (f' & c' & Hin' & Hg' & Hn' & Hl').
    apply load_single_sector_shape in Hl' as (_ & ? & ?); [done|].
    apply (Hlong f' c'); [done..|]. rewrite Hn'. by eexists. }
  rewrite HC.
  destruct (proj2 (normalize_is_Some (rot90 (fliplr (rot90 m 1)) 1)
                     (wf_rot90 _ _ (wf_tabulate _ _ _)))) as [n Hn].
  { destruct (rot90_1_shape (fliplr (rot90 m 1))) as [-> ->]. simpl. lia. }
  unfold numpy_to_blender_image. rewrite Hn. cbn [mbind option_bind].
  eexists _, _. split; reflexivity.
Qed.

(** The import finishes when the path of the directory holds none of the
    characters [*], [?], [[] (so that [glob] lists that directory), the grid
    size is 65, both sector counts are positive, every numbered sector file
    of the directory holds at least one sample (710 bytes) and one of them
    holds every sample. *)
Theorem import_finishes (py_int : string -> option Z)
    (glob_dirs : string -> list string) (fs : string -> list (string * list byte))
    (directory : string) (sectors_x sectors_y : nat)
    (terrain_data : TerrainEditorData) :
  td_grid_size terrain_data = 65 -> 0 < sectors_x -> 0 < sectors_y ->
  has_magic directory = false ->
  (forall filename content,
     (filename, content) ∈ fs directory -> glob_sd_csdat filename = true ->
     is_Some (py_int (sector_num_text filename)) -> 710 <= length content) ->
  (exists filename content,
     (filename, content) ∈ fs directory /\ glob_sd_csdat filename = true /\
     is_Some (py_int (sector_num_text filename)) /\
     708 + 65 * 65 * 4 - 2 <= length content) ->
  (import_execute py_int glob_dirs fs directory sectors_x sectors_y terrain_data).1
    = Some FINISHED.
Proof.
  intros Hg Hx Hy Hmagic Hlong Hfull.
  destruct (import_execute_finishes py_int glob_dirs fs directory sectors_x sectors_y
              terrain_data Hg Hx Hy Hmagic Hlong Hfull) as (td' & img & -> & _).
  done.
Qed.

Lemma one_full_sector_file :
  (forall filename content,
     (filename, content) ∈ [("sd0.csdat"%string, replicate (708 + 65 * 65 * 4) "003"%byte)] ->
     glob_sd_csdat filename = true ->
     is_Some (decimal_int (sector_num_text filename)) -> 710 <= length content) /\
  (exists filename content,
     (filename, content) ∈ [("sd0.csdat"%string, replicate (708 + 65 * 65 * 4) "003"%byte)] /\
     glob_sd_csdat filename = true /\
     is_Some (decimal_int (sector_num_text filename)) /\
     708 + 65 * 65 * 4 - 2 <= length content).
Proof.
  split.
  - intros f c Hin _ _. apply list_elem_of_singleton in Hin.
    assert (c = replicate (708 + 65 * 65 * 4) "003"%byte) as -> by congruence.
    rewrite length_replicate. lia.
  - eexists _, _. split; [apply list_elem_of_singleton; reflexivity|].
    split; [reflexivity|]. split; [by eexists|].
    rewrite length_replicate. lia.
Qed.

Lemma import_finishes_witness :
  (import_execute decimal_int (fun _ => [])
     (fun _ => [("sd0.csdat"%string, replicate (708 + 65 * 65 * 4) "003"%byte)])
     "dir" 2 1 terrain_data_init).1 = Some FINISHED.
Proof.
  apply import_finishes.
  - reflexivity.
  - lia.
  - lia.
  - reflexivity.
  - apply one_full_sector_file.
  - apply one_full_sector_file.
Defined.

(** What a finished import leaves in [terrain_data]: the sector map of the
    files among which [glob] selects, the directory, the two counts, and an
    image that is sectors_x*grid_size pixels wide and sectors_y*grid_size
    pixels high with four channels per pixel. *)
Theorem import_finished_state (py_int : string -> option Z)
    (glob_dirs : string -> list string) (fs : string -> list (string * list byte))
    (directory : string) (sectors_x sectors_y : nat)
    (terrain_data terrain_data' : TerrainEditorData) :
  import_execute py_int glob_dirs fs directory sectors_x sectors_y terrain_data
    = (Some FINISHED, terrain_data') ->
  td_sectors_data terrain_data'
    = load_sectors_from_directory py_int (glob_files glob_dirs fs directory)
        sectors_x sectors_y /\
  td_sectors_data terrain_data' <> ∅ /\
  td_current_directory terrain_data' = directory /\
  td_sectors_x terrain_data' = sectors_x /\
  td_sectors_y terrain_data' = sectors_y /\
  td_grid_size terrain_data' = td_grid_size terrain_data /\
  exists img,
    td_heightmap_image terrain_data' = Some img /\
    img_width img = sectors_x * td_grid_size terrain_data /\
    img_height img = sectors_y * td_grid_size terrain_data /\
    length (pixels img) = 4 * (img_height img * img_width img).
Proof.
  unfold import_execute. cbv zeta. intros Himp.
  destruct (decide (load_sectors_from_directory py_int
                      (glob_files glob_dirs fs directory) sectors_x sectors_y = ∅))
    as [He|Hne]; [done|].
  cbn [td_grid_size] in Himp.
  destruct (create_combined_heightmap _ _ _ _) as [C|] eqn:HC; [|done].
  destruct (numpy_to_blender_image C true) as [img|] eqn:Hi; [|done].
  injection Himp as <-. cbn.
  split_and!; try done. exists img. split; [done|].
  apply create_combined_heightmap_shape in HC as (Hr & Hc & HwfC).
  unfold numpy_to_blender_image in Hi.
  destruct (normalize (rot90 C 1)) as [n|] eqn:Hn; [|done].
  apply normalize_shape in Hn as (Hwfn & Hnr & Hnc); [|by apply wf_rot90].
  cbn [mbind option_bind] in Hi. injection Hi as <-.
  cbn [img_width img_height pixels].
  destruct (rot90_1_shape C) as [Hr1 Hc1]. rewrite Hr1 in Hnr. rewrite Hc1 in Hnc.
  split_and!; [done..|].
  rewrite length_rgba, (length_flatten n Hwfn), Hnr, Hnc. lia.
Qed.

Lemma import_finished_state_witness :
  td_sectors_x
    (import_execute decimal_int (fun _ => [])
       (fun _ => [("sd0.csdat"%string, replicate (708 + 65 * 65 * 4) "003"%byte)])
       "dir" 2 1 terrain_data_init).2 = 2.
Proof.
  destruct (import_execute_finishes decimal_int (fun _ => [])
              (fun _ => [("sd0.csdat"%string, replicate (708 + 65 * 65 * 4) "003"%byte)])
              "dir" 2 1 terrain_data_init eq_refl ltac:(lia) ltac:(lia) eq_refl
              (proj1 one_full_sector_file) (proj2 one_full_sector_file))
    as (td' & img & Himp & _).
  rewrite Himp.
  apply import_finished_state in Himp as (_ & _ & _ & Hx & _). exact Hx.
Defined.

(** ** File names *)

Lemma substring_0_append (s t : string) :
  substring 0 (String.length s) (s +:+ t) = s.
Proof. induction s as [|c s IH]; simpl; [by destruct t|by rewrite IH]. Qed.

Lemma substring_skip_append (s t : string) (n : nat) :
  substring (String.length s) n (s +:+ t) = substring 0 n t.
Proof. induction s as [|c s IH]; [done|]. simpl. apply IH. Qed.

Lemma substring_0_all (s : string) : substring 0 (String.length s) s = s.
Proof. induction s as [|c s IH]; simpl; [done|by rewrite IH]. Qed.

Lemma string_append_assoc (s t u : string) : (s +:+ t) +:+ u = s +:+ (t +:+ u).
Proof.
  induction s as [|c s IH]; [done|].
  change (String c ((s +:+ t) +:+ u) = String c (s +:+ (t +:+ u))).
  by rewrite IH.
Qed.

Lemma prefix_append (s t : string) : String.prefix s (s +:+ t) = true.
Proof.
  induction s as [|c s IH]; [by destruct t|]. simpl.
  destruct (ascii_dec c c) as [_|Hne]; [exact IH|done].
Qed.

Lemma decimal_digits_append (s t : string) (acc : Z) :
  decimal_digits acc (s +:+ t) = decimal_digits acc s ≫= fun a => decimal_digits a t.
Proof.
  revert acc. induction s as [|c s IH]; intros acc; [done|].
  simpl. destruct (digit_val c); [apply IH|done].
Qed.

Lemma pretty_N_go_append (x : N) (s : string) :
  pretty_N_go x s = pretty_N_go x "" +:+ s.
Proof.
  revert s. induction (N.lt_wf_0 x) as [x _ IH]; intros s.
  destruct (decide (x = 0)%N) as [->|Hx]; [by rewrite !pretty_N_go_0|].
  assert (x `div` 10 < x)%N as Hlt by (apply N.div_lt; lia).
  rewrite !(pretty_N_go_step x) by lia.
  rewrite (IH _ Hlt (String _ s)), (IH _ Hlt (String _ "")).
  by rewrite string_append_assoc.
Qed.

Lemma digit_val_pretty_N_char (d : N) :
  (d < 10)%N -> digit_val (pretty_N_char d) = Some (Z.of_N d).
Proof.
  intros Hd.
  assert (d = 0 \/ d = 1 \/ d = 2 \/ d = 3 \/ d = 4 \/ d = 5 \/ d = 6 \/ d = 7
          \/ d = 8 \/ d = 9)%N as Hcases by lia.
  repeat (destruct Hcases as [->|Hcases]; [reflexivity|]). by subst.
Qed.

Lemma decimal_digits_pretty_N_go (x : N) :
  decimal_digits 0 (pretty_N_go x "") = Some (Z.of_N x).
Proof.
  induction (N.lt_wf_0 x) as [x _ IH].
  destruct (decide (x = 0)%N) as [->|Hx]; [done|].
  rewrite pretty_N_go_step by lia. rewrite pretty_N_go_append.
  rewrite decimal_digits_append, IH by (apply N.div_lt; lia).
  cbn [mbind option_bind decimal_digits].
  rewrite digit_val_pretty_N_char by (apply N.mod_lt; lia).
  f_equal. pose proof (N.div_mod x 10). lia.
Qed.

Lemma decimal_int_digits (s : string) (z : Z) :
  s <> "" -> decimal_digits 0 s = Some z -> decimal_int s = Some z.
Proof.
  destruct s as [|c s]; [done|]. intros _ Hd.
  destruct (decide (c = "-"%char)) as [->|Hminus]; [done|].
  destruct (decide (c = "+"%char)) as [->|Hplus]; [done|].
  rewrite <- Hd.
  destruct c as [[] [] [] [] [] [] [] []]; done.
Qed.

Lemma decimal_int_pretty (k : nat) : decimal_int (pretty k) = Some (Z.of_nat k).
Proof.
  unfold pretty, pretty_nat, pretty, pretty_N.
  destruct (decide (N.of_nat k = 0)%N) as [H0|Hpos].
  - assert (k = 0) as -> by lia. reflexivity.
  - apply decimal_int_digits.
    + rewrite pretty_N_go_step by lia. rewrite pretty_N_go_append.
      intros He. apply (f_equal String.length) in He.
      rewrite string_length_append in He. simpl in He. lia.
    + rewrite decimal_digits_pretty_N_go. f_equal. lia.
Qed.

(** The name under which the export writes the sector of index k is one the
    import picks up, and the import reads it as sector k: [sd<k>.csdat]
    matches [sd*.csdat], the text between [sd] and [.csdat] is the decimal
    numeral of k, and [int] of it is k. *)
Theorem exported_name_is_imported (k : nat) :
  glob_sd_csdat (sector_filename k) = true /\
  sector_num_text (sector_filename k) = pretty k /\
  decimal_int (sector_num_text (sector_filename k)) = Some (Z.of_nat k).
Proof.
  assert (sector_num_text (sector_filename k) = pretty k) as Htext.
  { unfold sector_num_text, sector_filename.
    rewrite !string_length_append.
    change (String.length "sd") with 2. change (String.length ".csdat") with 6.
    replace (2 + (String.length (pretty k) + 6) - 6 - 2)
      with (String.length (pretty k)) by lia.
    change 2 with (String.length "sd") at 1.
    rewrite substring_skip_append. apply substring_0_append. }
  split; [|split; [done|rewrite Htext; apply decimal_int_pretty]].
  unfold glob_sd_csdat, sector_filename.
  rewrite !string_length_append.
  change (String.length "sd") with 2. change (String.length ".csdat") with 6.
  apply andb_true_intro. split; [apply andb_true_intro; split|].
  - apply prefix_append.
  - apply Nat.leb_le. lia.
  - replace (2 + (String.length (pretty k) + 6) - 6)
      with (String.length ("sd" +:+ pretty k)) by (rewrite string_length_append; simpl; lia).
    rewrite <- string_append_assoc.
    rewrite substring_skip_append.
    change 6 with (String.length ".csdat"). rewrite substring_0_all. reflexivity.
Qed.
